(** * offlineimap3: the Maildir folder backend (offlineimap/folder/Maildir.py)

    A shallow embedding of [MaildirFolder] and of the module-level token
    generator [_gettimeseq], with the properties of the filename codec, the
    folder scanner, the flag engine and the message store proved over it.

    Conventions of the embedding.
    - A Python [str] is a [list ascii]: one [ascii] per code point, for
      code points below 256.  The character classes [\d] and [\w] of the
      [re] module are the Unicode ones restricted to that range.
    - A Python [int] is a [Z].  A [set] of flag characters is a [gset ascii],
      a [dict] keyed by integers a [gmap Z _].
    - The file system is an association list from path strings to file
      contents, in directory order; paths are compared as strings (no
      symbolic links, no [.] or [..] components).  [os.rename] and
      [os.unlink] fail exactly when their source path does not exist, the
      three Maildir subdirectories always exist, and [new] and [cur] hold
      regular files only.  The outcome of [deletemessage] when
      [os.unlink] fails is stated for every behaviour of [os.unlink], over
      [deletemessage_with].
    - Methods that touch the disk, the message list or the token table run
      in a state-and-exception monad; a raised exception keeps the state
      reached so far, as in Python. *)

From Stdlib Require Import ZArith Ascii String List Lia DecimalString.
From stdpp Require Import base decidable option list gmap sorting.
From stdpp Require strings.
From Stdlib Require DecimalPos DecimalZ.

Local Open Scope Z_scope.
Local Open Scope char_scope.

(* ===================================================================== *)
(** * Strings *)
(* ===================================================================== *)

Abbreviation str := (list ascii).

(** A string literal as a Python [str]. *)
Definition lit (s : string) : str := list_ascii_of_string s.

Definition ord (c : ascii) : N := N_of_ascii c.

Definition in_range (lo hi c : ascii) : bool :=
  ((ord lo <=? ord c) && (ord c <=? ord hi))%N.

(** [\d] of a [str] pattern: the decimal digits. *)
Definition is_digit (c : ascii) : bool := in_range "0" "9" c.

(** [\w] of a [str] pattern: alphanumeric code points and the underscore.
    Below 128 these are the ASCII letters and digits; in 128..255 Python's
    [str.isalnum] holds of the letters and of the numeric signs listed. *)
Definition is_word (c : ascii) : bool :=
  in_range "a" "z" c || in_range "A" "Z" c || is_digit c ||
  bool_decide (c = "_") ||
  bool_decide (ord c ∈ [170; 178; 179; 181; 185; 186; 188; 189; 190]%N) ||
  ((192 <=? ord c)%N && negb (bool_decide (ord c ∈ [215; 247]%N))).

(** [[a-fA-F0-9]] *)
Definition is_hex (c : ascii) : bool :=
  in_range "a" "f" c || in_range "A" "F" c || is_digit c.

(** [s.startswith(p)], returning the rest of [s]. *)
Fixpoint strip_prefix (p s : str) : option str :=
  match p, s with
  | [], _ => Some s
  | a :: p', b :: s' => if decide (a = b) then strip_prefix p' s' else None
  | _ :: _, [] => None
  end.

(** [needle in s] *)
Fixpoint contains (needle s : str) : bool :=
  match strip_prefix needle s with
  | Some _ => true
  | None => match s with [] => false | _ :: s' => contains needle s' end
  end.

(** The longest run of characters of class [cls] at the start of [s]:
    what a greedy [cls*] consumes. *)
Fixpoint run (cls : ascii → bool) (s : str) : str :=
  match s with
  | c :: s' => if cls c then c :: run cls s' else []
  | [] => []
  end.

(** [int(s)] on a string of decimal digits. *)
Definition digit_val (c : ascii) : Z := Z.of_N (ord c) - 48.

Definition int_of_digits (s : str) : Z :=
  foldl (λ acc c, 10 * acc + digit_val c) 0 s.

(** ['%d' % z] *)
Definition fmt_d (z : Z) : str :=
  lit (NilZero.string_of_int (Z.to_int z)).

(** [s.replace(a, b)] for single characters [a] and [b]. *)
Definition replace_char (a b : ascii) (s : str) : str :=
  (λ c, if decide (c = a) then b else c) <$> s.

(* --------------------------------------------------------------------- *)
(** ** Regular expressions

    Every pattern of the module has the shape [literal (class-run)], the
    run being [class+] or [class*]; [re_match_at] is a match of such a
    pattern at the start of the subject and [re_search] the leftmost
    match, as [re.search] finds it.  A match is given as the offset where
    it starts and the text of group 1; the whole match, [m.group()], is
    the literal followed by group 1. *)

Record regex := Regex {
  re_literal : str;
  re_class : ascii → bool;
  re_min : nat       (* 1 for [+], 0 for [*] *)
}.

Definition re_match_at (r : regex) (s : str) : option str :=
  rest ← strip_prefix (re_literal r) s;
  let g := run (re_class r) rest in
  if decide (re_min r ≤ length g)%nat then Some g else None.

Fixpoint re_search (r : regex) (s : str) : option (nat * str) :=
  match re_match_at r s with
  | Some g => Some (0%nat, g)
  | None =>
      match s with
      | [] => None
      | _ :: s' => prod_map S id <$> re_search r s'
      end
  end.

Definition group1 (m : nat * str) : str := m.2.
Definition group0 (r : regex) (m : nat * str) : str := re_literal r ++ m.2.

(** [re_uidmatch = re.compile(',U=(\d+)')] *)
Definition re_uidmatch : regex := Regex (lit ",U=") is_digit 1.
(** [re_timestampmatch = re.compile('(\d+)')] *)
Definition re_timestampmatch : regex := Regex [] is_digit 1.

(* --------------------------------------------------------------------- *)
(** ** [os.path] on POSIX *)

Definition os_path_sep : ascii := "/".

Definition is_sep (c : ascii) : bool := bool_decide (c = os_path_sep).

(** [os.path.join(a, b)] *)
Definition os_path_join (a b : str) : str :=
  match b with
  | "/" :: _ => b
  | _ =>
      match last a with
      | None => b
      | Some "/" => a ++ b
      | Some _ => a ++ "/" :: b
      end
  end.

(** [os.path.split(p)]: the tail is what follows the last slash
    ([p[p.rfind('/') + 1:]]); the head is what precedes it, without its
    trailing slashes unless it consists of slashes only. *)
Definition rstrip_sep (s : str) : str :=
  reverse (drop (length (run is_sep (reverse s))) (reverse s)).

Definition os_path_split (p : str) : str * str :=
  let tail := reverse (run (λ c, negb (is_sep c)) (reverse p)) in
  let head := take (length p - length tail) p in
  (if forallb is_sep head then head else rstrip_sep head, tail).

(* ===================================================================== *)
(** * The folder object, the process and the mutable state *)
(* ===================================================================== *)

(** The attributes of a [MaildirFolder] that are fixed by [__init__].
    [maxsize] and [_filename_use_mail_timestamp] come from [BaseFolder] and
    the configuration, which are outside this module. *)
Record MaildirFolder := {
  name : str;
  infosep : ascii;
  _foldermd5 : str;
  _fullname : str;
  _utime_from_header : bool;
  sep_subst : ascii;
  maxsize : option Z;
  _filename_use_mail_timestamp : bool
}.

(** [MaildirFolder.__init__]: [md5_hexdigest] is [hashlib.md5(b).hexdigest()],
    [root], [visiblename] and the options are what the repository and the
    configuration hand over. *)
Definition MaildirFolder_init (md5_hexdigest : str → str)
    (root name visiblename : str) (wincompatible utime_from_header : bool)
    (maxsize : option Z) (use_mail_timestamp : bool) : MaildirFolder :=
  {| name := name;
     infosep := if wincompatible then "!" else ":";
     _foldermd5 := md5_hexdigest visiblename;
     _fullname := os_path_join root name;
     _utime_from_header := utime_from_header;
     sep_subst := if decide (os_path_sep = "-") then "_" else "-";
     maxsize := maxsize;
     _filename_use_mail_timestamp := use_mail_timestamp |}.

Definition getfullname (self : MaildirFolder) : str := _fullname self.
Definition getmaxsize (self : MaildirFolder) : option Z := maxsize self.
Definition get_uidvalidity (self : MaildirFolder) : Z := 42.

(** What [__init__] establishes: the separator is one of the two
    configured ones, the fingerprint is a hex digest of 32 characters and
    the path separator is replaced by a dash. *)
Definition folder_ok (self : MaildirFolder) : Prop :=
  (infosep self = ":" ∨ infosep self = "!") ∧
  forallb is_hex (_foldermd5 self) = true ∧
  length (_foldermd5 self) = 32%nat ∧
  sep_subst self = "-".

(** [self.re_flagmatch]: the separator, the text [2,] and a group of
    [\w] characters, possibly empty. *)
Definition re_flagmatch (self : MaildirFolder) : regex :=
  Regex (infosep self :: lit "2,") is_word 0.

(** [self.re_prefixmatch]: a group of characters other than the separator
    and the comma, possibly empty. *)
Definition re_prefixmatch (self : MaildirFolder) : regex :=
  Regex [] (λ c, negb (bool_decide (c = infosep self) || bool_decide (c = ","))) 0.

(** The process the folder lives in. *)
Record Process := { getpid : Z; gethostname : str }.

(** An entry of [self.messagelist], and the assignments to its two keys. *)
Record item := Item { flags : gset ascii; filename : str }.

Definition with_flags (fl : gset ascii) (it : item) : item :=
  Item fl (filename it).
Definition with_filename (fn : str) (it : item) : item :=
  Item (flags it) fn.

(** A message to be stored: its bytes and what
    [BaseFolder.get_message_date] reads from its headers. *)
Record Message := {
  as_bytes : str;
  date_header : option Z;
  delivery_date_header : option Z
}.

Inductive syscall :=
| SysRename (src dst : str)
| SysUnlink (path : str)
| SysCreate (path : str).

Inductive exn :=
| OSError_ENOENT
| OSError_EEXIST
| OfflineImapError_FOLDER
| OfflineImapError_MESSAGE
| AssertionError
| KeyError
| TypeError
| UnboundLocalError.

Global Instance exn_eq_dec : EqDecision exn.
Proof. solve_decision. Defined.

(** The exceptions an [except OSError] clause catches. *)
Definition is_OSError (e : exn) : bool :=
  match e with
  | OSError_ENOENT | OSError_EEXIST => true
  | _ => false
  end.

(** What the folder reports to [self.ui] in [migratefmd5]. *)
Inductive ui_message :=
| UiDebugNoFMD5 (path : str)
| UiInfoMigrating (path : str)
| UiWarnInconsistent (path : str).

(** The mutable state: the folder's message list, the disk, the module
    globals [timehash] (behind [timelock]), the clock [int(time.time())],
    the log of the file-system calls made so far and the reports sent to
    the user interface. *)
Record State := {
  messagelist : gmap Z item;
  disk : list (str * str);
  timehash : gmap Z Z;
  clock : Z;
  syscalls : list syscall;
  ui : list ui_message
}.

Definition set_messagelist (f : gmap Z item → gmap Z item) (σ : State) :=
  {| messagelist := f (messagelist σ); disk := disk σ; timehash := timehash σ;
     clock := clock σ; syscalls := syscalls σ; ui := ui σ |}.
Definition set_disk (f : list (str * str) → list (str * str)) (σ : State) :=
  {| messagelist := messagelist σ; disk := f (disk σ); timehash := timehash σ;
     clock := clock σ; syscalls := syscalls σ; ui := ui σ |}.
Definition set_timehash (f : gmap Z Z → gmap Z Z) (σ : State) :=
  {| messagelist := messagelist σ; disk := disk σ; timehash := f (timehash σ);
     clock := clock σ; syscalls := syscalls σ; ui := ui σ |}.
Definition set_clock (t : Z) (σ : State) :=
  {| messagelist := messagelist σ; disk := disk σ; timehash := timehash σ;
     clock := t; syscalls := syscalls σ; ui := ui σ |}.
Definition log_syscall (c : syscall) (σ : State) :=
  {| messagelist := messagelist σ; disk := disk σ; timehash := timehash σ;
     clock := clock σ; syscalls := syscalls σ ++ [c]; ui := ui σ |}.
Definition ui_report (m : ui_message) (σ : State) :=
  {| messagelist := messagelist σ; disk := disk σ; timehash := timehash σ;
     clock := clock σ; syscalls := syscalls σ; ui := ui σ ++ [m] |}.

(* --------------------------------------------------------------------- *)
(** ** The monad *)

Inductive outcome (A : Type) :=
| Return (a : A)
| Raise (e : exn).
Arguments Return {A} a.
Arguments Raise {A} e.

Definition M (A : Type) : Type := State → outcome A * State.

Global Instance M_ret : MRet M := λ A a σ, (Return a, σ).
Global Instance M_bind : MBind M := λ A B k m σ,
  match m σ with
  | (Return a, σ') => k a σ'
  | (Raise e, σ') => (Raise e, σ')
  end.

Definition raise {A} (e : exn) : M A := λ σ, (Raise e, σ).
Definition gets {A} (f : State → A) : M A := λ σ, (Return (f σ), σ).
Definition modify (f : State → State) : M unit := λ σ, (Return tt, f σ).

(** [try: m except: handler]; the handler sees the state at the raise. *)
Definition try_except {A} (m : M A) (handler : exn → M A) : M A :=
  λ σ, match m σ with
       | (Return a, σ') => (Return a, σ')
       | (Raise e, σ') => handler e σ'
       end.

(* --------------------------------------------------------------------- *)
(** ** The file system

    The disk is a list of regular files, in directory order, that one
    process changes at a time: [new] and [cur] hold no subdirectory, and a
    call fails for one reason only, a path that is missing ([os.rename],
    [os.unlink]) or taken ([os.open] with [O_EXCL]).  What a function does
    when [os.unlink] fails for any other reason, or when another process
    interferes, is stated over [deletemessage_with], which takes the
    behaviour of [os.unlink] as a parameter. *)

Fixpoint fs_read (d : list (str * str)) (p : str) : option str :=
  match d with
  | [] => None
  | (q, c) :: d' => if decide (q = p) then Some c else fs_read d' p
  end.

Definition fs_remove (p : str) (d : list (str * str)) : list (str * str) :=
  filter (λ e, e.1 ≠ p) d.

(** [os.listdir(dir)] for a directory of regular files: the names of the
    files directly in [dir]. *)
Definition os_listdir (d : list (str * str)) (dir : str) : list str :=
  omap (λ e, n ← strip_prefix (dir ++ [os_path_sep]) e.1;
             if decide (n ≠ [] ∧ os_path_sep ∉ n) then Some n else None) d.

(** [os.path.getsize(p)]; the scanner applies it to listed files only. *)
Definition os_path_getsize (d : list (str * str)) (p : str) : Z :=
  from_option (λ c, Z.of_nat (length c)) 0 (fs_read d p).

(** [os.rename(src, dst)] replaces [dst] when it exists. *)
Definition os_rename (src dst : str) : M unit := λ σ,
  let σ := log_syscall (SysRename src dst) σ in
  match fs_read (disk σ) src with
  | None => (Raise OSError_ENOENT, σ)
  | Some c =>
      (Return tt, set_disk (λ d, (dst, c) :: fs_remove dst (fs_remove src d)) σ)
  end.

(** [os.unlink(path)] *)
Definition os_unlink (path : str) : M unit := λ σ,
  let σ := log_syscall (SysUnlink path) σ in
  match fs_read (disk σ) path with
  | None => (Raise OSError_ENOENT, σ)
  | Some _ => (Return tt, set_disk (fs_remove path) σ)
  end.

(** [os.unlink(path)] when it loses a race: another process has removed
    the file at [path] just before the call, which fails with [ENOENT]. *)
Definition os_unlink_raced (path : str) : M unit := λ σ,
  (Raise OSError_ENOENT, set_disk (fs_remove path) (log_syscall (SysUnlink path) σ)).

(** [os.open(path, O_EXCL | O_CREAT | O_WRONLY)] followed by the write of
    [content] and the close. *)
Definition os_create_excl (path content : str) : M unit := λ σ,
  let σ := log_syscall (SysCreate path) σ in
  match fs_read (disk σ) path with
  | Some _ => (Raise OSError_EEXIST, σ)
  | None => (Return tt, set_disk (λ d, d ++ [(path, content)]) σ)
  end.

(* ===================================================================== *)
(** * The unique token generator *)
(* ===================================================================== *)

(** [_gettimeseq(date=None)]; the lock makes the body atomic, so a call is
    one step on the state. *)
Definition _gettimeseq (date : option Z) : M (Z * Z) :=
  now ← gets clock;
  let date := match date with None => now | Some d => d end in
  th ← gets timehash;
  (if decide (is_Some (th !! date))
   then modify (set_timehash (λ th, <[date := default 0 (th !! date) + 1]> th))
   else modify (set_timehash (λ th, <[date := 0]> th)));;
  th ← gets timehash;
  mret (date, default 0 (th !! date)).

(* ===================================================================== *)
(** * The filename codec *)
(* ===================================================================== *)

(** [_iswithintime(messagename, date)]; [date] stands for the value of
    [time.mktime(date)], a whole number of seconds. *)
Definition _iswithintime (messagename : str) (date : Z) : bool :=
  match re_search re_timestampmatch messagename with
  | None => true
  | Some timestampmatch =>
      let timestampstr := group0 re_timestampmatch timestampmatch in
      let timestamplong := int_of_digits timestampstr in
      if decide (timestamplong < date) then false else true
  end.

(** [_parse_filename(filename)] returns [(prefix, uid, fmd5, flags)]. *)
Definition _parse_filename (self : MaildirFolder) (filename : str)
    : option str * option Z * option str * gset ascii :=
  let prefix := re_match_at (re_prefixmatch self) filename in
  let folderstr := lit ",FMD5=" ++ _foldermd5 self in
  let foldermatch := contains folderstr filename in
  let uid :=
    if foldermatch
    then uidmatch ← re_search re_uidmatch filename;
         Some (int_of_digits (group1 uidmatch))
    else None in
  let flags : gset ascii :=
    match re_search (re_flagmatch self) filename with
    | Some flagmatch => list_to_set (group1 flagmatch)
    | None => ∅
    end in
  (prefix, uid, None, flags).

(** [''.join(sorted(flags))] *)
Definition ascii_le (a b : ascii) : Prop := (ord a ≤ ord b)%N.
Global Instance ascii_le_dec : RelDecision ascii_le.
Proof. intros a b; unfold ascii_le; apply _. Defined.

Definition sorted_flags (flags : gset ascii) : str :=
  merge_sort ascii_le (elements flags).

(** [new_message_filename(uid, flags=None, date=None)] *)
Definition new_message_filename (self : MaildirFolder) (proc : Process)
    (uid : Z) (flags : option (gset ascii)) (date : option Z) : M str :=
  let flags := match flags with None => ∅ | Some flags => flags end in
  '(timeval, timeseq) ← _gettimeseq date;
  let uniq_name :=
    fmt_d timeval ++ lit "_" ++ fmt_d timeseq ++ lit "." ++
    fmt_d (getpid proc) ++ lit "." ++ gethostname proc ++
    lit ",U=" ++ fmt_d uid ++ lit ",FMD5=" ++ _foldermd5 self ++
    infosep self :: lit "2," ++ sorted_flags flags in
  mret (replace_char os_path_sep (sep_subst self) uniq_name).

(* ===================================================================== *)
(** * The folder scanner *)
(* ===================================================================== *)

(** [msglist_item_initializer(uid)] *)
Definition msglist_item_initializer (uid : Z) : item :=
  Item ∅ (lit "/no-dir/no-such-file/").

(** The local variables of [_scanfolder] that its loop updates. *)
Record scan := Scan {
  retval : gmap Z item;
  date_excludees : gmap Z item;
  nouidcounter : Z
}.

(** The [(dirannex, filename)] pairs listed from [new] and then [cur]. *)
Definition scan_files (self : MaildirFolder) (d : list (str * str))
    : list (str * str) :=
  dirannex ← [lit "new"; lit "cur"];
  let fulldirname := os_path_join (getfullname self) dirannex in
  filename ← os_listdir d fulldirname;
  [(dirannex, filename)].

(** One round of the loop over [files]. *)
Definition scan_file (self : MaildirFolder) (d : list (str * str))
    (min_date min_uid : option Z) (s : scan) (f : str * str) : scan :=
  let '(dirannex, filename) := f in
  if bool_decide (is_Some (strip_prefix (lit ".") filename)) then s else
  let filepath := os_path_join dirannex filename in
  if match getmaxsize self with
     | Some maxsize =>
         bool_decide (maxsize ≠ 0) &&
         bool_decide (os_path_getsize d (os_path_join (getfullname self) filepath) > maxsize)
     | None => false
     end
  then s else
  let '(prefix, uid, fmd5, flags) := _parse_filename self filename in
  let '(uid, counter) :=
    match uid with
    | None => (nouidcounter s, nouidcounter s - 1)
    | Some _ =>
        match re_search re_uidmatch filename with
        | None => (nouidcounter s, nouidcounter s - 1)
        | Some uidmatch => (int_of_digits (group1 uidmatch), nouidcounter s)
        end
    end in
  if match min_uid with
     | Some min_uid => bool_decide (uid > 0) && bool_decide (uid < min_uid)
     | None => false
     end
  then Scan (retval s) (date_excludees s) counter else
  if match min_date with
     | Some min_date => negb (_iswithintime filename min_date)
     | None => false
     end
  then
    let it := msglist_item_initializer uid in
    let it := with_filename filepath (with_flags flags it) in
    Scan (retval s) (<[uid := it]> (date_excludees s)) counter
  else
    let it := msglist_item_initializer uid in
    let it := with_filename filepath (with_flags flags it) in
    Scan (<[uid := it]> (retval s)) (date_excludees s) counter.

(** The state of [_scanfolder] when the loop over the files ends. *)
Definition scan_loop (self : MaildirFolder) (d : list (str * str))
    (min_date min_uid : option Z) : scan :=
  foldl (scan_file self d min_date min_uid) (Scan ∅ ∅ (-1)) (scan_files self d).

(** [min(l)] for a list that is not empty. *)
Definition py_min (l : list Z) : option Z :=
  match l with
  | [] => None
  | x :: l' => Some (foldl Z.min x l')
  end.

(** The re-inclusion of date-excluded messages with a high enough UID. *)
Definition reinclude (s : scan) : gmap Z item :=
  let positive_uids := filter (λ uid, uid > 0) (map_to_list (retval s)).*1 in
  match py_min positive_uids with
  | None => retval s
  | Some min_uid =>
      foldl (λ retval e,
               if decide (e.1 > min_uid) then <[e.1 := e.2]> retval else retval)
            (retval s) (map_to_list (date_excludees s))
  end.

(** [_scanfolder(min_date, min_uid)] *)
Definition _scanfolder (self : MaildirFolder) (d : list (str * str))
    (min_date min_uid : option Z) : gmap Z item :=
  let s := scan_loop self d min_date min_uid in
  match min_date with
  | Some _ => reinclude s
  | None => retval s
  end.

(* ===================================================================== *)
(** * Flags, storing and deleting *)
(* ===================================================================== *)

(** [savemessageflags(uid, flags)] *)
Definition savemessageflags (self : MaildirFolder) (uid : Z)
    (flags' : gset ascii) : M unit :=
  ml ← gets messagelist;
  match ml !! uid with
  | None => raise AssertionError
  | Some it =>
      let oldfilename := filename it in
      let '(dir_prefix, filename) := os_path_split oldfilename in
      let dir_prefix := if decide ("S" ∈ flags') then lit "cur" else lit "new" in
      let filename :=
        if decide (flags' ≠ flags it) then
          let filename :=
            match re_search (re_flagmatch self) filename with
            | Some infomatch =>
                take (length filename - length (group0 (re_flagmatch self) infomatch))
                     filename
            | None => filename
            end in
          let infostr := infosep self :: lit "2," ++ sorted_flags flags' in
          filename ++ infostr
        else filename in
      let newfilename := os_path_join dir_prefix filename in
      if decide (newfilename ≠ oldfilename) then
        try_except
          (os_rename (os_path_join (getfullname self) oldfilename)
                     (os_path_join (getfullname self) newfilename))
          (λ _, raise OfflineImapError_FOLDER);;
        modify (set_messagelist
                  (<[uid := with_filename newfilename (with_flags flags' it)]>))
      else mret tt
  end.

(** [hasattr(e, 'EEXIST')] on the [OSError] that [os.open] raises: the
    exception object has [errno], [strerror] and [filename], and no
    attribute [EEXIST]. *)
Definition OSError_hasattr_EEXIST : bool := false.

(** The loop of [save_to_tmp_file] with [tries] rounds left; the open, the
    write and the close of the file are one step.  [time.sleep] changes
    nothing in the state.  The loop is entered with 7 rounds; with none
    left, [fd] would be unbound after it. *)
Fixpoint save_to_tmp_loop (tries : nat) (path content : str) : M unit :=
  match tries with
  | O => raise UnboundLocalError
  | S tries =>
      try_except (os_create_excl path content)
        (λ e,
           if negb OSError_hasattr_EEXIST then raise e
           else if decide (e = OSError_EEXIST) then
             match tries with
             | S _ => save_to_tmp_loop tries path content
             | O => raise OfflineImapError_MESSAGE
             end
           else raise e)
  end.

(** [save_to_tmp_file(filename, msg)] *)
Definition save_to_tmp_file (self : MaildirFolder) (filename : str)
    (msg : Message) : M str :=
  let tmpname := os_path_join (lit "tmp") filename in
  save_to_tmp_loop 7 (os_path_join (getfullname self) tmpname) (as_bytes msg);;
  mret tmpname.

(** [savemessage(uid, msg, flags, rtime)].  [get_message_date] is taken not
    to raise; the modification time set under [_utime_from_header] is not
    part of the disk model. *)
Definition savemessage (self : MaildirFolder) (proc : Process) (uid : Z)
    (msg : Message) (flags' : gset ascii) (rtime : Z) : M Z :=
  if decide (uid < 0) then mret uid else
  ml ← gets messagelist;
  if decide (is_Some (ml !! uid)) then
    savemessageflags self uid flags';;
    mret uid
  else
    let message_timestamp :=
      if _filename_use_mail_timestamp self then
        match date_header msg with
        | Some t => Some t
        | None => delivery_date_header msg
        end
      else None in
    messagename ← new_message_filename self proc uid (Some flags') message_timestamp;
    tmpname ← save_to_tmp_file self messagename msg;
    modify (set_messagelist
              (<[uid := with_filename tmpname
                          (with_flags flags' (msglist_item_initializer uid))]>));;
    savemessageflags self uid flags';;
    mret uid.

(** [getmessageflags(uid)] *)
Definition getmessageflags (uid : Z) : M (gset ascii) :=
  ml ← gets messagelist;
  match ml !! uid with
  | Some it => mret (flags it)
  | None => raise KeyError
  end.

(** [deletemessage(uid)], over the behaviour [unlink] of [os.unlink]: the
    first call is inside the [try], the second one is not. *)
Definition deletemessage_with (unlink : str → M unit) (self : MaildirFolder)
    (uid : Z) : M unit :=
  ml ← gets messagelist;
  match ml !! uid with
  | None => raise KeyError
  | Some it =>
      let filepath := os_path_join (getfullname self) (filename it) in
      try_except (unlink filepath)
        (λ e,
           if is_OSError e then
             d ← gets disk;
             let newmsglist := _scanfolder self d None None in
             match newmsglist !! uid with
             | Some it' =>
                 unlink (os_path_join (getfullname self) (filename it'))
             | None => mret tt
             end
           else raise e);;
      modify (set_messagelist (delete uid))
  end.

(** [deletemessage(uid)] with the [os.unlink] of the disk model. *)
Definition deletemessage (self : MaildirFolder) (uid : Z) : M unit :=
  deletemessage_with os_unlink self uid.

(** [change_message_uid(uid, new_uid)]; the entry of [uid] is one dict
    object, which moves to the key [new_uid] with its new file name. *)
Definition change_message_uid (self : MaildirFolder) (proc : Process)
    (uid new_uid : Z) : M unit :=
  ml ← gets messagelist;
  match ml !! uid with
  | None => raise OfflineImapError_MESSAGE
  | Some it =>
      if decide (uid = new_uid) then mret tt else
      let oldfilename := filename it in
      let '(dir_prefix, filename) := os_path_split oldfilename in
      flags ← getmessageflags uid;
      name ← new_message_filename self proc new_uid (Some flags) None;
      let newfilename := os_path_join dir_prefix name in
      os_rename (os_path_join (getfullname self) oldfilename)
                (os_path_join (getfullname self) newfilename);;
      modify (set_messagelist
                (λ ml, delete uid (<[new_uid := with_filename newfilename it]> ml)))
  end.

(* ===================================================================== *)
(** * The fingerprint migration *)
(* ===================================================================== *)

(** What is handed to [hashlib.md5]: a [str] or a [bytes] object. *)
Inductive pydata :=
| PyStr (s : str)
| PyBytes (b : str).

(** [s.encode('utf-8')] *)
Definition encode_utf8 (s : str) : pydata := PyBytes s.

(** [s.replace(old, new)] for a pattern [old] that is not empty: the
    occurrences are replaced from the left and do not overlap.  [skip] is
    the number of characters of a replaced occurrence still to be passed. *)
Fixpoint str_replace_from (skip : nat) (old new s : str) : str :=
  match s with
  | [] => []
  | c :: s' =>
      match skip with
      | S k => str_replace_from k old new s'
      | O =>
          match strip_prefix old s with
          | Some _ => new ++ str_replace_from (length old - 1) old new s'
          | None => c :: str_replace_from 0 old new s'
          end
      end
  end.

Definition str_replace (old new s : str) : str := str_replace_from 0 old new s.

(** [re.search("FMD5=([a-fA-F0-9]+)", filename)] *)
Definition re_fmd5 : regex := Regex (lit "FMD5=") is_hex 1.

Section migration.
(** [hashlib.md5(b).hexdigest()] on bytes. *)
Variable md5_hexdigest : str → str.

(** [hashlib.md5(data).hexdigest()]: hashing a [str] raises [TypeError],
    text has to be encoded first, as [__init__] does. *)
Definition hashlib_md5 (data : pydata) : M str :=
  match data with
  | PyStr _ => raise TypeError
  | PyBytes b => mret (md5_hexdigest b)
  end.

(** The body of the loop of [migratefmd5] for one entry of [msglist]. *)
Definition migrate_entry (self : MaildirFolder) (dryrun : bool)
    (oldfmd5 : str) (mvalue : item) : M unit :=
  let filename := os_path_join (getfullname self) (filename mvalue) in
  match re_search re_fmd5 filename with
  | None => modify (ui_report (UiDebugNoFMD5 filename))
  | Some m =>
      if decide (group1 m = oldfmd5) then
        modify (ui_report (UiInfoMigrating filename));;
        if dryrun then mret tt else
          let newfilename :=
            str_replace (lit "FMD5=" ++ group1 m)
                        (lit "FMD5=" ++ _foldermd5 self) filename in
          try_except (os_rename filename newfilename)
                     (λ _, raise OfflineImapError_FOLDER)
      else if decide (group1 m ≠ _foldermd5 self) then
        modify (ui_report (UiWarnInconsistent filename))
      else mret tt
  end.

Fixpoint migrate_loop (self : MaildirFolder) (dryrun : bool)
    (oldfmd5 : str) (items : list (Z * item)) : M unit :=
  match items with
  | [] => mret tt
  | (mkey, mvalue) :: items' =>
      migrate_entry self dryrun oldfmd5 mvalue;;
      migrate_loop self dryrun oldfmd5 items'
  end.

(** [migratefmd5(dryrun)].  [self.name] is a [str]. *)
Definition migratefmd5 (self : MaildirFolder) (dryrun : bool) : M unit :=
  oldfmd5 ← hashlib_md5 (PyStr (name self));
  d ← gets disk;
  let msglist := _scanfolder self d None None in
  migrate_loop self dryrun oldfmd5 (map_to_list msglist).
End migration.

(* ===================================================================== *)
(** * Call sequences *)
(* ===================================================================== *)

(** A sequence of calls of [_gettimeseq] in one process, in the order in
    which they take the lock.  A call is the [date] argument and the value
    [int(time.time())] has when the call is made. *)
Fixpoint gettimeseq_calls (calls : list (option Z * Z)) : M (list (Z * Z)) :=
  match calls with
  | [] => mret []
  | (date, now) :: calls' =>
      modify (set_clock now);;
      r ← _gettimeseq date;
      rs ← gettimeseq_calls calls';
      mret (r :: rs)
  end.

(** The timestamp a call is about: its [date], or the time of the call. *)
Definition call_stamp (c : option Z * Z) : Z :=
  match c.1 with
  | Some d => d
  | None => c.2
  end.

(** How often [t] occurs in [l]. *)
Definition occurrences (t : Z) (l : list Z) : nat :=
  length (filter (λ x, x = t) l).

(** The sequence number [_gettimeseq] hands out next for [t]. *)
Definition next_seq (th : gmap Z Z) (t : Z) : Z :=
  match th !! t with
  | Some n => n + 1
  | None => 0
  end.

(** The results of a call sequence, read off the token table. *)
Fixpoint token_results (th : gmap Z Z) (calls : list (option Z * Z))
    : list (Z * Z) :=
  match calls with
  | [] => []
  | c :: calls' =>
      let t := call_stamp c in
      (t, next_seq th t) :: token_results (<[t := next_seq th t]> th) calls'
  end.

(* ===================================================================== *)
(** * Vocabulary of the statements *)
(* ===================================================================== *)

(** The components of [_parse_filename]. *)
Definition parsed_uid (self : MaildirFolder) (filename : str) : option Z :=
  (_parse_filename self filename).1.1.2.
Definition parsed_flags (self : MaildirFolder) (filename : str) : gset ascii :=
  (_parse_filename self filename).2.

(** The value of the fingerprint marker of a file name, as [migratefmd5]
    reads it: the hex digits after the first [FMD5=] that has some. *)
Definition fmd5_marker (filename : str) : option str :=
  group1 <$> re_search re_fmd5 filename.

(** The tests of the scanner's loop, in the order in which it makes them. *)
Definition hidden (filename : str) : bool :=
  bool_decide (is_Some (strip_prefix (lit ".") filename)).

Definition oversize (self : MaildirFolder) (d : list (str * str))
    (f : str * str) : bool :=
  match getmaxsize self with
  | Some maxsize =>
      bool_decide (maxsize ≠ 0) &&
      bool_decide (os_path_getsize d
                     (os_path_join (getfullname self) (os_path_join f.1 f.2)) > maxsize)
  | None => false
  end.

(** The files the scanner decodes. *)
Definition considered (self : MaildirFolder) (d : list (str * str))
    (f : str * str) : bool :=
  negb (hidden f.2) && negb (oversize self d f).

(** The UID floor: the UID is positive and below [min_uid]. *)
Definition below_floor (min_uid : option Z) (uid : Z) : bool :=
  match min_uid with
  | Some min_uid => bool_decide (uid > 0) && bool_decide (uid < min_uid)
  | None => false
  end.

(** The date test: the name carries a timestamp earlier than [min_date]. *)
Definition too_old (min_date : option Z) (filename : str) : bool :=
  match min_date with
  | Some min_date => negb (_iswithintime filename min_date)
  | None => false
  end.

(** The first run of decimal digits of a file name, in the words of the
    claim about the date filter, without the pattern of the code: the
    digits that follow the longest start of the name that has no digit;
    empty when the name has no digit at all. *)
Definition first_digit_run (filename : str) : str :=
  run is_digit
    (drop (length (run (λ c, negb (is_digit c)) filename)) filename).

(** The name has a first run of digits and that run, read as a decimal
    number, is earlier than [min_date]. *)
Definition earlier_than (min_date : option Z) (filename : str) : bool :=
  match min_date with
  | Some min_date =>
      negb (bool_decide (first_digit_run filename = [])) &&
      bool_decide (int_of_digits (first_digit_run filename) < min_date)
  | None => false
  end.

(** The entry the scanner makes for the file [f] under the key [uid]: the
    key is the UID decoded from the name, or a negative number when the
    name has no UID that belongs to this folder. *)
Definition entry_of (self : MaildirFolder) (f : str * str) (uid : Z)
    (it : item) : Prop :=
  it = Item (parsed_flags self f.2) (os_path_join f.1 f.2) ∧
  (parsed_uid self f.2 = Some uid ∨ (parsed_uid self f.2 = None ∧ uid < 0)).

(** What holds of the loop of [_scanfolder] after the files [files]. *)
Definition scan_inv (self : MaildirFolder) (d : list (str * str))
    (min_date min_uid : option Z) (files : list (str * str)) (s : scan) : Prop :=
  nouidcounter s < 0 ∧
  (∀ u, is_Some (retval s !! u) ∨ is_Some (date_excludees s !! u) →
        u < 0 → nouidcounter s < u) ∧
  (∀ u it, retval s !! u = Some it →
     ∃ f, f ∈ files ∧ considered self d f = true ∧ entry_of self f u it ∧
          below_floor min_uid u = false ∧ too_old min_date f.2 = false) ∧
  (∀ u it, date_excludees s !! u = Some it →
     ∃ f, f ∈ files ∧ considered self d f = true ∧ entry_of self f u it ∧
          below_floor min_uid u = false ∧ too_old min_date f.2 = true) ∧
  (∀ f, f ∈ files → considered self d f = true →
     match parsed_uid self f.2 with
     | Some u =>
         below_floor min_uid u = false →
         is_Some ((if too_old min_date f.2 then date_excludees s else retval s) !! u)
     | None =>
         ∃ u, u < 0 ∧
           (if too_old min_date f.2 then date_excludees s else retval s) !! u =
             Some (Item (parsed_flags self f.2) (os_path_join f.1 f.2))
     end).

(** The positive keys of the primary result. *)
Definition positive_uids (s : scan) : list Z :=
  filter (λ uid, uid > 0) (map_to_list (retval s)).*1.

(** The primary result and the side set of [_scanfolder] when its loop
    ends, before any re-inclusion. *)
Definition primary_result (self : MaildirFolder) (d : list (str * str))
    (min_date min_uid : option Z) : gmap Z item :=
  retval (scan_loop self d min_date min_uid).
Definition side_set (self : MaildirFolder) (d : list (str * str))
    (min_date min_uid : option Z) : gmap Z item :=
  date_excludees (scan_loop self d min_date min_uid).

(** The smallest positive UID retained in the primary result, if any. *)
Definition min_positive_uid (self : MaildirFolder) (d : list (str * str))
    (min_date min_uid : option Z) : option Z :=
  py_min (positive_uids (scan_loop self d min_date min_uid)).

(* ===================================================================== *)
(** * A sample mailbox *)
(* ===================================================================== *)

(** The folder [INBOX] under [/home/u/Maildir]; its fingerprint is the MD5
    digest of its name. *)
Definition inbox : MaildirFolder :=
  {| name := lit "INBOX";
     infosep := ":";
     _foldermd5 := lit "7e33429f656f1e6e9d79b29c3f82c57e";
     _fullname := lit "/home/u/Maildir/INBOX";
     _utime_from_header := false;
     sep_subst := "-";
     maxsize := None;
     _filename_use_mail_timestamp := false |}.

Definition sample_process : Process :=
  {| getpid := 123; gethostname := lit "host" |}.

(** A message of UID 7 stamped 900 in [new], one of UID 5 stamped 1000 in
    [cur], a file without any digit in its name and a hidden file. *)
Definition sample_disk : list (str * str) :=
  [ (lit "/home/u/Maildir/INBOX/new/900_0.123.host,U=7,FMD5=7e33429f656f1e6e9d79b29c3f82c57e:2,",
     lit "first");
    (lit "/home/u/Maildir/INBOX/cur/1000_0.123.host,U=5,FMD5=7e33429f656f1e6e9d79b29c3f82c57e:2,S",
     lit "second");
    (lit "/home/u/Maildir/INBOX/cur/note", lit "third");
    (lit "/home/u/Maildir/INBOX/cur/.lock", []) ].

Definition sample_state (ml : gmap Z item) (d : list (str * str)) : State :=
  {| messagelist := ml; disk := d; timehash := ∅; clock := 1000;
     syscalls := []; ui := [] |}.

(** The subdirectory a flag set belongs to. *)
Definition flag_directory (flags' : gset ascii) : str :=
  if decide ("S" ∈ flags') then lit "cur" else lit "new".

(** The file name [savemessageflags] computes for the entry [it] and the
    new flags, and its path below the folder. *)
Definition target_name (self : MaildirFolder) (it : item)
    (flags' : gset ascii) : str :=
  let filename := (os_path_split (filename it)).2 in
  if decide (flags' ≠ flags it) then
    match re_search (re_flagmatch self) filename with
    | Some infomatch =>
        take (length filename - length (group0 (re_flagmatch self) infomatch))
             filename
    | None => filename
    end ++ infosep self :: lit "2," ++ sorted_flags flags'
  else filename.

Definition target_path (self : MaildirFolder) (it : item)
    (flags' : gset ascii) : str :=
  os_path_join (flag_directory flags') (target_name self it flags').

(** [os.path.join(self.getfullname(), path)] *)
Definition abspath (self : MaildirFolder) (path : str) : str :=
  os_path_join (getfullname self) path.

(** The message of UID 5 of the sample mailbox, as the scanner caches it,
    and a message of UID 9 that [savemessage] has just staged under [tmp]. *)
Definition sample_cache : gmap Z item :=
  {[ 5 := Item {[ "S" ]}
            (lit "cur/1000_0.123.host,U=5,FMD5=7e33429f656f1e6e9d79b29c3f82c57e:2,S") ]}.

Definition staged_cache : gmap Z item :=
  {[ 9 := Item ∅ (lit "tmp/1000_0.123.host,U=9,FMD5=7e33429f656f1e6e9d79b29c3f82c57e:2,") ]}.

Definition staged_disk : list (str * str) :=
  [ (lit "/home/u/Maildir/INBOX/tmp/1000_0.123.host,U=9,FMD5=7e33429f656f1e6e9d79b29c3f82c57e:2,",
     lit "body") ].

(** The sample mailbox after another program has taken the Seen flag off
    the message of UID 5 and moved it to [new]. *)
Definition moved_disk : list (str * str) :=
  [ (lit "/home/u/Maildir/INBOX/new/1000_0.123.host,U=5,FMD5=7e33429f656f1e6e9d79b29c3f82c57e:2,",
     lit "second") ].

(** The flag letters: [D], [F], [R], [S], [T] and the lower-case letters
    of custom flags. *)
Definition is_flag_letter (c : ascii) : bool :=
  bool_decide (c ∈ ["D"; "F"; "R"; "S"; "T"]) || in_range "a" "z" c.

(** A process whose host name holds the text of a flags marker. *)
Definition odd_process : Process :=
  {| getpid := 123; gethostname := lit "h:2,T" |}.

(** A mailbox written before the upgrade: the fingerprint in the name is a
    legacy one. *)
Definition legacy_fmd5 : str := lit "0123456789abcdef0123456789abcdef".

Definition legacy_disk : list (str * str) :=
  [ (lit "/home/u/Maildir/INBOX/new/900_0.123.host,U=7,FMD5=0123456789abcdef0123456789abcdef:2,",
     lit "first") ].

(* ===================================================================== *)
(** * Vocabulary of the further statements *)
(* ===================================================================== *)

(** The name [new_message_filename] formats from a token
    [(timeval, timeseq)], before and after the path separator is replaced. *)
Definition message_filename (self : MaildirFolder) (proc : Process)
    (timeval timeseq uid : Z) (flags : gset ascii) : str :=
  replace_char os_path_sep (sep_subst self)
    (fmt_d timeval ++ lit "_" ++ fmt_d timeseq ++ lit "." ++
     fmt_d (getpid proc) ++ lit "." ++ gethostname proc ++
     lit ",U=" ++ fmt_d uid ++ lit ",FMD5=" ++ _foldermd5 self ++
     infosep self :: lit "2," ++ sorted_flags flags).

(** The part of that name before the UID marker. *)
Definition message_prefix (self : MaildirFolder) (proc : Process)
    (timeval timeseq : Z) : str :=
  replace_char os_path_sep (sep_subst self)
    (fmt_d timeval ++ lit "_" ++ fmt_d timeseq ++ lit "." ++
     fmt_d (getpid proc) ++ lit "." ++ gethostname proc).

(** The prefix component of [_parse_filename]. *)
Definition parsed_prefix (self : MaildirFolder) (filename : str) : option str :=
  (_parse_filename self filename).1.1.1.

(** The flags marker of a file name. *)
Definition flag_marker (self : MaildirFolder) (g : str) : str :=
  infosep self :: lit "2," ++ g.

(** The timestamp [savemessage] asks the name to start with. *)
Definition message_timestamp (self : MaildirFolder) (msg : Message) : option Z :=
  if _filename_use_mail_timestamp self then
    match date_header msg with
    | Some t => Some t
    | None => delivery_date_header msg
    end
  else None.

(** A sequence of calls of [new_message_filename] in one process: a call
    is its arguments [uid], [flags] and [date] and the value of
    [int(time.time())] when it is made. *)
Fixpoint new_message_filename_calls (self : MaildirFolder) (proc : Process)
    (calls : list (Z * option (gset ascii) * (option Z * Z))) : M (list str) :=
  match calls with
  | [] => mret []
  | (uid, flags, (date, now)) :: calls' =>
      modify (set_clock now);;
      fn ← new_message_filename self proc uid flags date;
      fns ← new_message_filename_calls self proc calls';
      mret (fn :: fns)
  end.

(** The name made from a token for the arguments of a call. *)
Definition name_of_call (self : MaildirFolder) (proc : Process)
    (tok : Z * Z) (call : Z * option (gset ascii) * (option Z * Z)) : str :=
  message_filename self proc tok.1 tok.2 call.1.1 (default ∅ call.1.2).

(** What [os.path.join] puts before a relative path of the folder. *)
Definition folder_prefix (self : MaildirFolder) : str :=
  match last (getfullname self) with
  | None => []
  | Some c =>
      if decide (c = os_path_sep) then getfullname self
      else getfullname self ++ [os_path_sep]
  end.

(** The staging path and the final path of a message file named [fn]. *)
Definition staging_path (fn : str) : str := lit "tmp" ++ os_path_sep :: fn.
Definition final_path (flags' : gset ascii) (fn : str) : str :=
  flag_directory flags' ++ os_path_sep :: fn.

(** A file name made of an identity part [pre] without separator character
    and of the flags [g]: [pre] and the flags marker, or [pre] alone when
    there are no flags. *)
Definition name_with_flags (self : MaildirFolder) (pre g name : str) : Prop :=
  (infosep self ∉ pre) ∧ forallb is_word g = true ∧
  (name = pre ++ flag_marker self g ∨ (g = [] ∧ name = pre)).

(** The files to which the scanner gives a negative key, in the order of
    the listing: the ones it decodes and in whose name it finds no UID of
    this folder. *)
Definition unowned (self : MaildirFolder) (d : list (str * str))
    (files : list (str * str)) : list (str * str) :=
  filter (λ f, considered self d f = true ∧ parsed_uid self f.2 = None) files.

(** What holds of the negative keys after the files [files]. *)
Definition numbering_inv (self : MaildirFolder) (d : list (str * str))
    (min_date : option Z) (files : list (str * str)) (s : scan) : Prop :=
  nouidcounter s = - Z.of_nat (length (unowned self d files)) - 1 ∧
  (∀ u, u ≤ nouidcounter s →
        retval s !! u = None ∧ date_excludees s !! u = None) ∧
  ∀ i f, unowned self d files !! i = Some f →
    let it := Item (parsed_flags self f.2) (os_path_join f.1 f.2) in
    if too_old min_date f.2
    then date_excludees s !! (- Z.of_nat i - 1) = Some it ∧
         retval s !! (- Z.of_nat i - 1) = None
    else retval s !! (- Z.of_nat i - 1) = Some it ∧
         date_excludees s !! (- Z.of_nat i - 1) = None.

(* ===================================================================== *)
(** * Part II: properties *)
(* ===================================================================== *)

(** ** The token generator *)

Lemma gettimeseq_step (date : option Z) (σ : State) :
  let t := call_stamp (date, clock σ) in
  _gettimeseq date σ =
    (Return (t, next_seq (timehash σ) t),
     set_timehash (<[t := next_seq (timehash σ) t]>) σ).
Proof.
  destruct σ as [ml d th cl sc u]; unfold _gettimeseq, next_seq, call_stamp; simpl.
  unfold mbind, M_bind, gets, modify, mret, M_ret; simpl.
  destruct date as [t|]; simpl;
    (case_decide as E;
     [destruct E as [n E] | apply eq_None_not_Some in E];
     unfold set_timehash; simpl; rewrite lookup_insert_eq, ?E; done).
Qed.

Lemma gettimeseq_calls_run (calls : list (option Z * Z)) (σ : State) :
  ∃ σ', gettimeseq_calls calls σ = (Return (token_results (timehash σ) calls), σ').
Proof.
  revert σ. induction calls as [|[date now] calls IH]; intros σ; simpl.
  - by eexists.
  - unfold mbind, M_bind, modify at 1; simpl.
    rewrite gettimeseq_step; simpl.
    match goal with |- context [gettimeseq_calls calls ?s] =>
      destruct (IH s) as [σ' ->] end.
    simpl. by eexists.
Qed.

Lemma next_seq_insert (th : gmap Z Z) (t t' n : Z) :
  next_seq (<[t := n]> th) t' = if decide (t = t') then n + 1 else next_seq th t'.
Proof.
  unfold next_seq. rewrite lookup_insert. by destruct (decide (t = t')).
Qed.

Lemma occurrences_cons (t x : Z) (l : list Z) :
  occurrences t (x :: l) = ((if decide (x = t) then 1 else 0) + occurrences t l)%nat.
Proof.
  unfold occurrences. rewrite filter_cons. by destruct (decide (x = t)).
Qed.

Lemma occurrences_app (t : Z) (l1 l2 : list Z) :
  occurrences t (l1 ++ l2) = (occurrences t l1 + occurrences t l2)%nat.
Proof. unfold occurrences. by rewrite filter_app, length_app. Qed.

Lemma take_split_at (l : list Z) (i j : nat) (t : Z) :
  l !! i = Some t → (i < j)%nat →
  take j l = take i l ++ t :: take (j - i - 1) (drop (S i) l).
Proof.
  intros Hi Hlt.
  rewrite <- (take_drop_middle l i t Hi) at 1.
  assert (Hlen : length (take i l) = i).
  { apply length_take_le. apply lookup_lt_Some in Hi. lia. }
  rewrite take_app, Hlen.
  rewrite (take_ge (take i l)) by lia.
  destruct (j - i)%nat as [|k] eqn:E; [lia|].
  simpl. by rewrite Nat.sub_0_r.
Qed.

Lemma occurrences_none (t : Z) (l : list Z) :
  (∀ x, x ∈ l → x ≠ t) → occurrences t l = 0%nat.
Proof.
  induction l as [|x l IH]; intros H; [done|].
  rewrite occurrences_cons, decide_False, IH; [done| |].
  - intros y Hy. apply H. by right.
  - apply H. by left.
Qed.

(** The sequence number of the [i]-th call is the number of earlier calls
    for the same timestamp, on top of what the table held before. *)
Lemma token_results_lookup (calls : list (option Z * Z)) (th : gmap Z Z)
    (i : nat) (c : option Z * Z) :
  calls !! i = Some c →
  token_results th calls !! i =
    Some (call_stamp c,
          next_seq th (call_stamp c) +
          Z.of_nat (occurrences (call_stamp c) (take i (call_stamp <$> calls)))).
Proof.
  revert th i. induction calls as [|c0 calls IH]; intros th i Hi; [done|].
  destruct i as [|i]; simpl in *.
  - injection Hi as ->. rewrite occurrences_none by (intros ? []%elem_of_nil).
    do 2 f_equal. lia.
  - rewrite (IH _ _ Hi), next_seq_insert, occurrences_cons.
    do 2 f_equal. unfold fmap.
    destruct (decide (call_stamp c0 = call_stamp c)) as [->|]; lia.
Qed.

Lemma occurrences_take_split (t : Z) (l : list Z) (i j : nat) :
  l !! i = Some t → (i < j)%nat →
  occurrences t (take j l) =
    (occurrences t (take i l) + 1 +
     occurrences t (take (j - i - 1) (drop (S i) l)))%nat.
Proof.
  intros Hi Hlt. rewrite (take_split_at l i j t Hi Hlt).
  rewrite occurrences_app, occurrences_cons, decide_True by done. lia.
Qed.

Lemma token_results_length (calls : list (option Z * Z)) (th : gmap Z Z) :
  length (token_results th calls) = length calls.
Proof. revert th. induction calls; intros; simpl; auto. Qed.

Lemma token_results_NoDup (calls : list (option Z * Z)) :
  NoDup (token_results ∅ calls).
Proof.
  apply NoDup_alt. intros i j r Hi Hj.
  assert (Hcalls : ∀ k, token_results ∅ calls !! k = Some r →
            ∃ c, calls !! k = Some c ∧
                 r = (call_stamp c,
                      Z.of_nat (occurrences (call_stamp c)
                                  (take k (call_stamp <$> calls))))).
  { intros k Hk. pose proof (lookup_lt_Some _ _ _ Hk) as Hlt.
    rewrite token_results_length in Hlt.
    destruct (lookup_lt_is_Some_2 calls k Hlt) as [c Hc].
    exists c. split; [done|].
    rewrite (token_results_lookup _ _ _ _ Hc) in Hk.
    injection Hk as <-. unfold next_seq. rewrite lookup_empty. f_equal. }
  destruct (Hcalls i Hi) as (ci & Hci & ->).
  destruct (Hcalls j Hj) as (cj & Hcj & [= Hst Hocc]).
  assert (Hsi : (call_stamp <$> calls) !! i = Some (call_stamp ci))
    by (by rewrite list_lookup_fmap, Hci).
  assert (Hsj : (call_stamp <$> calls) !! j = Some (call_stamp ci))
    by (by rewrite list_lookup_fmap, Hcj, Hst).
  destruct (Nat.lt_trichotomy i j) as [Hlt|[->|Hlt]]; [|done|].
  - pose proof (occurrences_take_split _ _ _ _ Hsi Hlt) as H.
    rewrite <- Hst in Hocc. lia.
  - pose proof (occurrences_take_split _ _ _ _ Hsj Hlt) as H.
    rewrite <- Hst in Hocc. lia.
Qed.

(** C9.  Calls of [_gettimeseq] made one after the other in a fresh
    process all succeed; the [i]-th call returns its timestamp together
    with the number of earlier calls for that timestamp, so that no pair is
    returned twice, the first call for a timestamp gets sequence 0 and the
    next call for the same timestamp gets the previous sequence plus one. *)
Theorem gettimeseq_unique_contiguous (calls : list (option Z * Z)) (σ : State) :
  timehash σ = ∅ →
  ∃ rs σ',
    gettimeseq_calls calls σ = (Return rs, σ') ∧
    length rs = length calls ∧
    NoDup rs ∧
    (∀ i c, calls !! i = Some c →
       rs !! i = Some (call_stamp c,
                       Z.of_nat (occurrences (call_stamp c)
                                   (take i (call_stamp <$> calls))))) ∧
    (∀ i c, calls !! i = Some c →
       (∀ j c', (j < i)%nat → calls !! j = Some c' →
                call_stamp c' ≠ call_stamp c) →
       rs !! i = Some (call_stamp c, 0)) ∧
    (∀ i j c c' n, (i < j)%nat →
       calls !! i = Some c → calls !! j = Some c' →
       call_stamp c' = call_stamp c →
       (∀ k c'', (i < k < j)%nat → calls !! k = Some c'' →
                 call_stamp c'' ≠ call_stamp c) →
       rs !! i = Some (call_stamp c, n) →
       rs !! j = Some (call_stamp c, n + 1)).
Proof.
  intros Hth. destruct (gettimeseq_calls_run calls σ) as [σ' Hrun].
  rewrite Hth in Hrun. exists (token_results ∅ calls), σ'.
  assert (Hlook : ∀ i c, calls !! i = Some c →
            token_results ∅ calls !! i =
              Some (call_stamp c,
                    Z.of_nat (occurrences (call_stamp c)
                                (take i (call_stamp <$> calls))))).
  { intros i c Hc. rewrite (token_results_lookup _ _ _ _ Hc).
    unfold next_seq. by rewrite lookup_empty. }
  split_and!; [done|apply token_results_length|apply token_results_NoDup|done| |].
  - intros i c Hc Hfirst. rewrite (Hlook _ _ Hc), occurrences_none; [done|].
    intros x Hx ->. apply list_elem_of_lookup in Hx as [j Hj].
    pose proof (lookup_lt_Some _ _ _ Hj) as Hlt. rewrite length_take in Hlt.
    rewrite lookup_take_lt in Hj by lia.
    rewrite list_lookup_fmap in Hj.
    destruct (calls !! j) as [c'|] eqn:Hc'; [|done].
    injection Hj as Hj. eapply (Hfirst j c'); [lia|done|done].
  - intros i j c c' n Hlt Hc Hc' Hst Hbetween Hi.
    rewrite (Hlook _ _ Hc) in Hi. injection Hi as <-.
    rewrite (Hlook _ _ Hc'), Hst.
    assert (Hsi : (call_stamp <$> calls) !! i = Some (call_stamp c))
      by (by rewrite list_lookup_fmap, Hc).
    rewrite (occurrences_take_split _ _ _ _ Hsi Hlt).
    rewrite (occurrences_none _ (take _ (drop _ _))); [do 2 f_equal; lia|].
    intros x Hx ->. apply list_elem_of_lookup in Hx as [k Hk].
    pose proof (lookup_lt_Some _ _ _ Hk) as Hklt. rewrite length_take in Hklt.
    rewrite lookup_take_lt, lookup_drop, list_lookup_fmap in Hk by lia.
    destruct (calls !! (S i + k)%nat) as [c''|] eqn:Hc''; [|done].
    injection Hk as Hk. eapply (Hbetween (S i + k)%nat c''); [lia|done|done].
Qed.

Lemma gettimeseq_unique_contiguous_witness :
  ∃ rs σ',
    gettimeseq_calls [(Some 7, 1000); (None, 1000); (Some 7, 1001); (Some 1000, 1002)]
      (Build_State ∅ [] ∅ 0 [] []) = (Return rs, σ') ∧
    rs = [(7, 0); (1000, 0); (7, 1); (1000, 1)].
Proof.
  destruct (gettimeseq_unique_contiguous
              [(Some 7, 1000); (None, 1000); (Some 7, 1001); (Some 1000, 1002)]
              (Build_State ∅ [] ∅ 0 [] []) eq_refl)
    as (rs & σ' & Hrun & _).
  exists rs, σ'. split; [exact Hrun|].
  vm_compute in Hrun. by injection Hrun as <- _.
Defined.

(** ** Strings and regular expressions *)

Lemma strip_prefix_Some (p s rest : str) :
  strip_prefix p s = Some rest ↔ s = p ++ rest.
Proof.
  revert s. induction p as [|a p IH]; intros s; simpl.
  - split; [by intros [= ->]|by intros ->].
  - destruct s as [|b s]; [split; [done|intros [=]]|].
    case_decide as E.
    + subst b. rewrite IH. split; [by intros ->|by intros [= ->]].
    + split; [done|]. intros [= -> _]. done.
Qed.

Lemma strip_prefix_app (p rest : str) : strip_prefix p (p ++ rest) = Some rest.
Proof. by apply strip_prefix_Some. Qed.

Lemma run_spec (cls : ascii → bool) (s : str) :
  ∃ post, s = run cls s ++ post ∧
          forallb cls (run cls s) = true ∧
          match post with c :: _ => cls c = false | [] => True end.
Proof.
  induction s as [|c s (post & Hs & Hall & Hpost)]; simpl.
  - by exists [].
  - destruct (cls c) eqn:Hc.
    + exists post. simpl. rewrite Hc, Hall. by rewrite <- Hs.
    + by exists (c :: s).
Qed.

Lemma run_app_all (cls : ascii → bool) (g post : str) :
  forallb cls g = true →
  match post with c :: _ => cls c = false | [] => True end →
  run cls (g ++ post) = g.
Proof.
  intros Hg Hpost. induction g as [|c g IH]; simpl in *.
  - destruct post as [|c post]; [done|]. simpl. by rewrite Hpost.
  - apply andb_prop in Hg as [-> Hg]. by rewrite IH.
Qed.

Lemma run_none (cls : ascii → bool) (s : str) :
  match s with c :: _ => cls c = false | [] => True end → run cls s = [].
Proof. destruct s as [|c s]; [done|]. simpl. by intros ->. Qed.

Lemma re_match_at_sound (r : regex) (s g : str) :
  re_match_at r s = Some g →
  ∃ post, s = re_literal r ++ g ++ post ∧
          forallb (re_class r) g = true ∧
          (re_min r ≤ length g)%nat ∧
          match post with c :: _ => re_class r c = false | [] => True end.
Proof.
  unfold re_match_at. intros H.
  destruct (strip_prefix (re_literal r) s) as [rest|] eqn:Hp; [|done].
  simpl in H. case_decide as Hmin; [|done]. injection H as <-.
  apply strip_prefix_Some in Hp.
  destruct (run_spec (re_class r) rest) as (post & Hrest & Hall & Hpost).
  exists post. by rewrite Hp, Hrest at 1.
Qed.

Lemma re_match_at_complete (r : regex) (g post : str) :
  forallb (re_class r) g = true →
  (re_min r ≤ length g)%nat →
  match post with c :: _ => re_class r c = false | [] => True end →
  re_match_at r (re_literal r ++ g ++ post) = Some g.
Proof.
  intros Hg Hmin Hpost. unfold re_match_at.
  rewrite strip_prefix_app. simpl.
  rewrite run_app_all by done. by rewrite decide_True.
Qed.

(** A match found by [re_search] sits at the reported offset. *)
Lemma re_search_sound (r : regex) (s : str) (m : nat * str) :
  re_search r s = Some m →
  ∃ pre post, s = pre ++ re_literal r ++ m.2 ++ post ∧
              length pre = m.1 ∧
              forallb (re_class r) m.2 = true ∧
              (re_min r ≤ length m.2)%nat ∧
              match post with c :: _ => re_class r c = false | [] => True end.
Proof.
  revert m. induction s as [|c s IH]; intros m; simpl.
  - destruct (re_match_at r []) as [g|] eqn:Hm; [|done].
    intros [= <-]. apply re_match_at_sound in Hm as (post & ? & ? & ? & ?).
    by exists [], post.
  - destruct (re_match_at r (c :: s)) as [g|] eqn:Hm.
    + intros [= <-]. apply re_match_at_sound in Hm as (post & ? & ? & ? & ?).
      by exists [], post.
    + destruct (re_search r s) as [m'|]; [|done]. simpl. intros [= <-].
      destruct (IH m' eq_refl) as (pre & post & -> & Hlen & ? & ? & ?).
      exists (c :: pre), post. simpl. by rewrite Hlen.
Qed.

(** [re_search] skips a prefix at no position of which the pattern
    matches. *)
Lemma re_search_skip (r : regex) (pre s : str) :
  (∀ k, (k < length pre)%nat → re_match_at r (drop k (pre ++ s)) = None) →
  re_search r (pre ++ s) = prod_map (λ i, length pre + i)%nat id <$> re_search r s.
Proof.
  induction pre as [|c pre IH]; intros H; simpl.
  - destruct (re_search r s) as [[i g]|]; done.
  - pose proof (H 0%nat ltac:(simpl; lia)) as H0. simpl in H0.
    rewrite H0. rewrite IH.
    + destruct (re_search r s) as [[i g]|]; done.
    + intros k Hk. apply (H (S k)). simpl. lia.
Qed.

Lemma re_search_here (r : regex) (s g : str) :
  re_match_at r s = Some g → re_search r s = Some (0%nat, g).
Proof. intros H. destruct s; simpl; by rewrite H. Qed.

(** No match at all when no position carries a character of the class
    and the pattern needs one right after its literal. *)
Lemma re_match_at_no_class (r : regex) (s : str) :
  (1 ≤ re_min r)%nat → re_literal r = [] →
  match s with c :: _ => re_class r c = false | [] => True end →
  re_match_at r s = None.
Proof.
  intros Hmin Hlit Hs. unfold re_match_at. rewrite Hlit. simpl.
  rewrite run_none by done. rewrite decide_False; [done|simpl; lia].
Qed.

Lemma re_match_at_no_head (r : regex) (a : ascii) (l s : str) :
  re_literal r = a :: l →
  match s with c :: _ => c ≠ a | [] => True end →
  re_match_at r s = None.
Proof.
  intros Hlit Hs. unfold re_match_at. rewrite Hlit.
  destruct s as [|c s]; [done|]. simpl. by rewrite decide_False.
Qed.

Lemma head_drop_app (P : ascii → Prop) (pre s : str) (k : nat) :
  Forall P pre → (k < length pre)%nat →
  match drop k (pre ++ s) with c :: _ => P c | [] => True end.
Proof.
  intros Hall Hk.
  destruct (lookup_lt_is_Some_2 pre k Hk) as [c Hc].
  rewrite drop_app_le by lia.
  rewrite (drop_S pre c k Hc). simpl.
  eapply Forall_lookup_1; eauto.
Qed.

(** ** The scanner *)

Lemma digit_val_range (c : ascii) : is_digit c = true → 0 ≤ digit_val c ≤ 9.
Proof.
  unfold is_digit, in_range, digit_val. intros H.
  apply andb_prop in H as [H1 H2].
  apply N.leb_le in H1, H2. change (ord "0") with 48%N in H1.
  change (ord "9") with 57%N in H2. lia.
Qed.

Lemma int_of_digits_nonneg (g : str) :
  forallb is_digit g = true → 0 ≤ int_of_digits g.
Proof.
  unfold int_of_digits.
  assert (H : ∀ acc, forallb is_digit g = true → 0 ≤ acc →
            0 ≤ foldl (λ acc c, 10 * acc + digit_val c) acc g).
  { induction g as [|c g IH]; intros acc Hg Hacc; simpl in *; [done|].
    apply andb_prop in Hg as [Hc Hg]. apply IH; [done|].
    apply digit_val_range in Hc. lia. }
  intros Hg. by apply H.
Qed.

Lemma parsed_uid_Some (self : MaildirFolder) (fn : str) (u : Z) :
  parsed_uid self fn = Some u ↔
  contains (lit ",FMD5=" ++ _foldermd5 self) fn = true ∧
  ∃ m, re_search re_uidmatch fn = Some m ∧ u = int_of_digits (group1 m).
Proof.
  unfold parsed_uid, _parse_filename. simpl.
  destruct (contains _ fn); simpl.
  - destruct (re_search re_uidmatch fn) as [m|]; simpl.
    + split; [intros [= <-]; eauto|]. by intros [_ (m' & [= <-] & ->)].
    + split; [done|]. by intros [_ (m' & [=] & _)].
  - split; [done|]. by intros [[=] _].
Qed.

Lemma parsed_uid_nonneg (self : MaildirFolder) (fn : str) (u : Z) :
  parsed_uid self fn = Some u → 0 ≤ u.
Proof.
  intros (_ & m & Hm & ->)%parsed_uid_Some.
  apply re_search_sound in Hm as (_ & _ & _ & _ & Hd & _).
  by apply int_of_digits_nonneg.
Qed.

(** One round of the loop, by the tests it makes. *)
Lemma scan_file_eq (self : MaildirFolder) (d : list (str * str))
    (min_date min_uid : option Z) (s : scan) (f : str * str) :
  scan_file self d min_date min_uid s f =
    if considered self d f then
      let uc := match parsed_uid self f.2 with
                | Some u => (u, nouidcounter s)
                | None => (nouidcounter s, nouidcounter s - 1)
                end in
      let it := Item (parsed_flags self f.2) (os_path_join f.1 f.2) in
      if below_floor min_uid uc.1 then
        Scan (retval s) (date_excludees s) uc.2
      else if too_old min_date f.2 then
        Scan (retval s) (<[uc.1 := it]> (date_excludees s)) uc.2
      else
        Scan (<[uc.1 := it]> (retval s)) (date_excludees s) uc.2
    else s.
Proof.
  destruct f as [dirannex fn].
  unfold scan_file, considered, hidden, oversize, below_floor, too_old.
  unfold parsed_uid, parsed_flags, _parse_filename. cbn [fst snd].
  destruct (bool_decide (is_Some (strip_prefix (lit ".") fn))); [done|].
  cbn [negb andb].
  match goal with |- context [negb ?b] => destruct b end; [done|].
  cbn [negb].
  destruct (contains _ fn); [|done].
  destruct (re_search re_uidmatch fn) as [m|]; done.
Qed.

Section scan_invariant.
Context (self : MaildirFolder) (d : list (str * str)).
Context (min_date min_uid : option Z).

Local Abbreviation inv := (scan_inv self d min_date min_uid).
Local Abbreviation step := (scan_file self d min_date min_uid).

Lemma scan_inv_init : inv [] (Scan ∅ ∅ (-1)).
Proof.
  split_and!; simpl.
  - lia.
  - intros u [[? H]|[? H]]; by rewrite lookup_empty in H.
  - intros u it H. by rewrite lookup_empty in H.
  - intros u it H. by rewrite lookup_empty in H.
  - intros f Hf. by apply elem_of_nil in Hf.
Qed.

Lemma below_floor_negative (u : Z) : u < 0 → below_floor min_uid u = false.
Proof.
  intros Hu. unfold below_floor. destruct min_uid; [|done].
  rewrite bool_decide_eq_false_2 by lia. done.
Qed.

Lemma scan_inv_step (files : list (str * str)) (s : scan) (f : str * str) :
  inv files s → inv (files ++ [f]) (step s f).
Proof.
  intros (Hc & Hfresh & Hret & Hside & Hall).
  assert (Hret' : ∀ u it, retval s !! u = Some it →
    ∃ f0, f0 ∈ files ++ [f] ∧ considered self d f0 = true ∧ entry_of self f0 u it ∧
          below_floor min_uid u = false ∧ too_old min_date f0.2 = false).
  { intros u it H. destruct (Hret u it H) as (f0 & ? & ?).
    exists f0. split; [apply elem_of_app; by left|done]. }
  assert (Hside' : ∀ u it, date_excludees s !! u = Some it →
    ∃ f0, f0 ∈ files ++ [f] ∧ considered self d f0 = true ∧ entry_of self f0 u it ∧
          below_floor min_uid u = false ∧ too_old min_date f0.2 = true).
  { intros u it H. destruct (Hside u it H) as (f0 & ? & ?).
    exists f0. split; [apply elem_of_app; by left|done]. }
  rewrite scan_file_eq.
  destruct (considered self d f) eqn:Hcons.
  2: { split_and!; [done|done|done|done|].
       intros f0 [Hf0| ->%list_elem_of_singleton]%elem_of_app Hcons0;
         [by apply Hall|congruence]. }
  set (it := Item (parsed_flags self f.2) (os_path_join f.1 f.2)).
  destruct (parsed_uid self f.2) as [u|] eqn:Hu; cbn [fst snd].
  - (* the name carries a UID of this folder *)
    pose proof (parsed_uid_nonneg _ _ _ Hu) as Hpos.
    assert (Hent : entry_of self f u it) by (split; [done|by left]).
    destruct (below_floor min_uid u) eqn:Hfloor.
    { split_and!; [done|done|done|done|]. simpl.
      intros f0 [Hf0| ->%list_elem_of_singleton]%elem_of_app Hcons0;
        [by apply Hall|]. rewrite Hu. congruence. }
    destruct (too_old min_date f.2) eqn:Hold.
    + split_and!; simpl; [done| |done| |].
      * intros u0 [H|H] Hneg; [by apply Hfresh; [left|]|].
        rewrite lookup_insert_is_Some in H. apply Hfresh; [|done].
        destruct H as [->|[_ H]]; [lia|by right].
      * intros u0 it0. rewrite lookup_insert_Some.
        intros [[<- <-]|[_ H]]; [|by apply Hside'].
        exists f. split_and!; [apply elem_of_app; right; by left|done..].
      * intros f0 [Hf0| ->%list_elem_of_singleton]%elem_of_app Hcons0.
        -- specialize (Hall f0 Hf0 Hcons0).
           destruct (parsed_uid self f0.2) as [u0|].
           ++ intros Hfl. specialize (Hall Hfl).
              destruct (too_old min_date f0.2); [|done].
              rewrite lookup_insert_is_Some'. by right.
           ++ destruct Hall as (u0 & Hneg & Hu0). exists u0. split; [done|].
              destruct (too_old min_date f0.2); [|done].
              rewrite lookup_insert_ne by lia. done.
        -- rewrite Hu, Hold. intros _. rewrite lookup_insert_eq. eauto.
    + split_and!; simpl; [done| | |done|].
      * intros u0 [H|H] Hneg; [|by apply Hfresh; [right|]].
        rewrite lookup_insert_is_Some in H. apply Hfresh; [|done].
        destruct H as [->|[_ H]]; [lia|by left].
      * intros u0 it0. rewrite lookup_insert_Some.
        intros [[<- <-]|[_ H]]; [|by apply Hret'].
        exists f. split_and!; [apply elem_of_app; right; by left|done..].
      * intros f0 [Hf0| ->%list_elem_of_singleton]%elem_of_app Hcons0.
        -- specialize (Hall f0 Hf0 Hcons0).
           destruct (parsed_uid self f0.2) as [u0|].
           ++ intros Hfl. specialize (Hall Hfl).
              destruct (too_old min_date f0.2); [done|].
              rewrite lookup_insert_is_Some'. by right.
           ++ destruct Hall as (u0 & Hneg & Hu0). exists u0. split; [done|].
              destruct (too_old min_date f0.2); [done|].
              rewrite lookup_insert_ne by lia. done.
        -- rewrite Hu, Hold. intros _. rewrite lookup_insert_eq. eauto.
  - (* no UID of this folder: the next negative number *)
    set (c := nouidcounter s) in *.
    assert (Hent : entry_of self f c it) by (split; [done|by right]).
    rewrite (below_floor_negative c Hc).
    assert (Hne : ∀ u0, is_Some (retval s !! u0) ∨ is_Some (date_excludees s !! u0) →
              u0 < 0 → c ≠ u0).
    { intros u0 H Hneg. specialize (Hfresh u0 H Hneg). lia. }
    destruct (too_old min_date f.2) eqn:Hold.
    + split_and!; simpl; [lia| |done| |].
      * intros u0 [H|H] Hneg; [specialize (Hfresh u0 (or_introl H) Hneg); lia|].
        rewrite lookup_insert_is_Some in H.
        destruct H as [->|[_ H]]; [lia|].
        specialize (Hfresh u0 (or_intror H) Hneg); lia.
      * intros u0 it0. rewrite lookup_insert_Some.
        intros [[<- <-]|[_ H]]; [|by apply Hside'].
        exists f. split_and!; [apply elem_of_app; right; by left|done|done|by apply below_floor_negative|done].
      * intros f0 [Hf0| ->%list_elem_of_singleton]%elem_of_app Hcons0.
        -- specialize (Hall f0 Hf0 Hcons0).
           destruct (parsed_uid self f0.2) as [u0|].
           ++ intros Hfl. specialize (Hall Hfl).
              destruct (too_old min_date f0.2); [|done].
              rewrite lookup_insert_is_Some'. by right.
           ++ destruct Hall as (u0 & Hneg & Hu0). exists u0. split; [done|].
              destruct (too_old min_date f0.2); [|done].
              rewrite lookup_insert_ne; [done|].
              apply Hne; [right; eauto|done].
        -- rewrite Hu, Hold. exists c. by rewrite lookup_insert_eq.
    + split_and!; simpl; [lia| | |done|].
      * intros u0 [H|H] Hneg; [|specialize (Hfresh u0 (or_intror H) Hneg); lia].
        rewrite lookup_insert_is_Some in H.
        destruct H as [->|[_ H]]; [lia|].
        specialize (Hfresh u0 (or_introl H) Hneg); lia.
      * intros u0 it0. rewrite lookup_insert_Some.
        intros [[<- <-]|[_ H]]; [|by apply Hret'].
        exists f. split_and!; [apply elem_of_app; right; by left|done|done|by apply below_floor_negative|done].
      * intros f0 [Hf0| ->%list_elem_of_singleton]%elem_of_app Hcons0.
        -- specialize (Hall f0 Hf0 Hcons0).
           destruct (parsed_uid self f0.2) as [u0|].
           ++ intros Hfl. specialize (Hall Hfl).
              destruct (too_old min_date f0.2); [done|].
              rewrite lookup_insert_is_Some'. by right.
           ++ destruct Hall as (u0 & Hneg & Hu0). exists u0. split; [done|].
              destruct (too_old min_date f0.2); [done|].
              rewrite lookup_insert_ne; [done|].
              apply Hne; [left; eauto|done].
        -- rewrite Hu, Hold. exists c. by rewrite lookup_insert_eq.
Qed.

Lemma scan_inv_foldl (files0 files : list (str * str)) (s : scan) :
  inv files0 s → inv (files0 ++ files) (foldl step s files).
Proof.
  revert files0 s. induction files as [|f files IH]; intros files0 s H; simpl.
  - by rewrite app_nil_r.
  - replace (files0 ++ f :: files) with ((files0 ++ [f]) ++ files)
      by (by rewrite <- app_assoc).
    apply IH. by apply scan_inv_step.
Qed.

(** The invariant holds when the loop over the listing ends. *)
Lemma scan_loop_inv :
  inv (scan_files self d) (scan_loop self d min_date min_uid).
Proof. apply (scan_inv_foldl []), scan_inv_init. Qed.
End scan_invariant.

Lemma foldl_min_spec (x : Z) (l : list Z) :
  foldl Z.min x l ∈ x :: l ∧ ∀ y, y ∈ x :: l → foldl Z.min x l ≤ y.
Proof.
  revert x. induction l as [|a l IH]; intros x; simpl.
  - split; [by left|]. intros y ->%list_elem_of_singleton. lia.
  - destruct (IH (x `min` a)) as [Hin Hle]. split.
    + apply elem_of_cons in Hin as [->|Hin]; [|by do 2 right].
      destruct (Z.min_spec x a) as [[_ ->]|[_ ->]]; [by left|right; by left].
    + intros y Hy.
      assert (foldl Z.min (x `min` a) l ≤ x `min` a) by (apply Hle; by left).
      apply elem_of_cons in Hy as [->|[->|Hy]%elem_of_cons]; [lia|lia|].
      apply Hle. by right.
Qed.

Lemma py_min_Some (l : list Z) (m : Z) :
  py_min l = Some m → m ∈ l ∧ ∀ y, y ∈ l → m ≤ y.
Proof.
  destruct l as [|x l]; [done|]. simpl. intros [= <-]. apply foldl_min_spec.
Qed.

Lemma py_min_None (l : list Z) : py_min l = None → l = [].
Proof. by destruct l. Qed.

Lemma elem_of_positive_uids (s : scan) (u : Z) :
  u ∈ positive_uids s ↔ u > 0 ∧ is_Some (retval s !! u).
Proof.
  unfold positive_uids. rewrite list_elem_of_filter, list_elem_of_fmap.
  split.
  - intros [Hu ([k it] & -> & Hin)]. split; [done|].
    apply elem_of_map_to_list in Hin. eauto.
  - intros [Hu [it Hit]]. split; [done|]. exists (u, it). split; [done|].
    by apply elem_of_map_to_list.
Qed.

(** The loop that re-includes entries, on any list of entries with
    distinct keys. *)
Lemma reinclude_foldl (m : Z) (l : list (Z * item)) (acc : gmap Z item) (u : Z) :
  NoDup l.*1 →
  foldl (λ retval e, if decide (e.1 > m) then <[e.1 := e.2]> retval else retval)
        acc l !! u =
    if decide (u > m)
    then match (list_to_map l : gmap Z item) !! u with
         | Some it => Some it
         | None => acc !! u
         end
    else acc !! u.
Proof.
  revert acc. induction l as [|[k v] l IH]; intros acc Hnd; simpl.
  - rewrite lookup_empty. by case_decide.
  - apply NoDup_cons in Hnd as [Hk Hnd]. rewrite IH by done.
    apply (not_elem_of_list_to_map_1 (M := gmap Z)) in Hk. simpl in *.
    destruct (decide (u > m)) as [Hu|Hu].
    + destruct (decide (k = u)) as [->|Hne].
      * rewrite Hk, lookup_insert_eq, decide_True by done.
        by rewrite lookup_insert_eq.
      * rewrite lookup_insert_ne by done.
        destruct (list_to_map l !! u); [done|].
        case_decide; [by rewrite lookup_insert_ne|done].
    + case_decide; [|done]. rewrite lookup_insert_ne by lia. done.
Qed.

Lemma reinclude_lookup (s : scan) (u : Z) :
  reinclude s !! u =
    match py_min (positive_uids s) with
    | Some m =>
        if decide (u > m)
        then match date_excludees s !! u with
             | Some it => Some it
             | None => retval s !! u
             end
        else retval s !! u
    | None => retval s !! u
    end.
Proof.
  unfold reinclude. fold (positive_uids s).
  destruct (py_min (positive_uids s)) as [m|]; [|done].
  rewrite reinclude_foldl by apply NoDup_fst_map_to_list.
  by rewrite list_to_map_to_list.
Qed.

(** ** Paths of listed files *)

Lemma os_path_join_relative (a b : str) :
  head b ≠ Some os_path_sep →
  os_path_join a b =
    match last a with
    | None => b
    | Some c => if decide (c = os_path_sep) then a ++ b else a ++ os_path_sep :: b
    end.
Proof.
  intros Hb. unfold os_path_join.
  assert (Hl : match last a with
               | Some "/" => a ++ b
               | Some _ => a ++ "/" :: b
               | None => b
               end =
               match last a with
               | None => b
               | Some c => if decide (c = os_path_sep) then a ++ b
                           else a ++ os_path_sep :: b
               end).
  { destruct (last a) as [[[] [] [] [] [] [] [] []]|]; done. }
  destruct b as [|[[] [] [] [] [] [] [] []] b]; done.
Qed.

Lemma head_not_sep (n : str) : os_path_sep ∉ n → head n ≠ Some os_path_sep.
Proof. destruct n as [|c n]; [done|]. simpl. intros H [= ->]. apply H. by left. Qed.

Lemma elem_of_os_listdir (d : list (str * str)) (dir n : str) :
  n ∈ os_listdir d dir ↔
  n ≠ [] ∧ (os_path_sep ∉ n) ∧ ∃ c, (dir ++ os_path_sep :: n, c) ∈ d.
Proof.
  unfold os_listdir. rewrite list_elem_of_omap. split.
  - intros ([p c] & Hin & H). simpl in H.
    destruct (strip_prefix (dir ++ [os_path_sep]) p) as [n'|] eqn:Hp; [|done].
    simpl in H. case_decide as Hn; [|done]. injection H as ->.
    apply strip_prefix_Some in Hp. subst p. rewrite <- app_assoc in Hin.
    destruct Hn. eauto.
  - intros (Hne & Hsep & c & Hin). exists (dir ++ os_path_sep :: n, c).
    split; [done|]. simpl.
    rewrite (cons_middle os_path_sep dir n), app_assoc, strip_prefix_app.
    simpl. by rewrite decide_True.
Qed.

Lemma elem_of_scan_files (self : MaildirFolder) (d : list (str * str))
    (f : str * str) :
  f ∈ scan_files self d ↔
  (f.1 = lit "new" ∨ f.1 = lit "cur") ∧
  f.2 ∈ os_listdir d (os_path_join (getfullname self) f.1).
Proof.
  unfold scan_files. rewrite list_elem_of_bind. split.
  - intros (dirannex & Hf & Hd). apply list_elem_of_bind in Hf as (n & Hf & Hn).
    apply list_elem_of_singleton in Hf as ->. simpl. split; [|done].
    apply elem_of_cons in Hd as [->|Hd]; [by left|].
    apply list_elem_of_singleton in Hd as ->. by right.
  - intros [Hd Hn]. destruct f as [dirannex n]. simpl in *.
    exists dirannex. split.
    + apply list_elem_of_bind. exists n. split; [by left|done].
    + destruct Hd as [-> | ->]; [by left|right; by left].
Qed.

(** The path the scanner records for a listed file. *)
Lemma scan_files_path (self : MaildirFolder) (d : list (str * str))
    (f : str * str) :
  f ∈ scan_files self d →
  os_path_join f.1 f.2 = f.1 ++ os_path_sep :: f.2 ∧
  (f.1 = lit "new" ∨ f.1 = lit "cur") ∧ f.2 ≠ [] ∧ os_path_sep ∉ f.2.
Proof.
  intros [Hd (Hne & Hsep & _)%elem_of_os_listdir]%elem_of_scan_files.
  split; [|done].
  rewrite os_path_join_relative by by apply head_not_sep.
  by destruct Hd as [-> | ->].
Qed.

Lemma scan_files_path_inj (self : MaildirFolder) (d : list (str * str))
    (f f' : str * str) :
  f ∈ scan_files self d → f' ∈ scan_files self d →
  os_path_join f.1 f.2 = os_path_join f'.1 f'.2 → f = f'.
Proof.
  intros (-> & Hd & _)%scan_files_path (-> & Hd' & _)%scan_files_path Heq.
  destruct f as [a n], f' as [a' n']. simpl in *.
  destruct Hd as [-> | ->], Hd' as [-> | ->]; simpl in Heq; by simplify_eq.
Qed.

(** ** The date test *)

Lemma no_digit_no_match (r : regex) (fn : str) :
  re_class r = is_digit → (1 ≤ re_min r)%nat →
  (∀ c, c ∈ fn → is_digit c = false) → re_search r fn = None.
Proof.
  intros Hcls Hmin Hno. destruct (re_search r fn) as [m|] eqn:Hm; [|done].
  apply re_search_sound in Hm as (pre & post & -> & _ & Hd & Hlen & _).
  destruct (m.2) as [|c g]; [simpl in Hlen; lia|].
  rewrite Hcls in Hd. simpl in Hd. apply andb_prop in Hd as [Hc _].
  rewrite Hno in Hc; [done|].
  apply elem_of_app. right. apply elem_of_app. right. by left.
Qed.

Lemma iswithintime_no_digit (fn : str) (date : Z) :
  (∀ c, c ∈ fn → is_digit c = false) → _iswithintime fn date = true.
Proof.
  intros Hno. unfold _iswithintime.
  by rewrite (no_digit_no_match re_timestampmatch fn eq_refl) by (simpl; lia || done).
Qed.

Lemma iswithintime_first_run (pre ds post : str) (date : Z) :
  Forall (λ c, is_digit c = false) pre →
  ds ≠ [] → forallb is_digit ds = true →
  match post with c :: _ => is_digit c = false | [] => True end →
  _iswithintime (pre ++ ds ++ post) date = bool_decide (date ≤ int_of_digits ds).
Proof.
  intros Hpre Hne Hds Hpost. unfold _iswithintime.
  rewrite re_search_skip.
  - rewrite (re_search_here _ _ ds).
    + simpl. unfold group0. simpl.
      case_decide; [by rewrite bool_decide_eq_false_2 by lia|
                    by rewrite bool_decide_eq_true_2 by lia].
    + apply (re_match_at_complete re_timestampmatch ds post); [done| |done].
      simpl. destruct ds; [done|simpl; lia].
  - intros k Hk. apply re_match_at_no_class; [simpl; lia|done|].
    by apply (head_drop_app (λ c, is_digit c = false)).
Qed.

Lemma no_digit_unresolved (self : MaildirFolder) (fn : str) :
  (∀ c, c ∈ fn → is_digit c = false) → parsed_uid self fn = None.
Proof.
  intros Hno. destruct (parsed_uid self fn) as [u|] eqn:Hu; [|done].
  apply parsed_uid_Some in Hu as (_ & m & Hm & _).
  rewrite (no_digit_no_match re_uidmatch fn eq_refl) in Hm; [done|simpl; lia|done].
Qed.

(** ** The date and UID cutoffs of the scanner *)

Section cutoffs.
Context (self : MaildirFolder) (d : list (str * str)).
Context (min_date min_uid : option Z).

Local Abbreviation primary := (primary_result self d min_date min_uid).
Local Abbreviation side := (side_set self d min_date min_uid).
Local Abbreviation result := (_scanfolder self d min_date min_uid).

Lemma primary_entry (u : Z) (it : item) :
  primary !! u = Some it →
  below_floor min_uid u = false ∧
  ∃ f, f ∈ scan_files self d ∧ considered self d f = true ∧
       entry_of self f u it ∧ too_old min_date f.2 = false.
Proof.
  intros H. destruct (scan_loop_inv self d min_date min_uid) as (_ & _ & Hret & _).
  destruct (Hret u it H) as (f & ? & ? & ? & ? & ?). eauto 10.
Qed.

Lemma side_entry (u : Z) (it : item) :
  side !! u = Some it →
  below_floor min_uid u = false ∧
  ∃ f, f ∈ scan_files self d ∧ considered self d f = true ∧
       entry_of self f u it ∧ too_old min_date f.2 = true.
Proof.
  intros H. destruct (scan_loop_inv self d min_date min_uid) as (_ & _ & _ & Hs & _).
  destruct (Hs u it H) as (f & ? & ? & ? & ? & ?). eauto 10.
Qed.

Lemma considered_file_kept (f : str * str) :
  f ∈ scan_files self d → considered self d f = true →
  match parsed_uid self f.2 with
  | Some u =>
      below_floor min_uid u = false →
      is_Some ((if too_old min_date f.2 then side else primary) !! u)
  | None =>
      ∃ u, u < 0 ∧
        (if too_old min_date f.2 then side else primary) !! u =
          Some (Item (parsed_flags self f.2) (os_path_join f.1 f.2))
  end.
Proof.
  intros Hf Hc.
  destruct (scan_loop_inv self d min_date min_uid) as (_ & _ & _ & _ & Hall).
  specialize (Hall f Hf Hc). unfold primary_result, side_set.
  destruct (parsed_uid self f.2); by destruct (too_old min_date f.2).
Qed.

Lemma result_lookup (u : Z) :
  result !! u =
    match min_date, min_positive_uid self d min_date min_uid with
    | Some _, Some m =>
        if decide (u > m)
        then match side !! u with
             | Some it => Some it
             | None => primary !! u
             end
        else primary !! u
    | _, _ => primary !! u
    end.
Proof.
  unfold _scanfolder, min_positive_uid, primary_result, side_set.
  destruct min_date; [|done]. rewrite reinclude_lookup.
  by destruct (py_min _).
Qed.

Lemma min_positive_uid_Some (m : Z) :
  min_positive_uid self d min_date min_uid = Some m →
  m > 0 ∧ is_Some (primary !! m) ∧
  ∀ u, u > 0 → is_Some (primary !! u) → m ≤ u.
Proof.
  intros [Hin Hle]%py_min_Some.
  apply elem_of_positive_uids in Hin as [? ?]. split_and!; [done..|].
  intros u Hu Hsome. apply Hle. by apply elem_of_positive_uids.
Qed.

Lemma min_positive_uid_None (u : Z) :
  min_positive_uid self d min_date min_uid = None →
  is_Some (primary !! u) → u ≤ 0.
Proof.
  intros Hnil%py_min_None Hsome.
  destruct (decide (u > 0)) as [Hu|]; [|lia].
  assert (u ∈ positive_uids (scan_loop self d min_date min_uid))
    by by apply elem_of_positive_uids.
  rewrite Hnil in *. by apply elem_of_nil in H.
Qed.
End cutoffs.

(** A negative key of the primary result is in the final result. *)
Lemma result_negative (self : MaildirFolder) (d : list (str * str))
    (min_date min_uid : option Z) (u : Z) :
  u < 0 →
  _scanfolder self d min_date min_uid !! u =
    primary_result self d min_date min_uid !! u.
Proof.
  intros Hu. rewrite result_lookup.
  destruct (min_positive_uid _ _ _ _) as [m|] eqn:Hm; [|by destruct min_date].
  apply min_positive_uid_Some in Hm as [? _].
  destruct min_date; [|done]. rewrite decide_False by lia. done.
Qed.

(** C3.  [_scanfolder] with [min_date] set.  No key below the UID floor is
    in the primary result or in the final one; the primary result has no
    entry for a listed file whose timestamp is earlier than [min_date], all
    its entries being those of decoded files that pass the date test; the
    side set has the entries of files that fail the date test, and every
    decoded file that is not below the floor and fails the date test is
    held there under its UID; the final result takes from the side set
    every key greater than the least positive key of the primary result and
    is the primary result elsewhere, and it is the primary result when that
    has no positive key. *)
Theorem scanfolder_date_cutoff (self : MaildirFolder) (d : list (str * str))
    (min_date : Z) (min_uid : option Z) :
  (∀ u, below_floor min_uid u = true →
     primary_result self d (Some min_date) min_uid !! u = None ∧
     _scanfolder self d (Some min_date) min_uid !! u = None) ∧
  (∀ f u it, f ∈ scan_files self d → _iswithintime f.2 min_date = false →
     primary_result self d (Some min_date) min_uid !! u = Some it →
     filename it ≠ os_path_join f.1 f.2) ∧
  (∀ u it, primary_result self d (Some min_date) min_uid !! u = Some it →
     ∃ f, f ∈ scan_files self d ∧ considered self d f = true ∧
          entry_of self f u it ∧ _iswithintime f.2 min_date = true) ∧
  (∀ u it, side_set self d (Some min_date) min_uid !! u = Some it →
     ∃ f, f ∈ scan_files self d ∧ considered self d f = true ∧
          entry_of self f u it ∧ _iswithintime f.2 min_date = false) ∧
  (∀ f, f ∈ scan_files self d → considered self d f = true →
     _iswithintime f.2 min_date = false →
     match parsed_uid self f.2 with
     | Some u =>
         below_floor min_uid u = false →
         is_Some (side_set self d (Some min_date) min_uid !! u)
     | None =>
         ∃ u, u < 0 ∧
           side_set self d (Some min_date) min_uid !! u =
             Some (Item (parsed_flags self f.2) (os_path_join f.1 f.2))
     end) ∧
  match min_positive_uid self d (Some min_date) min_uid with
  | Some m =>
      m > 0 ∧
      is_Some (primary_result self d (Some min_date) min_uid !! m) ∧
      (∀ u, u > 0 →
         is_Some (primary_result self d (Some min_date) min_uid !! u) → m ≤ u) ∧
      (∀ u it, side_set self d (Some min_date) min_uid !! u = Some it → u > m →
         _scanfolder self d (Some min_date) min_uid !! u = Some it) ∧
      (∀ u, side_set self d (Some min_date) min_uid !! u = None ∨ u ≤ m →
         _scanfolder self d (Some min_date) min_uid !! u =
           primary_result self d (Some min_date) min_uid !! u)
  | None =>
      (∀ u, is_Some (primary_result self d (Some min_date) min_uid !! u) → u ≤ 0) ∧
      _scanfolder self d (Some min_date) min_uid =
        primary_result self d (Some min_date) min_uid
  end.
Proof.
  assert (Hold : ∀ fn, too_old (Some min_date) fn = negb (_iswithintime fn min_date))
    by done.
  split_and!.
  - intros u Hu.
    assert (Hp : primary_result self d (Some min_date) min_uid !! u = None).
    { destruct (primary_result _ _ _ _ !! u) as [it|] eqn:H; [|done].
      apply primary_entry in H as [? _]. congruence. }
    assert (Hs : side_set self d (Some min_date) min_uid !! u = None).
    { destruct (side_set _ _ _ _ !! u) as [it|] eqn:H; [|done].
      apply side_entry in H as [? _]. congruence. }
    split; [done|]. rewrite result_lookup, Hs, Hp.
    destruct (min_positive_uid _ _ _ _); [by case_decide|done].
  - intros f u it Hf Hcold Hit Heq.
    apply primary_entry in Hit as (_ & f' & Hf' & _ & [-> _] & Hwarm).
    simpl in Heq. apply (scan_files_path_inj self d f' f Hf' Hf) in Heq as ->.
    rewrite Hold, Hcold in Hwarm. done.
  - intros u it (_ & f & ? & ? & ? & Hwarm)%primary_entry.
    rewrite Hold in Hwarm. apply negb_false_iff in Hwarm. eauto.
  - intros u it (_ & f & ? & ? & ? & Hcold)%side_entry.
    rewrite Hold in Hcold. apply negb_true_iff in Hcold. eauto.
  - intros f Hf Hc Hcold.
    pose proof (considered_file_kept self d (Some min_date) min_uid f Hf Hc) as H.
    rewrite Hold, Hcold in H. done.
  - destruct (min_positive_uid _ _ _ _) as [m|] eqn:Hm.
    + destruct (min_positive_uid_Some _ _ _ _ _ Hm) as (? & ? & ?).
      split_and!; [done..| |].
      * intros u it Hit Hu. by rewrite result_lookup, Hm, decide_True, Hit.
      * intros u Hu. rewrite result_lookup, Hm.
        case_decide; [|done]. destruct Hu as [-> | ?]; [done|lia].
    + split; [intros u; by apply min_positive_uid_None|].
      apply map_eq. intros u. by rewrite result_lookup, Hm.
Qed.

Lemma scanfolder_date_cutoff_witness :
  _scanfolder inbox sample_disk (Some 950) (Some 6) !! 5 = None ∧
  _scanfolder inbox sample_disk (Some 950) None !! 7 =
    side_set inbox sample_disk (Some 950) None !! 7.
Proof.
  split.
  - destruct (scanfolder_date_cutoff inbox sample_disk 950 (Some 6)) as (Hfloor & _).
    by apply Hfloor.
  - destruct (scanfolder_date_cutoff inbox sample_disk 950 None)
      as (_ & _ & _ & _ & _ & Hre).
    change (min_positive_uid inbox sample_disk (Some 950) None) with (Some 5) in Hre.
    destruct Hre as (_ & _ & _ & Hback & _).
    destruct (side_set inbox sample_disk (Some 950) None !! 7) as [it|] eqn:Hit;
      [|by vm_compute in Hit].
    by apply Hback.
Defined.

(** The scenario of the specification on the sample mailbox: with the
    cutoff at 950 the message of UID 7 fails the date test and comes back
    because 7 is above the least retained UID, 5. *)
Example scanfolder_date_cutoff_sample :
  side_set inbox sample_disk (Some 950) None !! 7 =
    Some (Item ∅ (lit "new/900_0.123.host,U=7,FMD5=7e33429f656f1e6e9d79b29c3f82c57e:2,")) ∧
  primary_result inbox sample_disk (Some 950) None !! 7 = None ∧
  min_positive_uid inbox sample_disk (Some 950) None = Some 5 ∧
  _scanfolder inbox sample_disk (Some 950) None !! 7 =
    Some (Item ∅ (lit "new/900_0.123.host,U=7,FMD5=7e33429f656f1e6e9d79b29c3f82c57e:2,")).
Proof. by vm_compute. Qed.

(** The date test reads the first run of digits of the name. *)
Lemma iswithintime_first_digit_run (fn : str) (date : Z) :
  _iswithintime fn date =
    if decide (first_digit_run fn = []) then true
    else bool_decide (date ≤ int_of_digits (first_digit_run fn)).
Proof.
  unfold first_digit_run.
  destruct (run_spec (λ c, negb (is_digit c)) fn) as (rest & Hfn & Hall & Hhead).
  remember (run (λ c, negb (is_digit c)) fn) as pre eqn:Hpre. clear Hpre.
  subst fn. rewrite drop_app_length.
  assert (Hnodigit : Forall (λ c, is_digit c = false) pre).
  { apply Forall_forall. intros c Hin. apply negb_true_iff.
    by apply (proj1 (forallb_forall _ pre) Hall), list_elem_of_In. }
  destruct rest as [|c rest].
  - rewrite app_nil_r. cbn [run]. rewrite decide_True by done.
    apply iswithintime_no_digit. intros c Hc.
    by apply (proj1 (Forall_forall _ _) Hnodigit).
  - apply negb_false_iff in Hhead.
    destruct (run_spec is_digit (c :: rest)) as (post & Hrest & Hdig & Hpost).
    assert (Hne : run is_digit (c :: rest) ≠ []) by (simpl; by rewrite Hhead).
    rewrite decide_False by done.
    rewrite Hrest at 1.
    by apply iswithintime_first_run.
Qed.

Lemma too_old_earlier_than (min_date : option Z) (fn : str) :
  too_old min_date fn = earlier_than min_date fn.
Proof.
  unfold too_old, earlier_than. destruct min_date as [md|]; [|done].
  rewrite iswithintime_first_digit_run. case_decide as Hrun.
  - by rewrite bool_decide_eq_true_2.
  - rewrite (bool_decide_eq_false_2 (_ = [])) by done. simpl.
    by case_bool_decide; case_bool_decide; try lia.
Qed.

(** C10.  The date filter of the scanner compares the first run of decimal
    digits of the file name, wherever it stands, with [min_date].  The
    test [_iswithintime] fails exactly for a name whose first run of
    digits reads as a number below the date, and passes a name without a
    digit.  In the scan, a decoded file whose key is not below the UID
    floor is put in the side set when its first run of digits is earlier
    than [min_date] and in the primary result otherwise, and every entry
    of either comes from such a file.  A file whose name has no digit is
    therefore, for every [min_date], set or not, in the primary result and
    in the final result under a negative key, and no entry of the side set
    is for it. *)
Theorem date_test_first_digit_run (self : MaildirFolder) (d : list (str * str))
    (min_date min_uid : option Z) :
  (∀ fn date,
     _iswithintime fn date =
       if decide (first_digit_run fn = []) then true
       else bool_decide (date ≤ int_of_digits (first_digit_run fn))) ∧
  (∀ f, f ∈ scan_files self d → considered self d f = true →
     match parsed_uid self f.2 with
     | Some u =>
         below_floor min_uid u = false →
         is_Some ((if earlier_than min_date f.2
                   then side_set self d min_date min_uid
                   else primary_result self d min_date min_uid) !! u)
     | None =>
         ∃ u, u < 0 ∧
           (if earlier_than min_date f.2
            then side_set self d min_date min_uid
            else primary_result self d min_date min_uid) !! u =
             Some (Item (parsed_flags self f.2) (os_path_join f.1 f.2))
     end) ∧
  (∀ u it, primary_result self d min_date min_uid !! u = Some it →
     ∃ f, f ∈ scan_files self d ∧ considered self d f = true ∧
          entry_of self f u it ∧ earlier_than min_date f.2 = false) ∧
  (∀ u it, side_set self d min_date min_uid !! u = Some it →
     ∃ f, f ∈ scan_files self d ∧ considered self d f = true ∧
          entry_of self f u it ∧ earlier_than min_date f.2 = true) ∧
  (∀ f, f ∈ scan_files self d → considered self d f = true →
     first_digit_run f.2 = [] →
     ∃ u, u < 0 ∧
       primary_result self d min_date min_uid !! u =
         Some (Item (parsed_flags self f.2) (os_path_join f.1 f.2)) ∧
       _scanfolder self d min_date min_uid !! u =
         Some (Item (parsed_flags self f.2) (os_path_join f.1 f.2)) ∧
       ∀ u' it, side_set self d min_date min_uid !! u' = Some it →
                filename it ≠ os_path_join f.1 f.2).
Proof.
  assert (Hprim : ∀ u it, primary_result self d min_date min_uid !! u = Some it →
            ∃ f, f ∈ scan_files self d ∧ considered self d f = true ∧
                 entry_of self f u it ∧ earlier_than min_date f.2 = false).
  { intros u it (_ & f & Hf & Hc & He & Hold)%primary_entry.
    exists f. by rewrite <- too_old_earlier_than. }
  assert (Hside : ∀ u it, side_set self d min_date min_uid !! u = Some it →
            ∃ f, f ∈ scan_files self d ∧ considered self d f = true ∧
                 entry_of self f u it ∧ earlier_than min_date f.2 = true).
  { intros u it (_ & f & Hf & Hc & He & Hold)%side_entry.
    exists f. by rewrite <- too_old_earlier_than. }
  split_and!; [apply iswithintime_first_digit_run| |done|done|].
  - intros f Hf Hc. rewrite <- too_old_earlier_than.
    by apply considered_file_kept.
  - intros f Hf Hc Hrun.
    assert (Hnew : earlier_than min_date f.2 = false).
    { unfold earlier_than. destruct min_date; [|done].
      by rewrite bool_decide_eq_true_2. }
    assert (Hno : ∀ c, c ∈ f.2 → is_digit c = false).
    { unfold first_digit_run in Hrun.
      destruct (run_spec (λ c, negb (is_digit c)) f.2)
        as (rest & Hfn & Hall & Hhead).
      rewrite Hfn in Hrun at 2. rewrite drop_app_length in Hrun.
      destruct rest as [|c rest].
      - rewrite app_nil_r in Hfn. rewrite Hfn. intros c Hin.
        apply negb_true_iff.
        by apply (proj1 (forallb_forall _ _) Hall), list_elem_of_In.
      - apply negb_false_iff in Hhead. simpl in Hrun. by rewrite Hhead in Hrun. }
    pose proof (considered_file_kept self d min_date min_uid f Hf Hc) as H.
    rewrite (no_digit_unresolved self f.2 Hno), too_old_earlier_than, Hnew in H.
    destruct H as (u & Hu & Hit). exists u. split_and!; [done|done| |].
    + by rewrite result_negative.
    + intros u' it (f' & Hf' & _ & [-> _] & Hearly)%Hside Heq.
      simpl in Heq. apply (scan_files_path_inj self d f' f Hf' Hf) in Heq as ->.
      congruence.
Qed.

Lemma date_test_first_digit_run_witness :
  _iswithintime (lit "msg,U=52,FMD5=0:2,S") 52 = true ∧
  _iswithintime (lit "msg,U=52,FMD5=0:2,S") 53 = false ∧
  is_Some (side_set inbox sample_disk (Some 950) None !! 7) ∧
  is_Some (primary_result inbox sample_disk (Some 950) None !! 5) ∧
  ∃ u, u < 0 ∧
    _scanfolder inbox sample_disk (Some 5000) (Some 3) !! u =
      Some (Item ∅ (lit "cur/note")).
Proof.
  destruct (date_test_first_digit_run inbox sample_disk (Some 950) None)
    as (Htest & Hplace & _).
  destruct (date_test_first_digit_run inbox sample_disk (Some 5000) (Some 3))
    as (_ & _ & _ & _ & Hnodigit).
  split_and!.
  - by rewrite Htest.
  - by rewrite Htest.
  - apply (Hplace (lit "new",
             lit "900_0.123.host,U=7,FMD5=7e33429f656f1e6e9d79b29c3f82c57e:2,"));
      [apply (bool_decide_unpack _); by vm_compute|by vm_compute|done].
  - apply (Hplace (lit "cur",
             lit "1000_0.123.host,U=5,FMD5=7e33429f656f1e6e9d79b29c3f82c57e:2,S"));
      [apply (bool_decide_unpack _); by vm_compute|by vm_compute|done].
  - destruct (Hnodigit (lit "cur", lit "note")) as (u & Hu & _ & Hres & _);
      [apply (bool_decide_unpack _); by vm_compute|by vm_compute|by vm_compute|].
    by exists u.
Defined.

(** ** The filename codec *)

Lemma contains_spec (needle s : str) :
  contains needle s = true ↔ ∃ pre post, s = pre ++ needle ++ post.
Proof.
  induction s as [|c s IH]; simpl.
  - destruct (strip_prefix needle []) as [rest|] eqn:Hp.
    + apply strip_prefix_Some in Hp. split; [|done]. intros _. by exists [], rest.
    + split; [done|]. intros (pre & post & H).
      destruct pre; [|done]. simpl in H.
      by rewrite H, strip_prefix_app in Hp.
  - destruct (strip_prefix needle (c :: s)) as [rest|] eqn:Hp.
    + apply strip_prefix_Some in Hp. split; [|done]. intros _. by exists [], rest.
    + rewrite IH. split.
      * intros (pre & post & ->). by exists (c :: pre), post.
      * intros (pre & post & H). destruct pre as [|c' pre].
        -- simpl in H. by rewrite H, strip_prefix_app in Hp.
        -- injection H as -> ->. eauto.
Qed.

(** A UID is decoded only from a name that contains the text [,FMD5=]
    followed by the fingerprint of the folder, and then it is the number
    after the first [,U=]. *)
Lemma parsed_uid_needs_fingerprint (self : MaildirFolder) (fn : str) (u : Z) :
  parsed_uid self fn = Some u →
  (∃ pre post, fn = pre ++ (lit ",FMD5=" ++ _foldermd5 self) ++ post) ∧
  ∃ pre ds post, fn = pre ++ lit ",U=" ++ ds ++ post ∧
                 forallb is_digit ds = true ∧ u = int_of_digits ds.
Proof.
  intros (Hc & m & Hm & ->)%parsed_uid_Some. split; [by apply contains_spec|].
  apply re_search_sound in Hm as (pre & post & -> & _ & Hd & _).
  by exists pre, m.2, post.
Qed.

(** C1.  The fingerprint test of [_parse_filename] is a substring test: a
    name whose fingerprint marker carries the folder's fingerprint followed
    by one more hex digit has a marker value that differs from the
    fingerprint, and its UID is decoded all the same.  Here the folder is
    [INBOX], the marker value has 33 digits and the UID returned is 5. *)
Theorem parse_filename_longer_fingerprint :
  fmd5_marker (lit "1000_0.123.host,U=5,FMD5=7e33429f656f1e6e9d79b29c3f82c57e0:2,S") =
    Some (lit "7e33429f656f1e6e9d79b29c3f82c57e0") ∧
  fmd5_marker (lit "1000_0.123.host,U=5,FMD5=7e33429f656f1e6e9d79b29c3f82c57e0:2,S") ≠
    Some (_foldermd5 inbox) ∧
  parsed_uid inbox
    (lit "1000_0.123.host,U=5,FMD5=7e33429f656f1e6e9d79b29c3f82c57e0:2,S") = Some 5.
Proof. split_and!; [by vm_compute|by vm_compute|by vm_compute]. Qed.

(** ** Storing a message *)

(** C5.  For a negative [uid], [savemessage] returns [uid] and leaves the
    disk, the message list and everything else as they were. *)
Theorem savemessage_negative_uid (self : MaildirFolder) (proc : Process)
    (uid : Z) (msg : Message) (flags' : gset ascii) (rtime : Z) (σ : State) :
  uid < 0 →
  savemessage self proc uid msg flags' rtime σ = (Return uid, σ).
Proof. intros Hu. unfold savemessage. by rewrite decide_True. Qed.

Lemma savemessage_negative_uid_witness :
  savemessage inbox sample_process (-1) (Build_Message (lit "body") None None) ∅ 0
    (sample_state ∅ sample_disk) = (Return (-1), sample_state ∅ sample_disk).
Proof. apply savemessage_negative_uid. lia. Defined.

(** With [uid = 0] and an empty message list the message is written: a
    file appears under [new] and the message list gets the key 0. *)
Lemma savemessage_zero_uid_stores :
  ¬ (let r := savemessage inbox sample_process 0
                (Build_Message (lit "body") None None) ∅ 0 (sample_state ∅ []) in
     r.1 = Return 0 ∧ disk r.2 = [] ∧ messagelist r.2 = ∅).
Proof. vm_compute. by intros (_ & [=] & _). Qed.

(** ** The fingerprint migration *)

(** The loop of [migratefmd5], had it been given a legacy fingerprint: in
    a dry run it calls nothing and leaves the disk as it is. *)
Lemma migrate_loop_dryrun (self : MaildirFolder) (oldfmd5 : str)
    (items : list (Z * item)) (σ : State) :
  (migrate_loop self true oldfmd5 items σ).1 = Return tt ∧
  disk (migrate_loop self true oldfmd5 items σ).2 = disk σ ∧
  syscalls (migrate_loop self true oldfmd5 items σ).2 = syscalls σ.
Proof.
  revert σ. induction items as [|[mkey mvalue] items IH]; intros σ; [done|].
  simpl. unfold mbind, M_bind.
  assert (H : ∃ σ', migrate_entry self true oldfmd5 mvalue σ = (Return tt, σ') ∧
                    disk σ' = disk σ ∧ syscalls σ' = syscalls σ).
  { unfold migrate_entry. destruct (re_search re_fmd5 _) as [m|]; [|by eexists].
    repeat case_decide; by eexists. }
  destruct H as (σ' & -> & <- & <-). apply IH.
Qed.

(** On the legacy mailbox the loop renames the file to carry the
    fingerprint of the folder. *)
Example migrate_loop_legacy :
  disk (migrate_loop inbox false legacy_fmd5
          (map_to_list (_scanfolder inbox legacy_disk None None))
          (sample_state ∅ legacy_disk)).2 =
    [ (lit "/home/u/Maildir/INBOX/new/900_0.123.host,U=7,FMD5=7e33429f656f1e6e9d79b29c3f82c57e:2,",
       lit "first") ].
Proof. by vm_compute. Qed.

(** C8.  [migratefmd5] hashes [self.name], a [str], without encoding it:
    the call raises [TypeError] before the mailbox is scanned, whatever the
    folder, the disk and [dryrun]; nothing is renamed and nothing is
    reported. *)
Theorem migratefmd5_raises_TypeError (md5_hexdigest : str → str)
    (self : MaildirFolder) (dryrun : bool) (σ : State) :
  migratefmd5 md5_hexdigest self dryrun σ = (Raise TypeError, σ).
Proof. reflexivity. Qed.

(** ** The file system *)

Lemma fs_read_remove_eq (d : list (str * str)) (p : str) :
  fs_read (fs_remove p d) p = None.
Proof.
  unfold fs_remove. induction d as [|[q c] d IH]; [done|].
  rewrite filter_cons. simpl. case_decide; [|done].
  simpl. by rewrite decide_False.
Qed.

Lemma fs_read_remove_ne (d : list (str * str)) (p q : str) :
  p ≠ q → fs_read (fs_remove p d) q = fs_read d q.
Proof.
  intros Hne. unfold fs_remove. induction d as [|[r c] d IH]; [done|].
  rewrite filter_cons. simpl. destruct (decide (r = p)) as [->|Hr].
  - rewrite decide_False by (by intros ?). simpl. by rewrite decide_False.
  - rewrite decide_True by done. simpl. by rewrite IH.
Qed.

Lemma fs_read_elem (d : list (str * str)) (p c : str) :
  (p, c) ∈ d → is_Some (fs_read d p).
Proof.
  induction d as [|[q c'] d IH]; [by intros ?%elem_of_nil|].
  intros [[= -> ->]|Hin]%elem_of_cons; simpl.
  - rewrite decide_True by done. eauto.
  - case_decide; [eauto|by apply IH].
Qed.

(** ** [os.path.split] *)

Lemma os_path_split_tail_no_sep (p : str) : os_path_sep ∉ (os_path_split p).2.
Proof.
  unfold os_path_split. simpl. rewrite elem_of_reverse.
  destruct (run_spec (λ c, negb (is_sep c)) (reverse p)) as (_ & _ & Hall & _).
  intros Hin. apply list_elem_of_In in Hin.
  apply (proj1 (forallb_forall _ _) Hall) in Hin.
  unfold is_sep in Hin. by rewrite bool_decide_eq_true_2 in Hin.
Qed.

Lemma no_sep_forallb (s : str) :
  os_path_sep ∉ s → forallb (λ c, negb (is_sep c)) s = true.
Proof.
  intros Hs. apply forallb_forall. intros c Hc%list_elem_of_In.
  unfold is_sep. rewrite bool_decide_eq_false_2; [done|]. by intros ->.
Qed.

Lemma os_path_split_tail (dir fn : str) :
  os_path_sep ∉ fn → (os_path_split (dir ++ os_path_sep :: fn)).2 = fn.
Proof.
  intros Hfn. unfold os_path_split. simpl.
  rewrite reverse_app, reverse_cons, <- app_assoc.
  rewrite run_app_all; [by rewrite reverse_involutive| |done].
  apply no_sep_forallb. by rewrite elem_of_reverse.
Qed.

Lemma elem_of_take_1 (c : ascii) (k : nat) (s : str) : c ∈ take k s → c ∈ s.
Proof.
  intros (i & Hi & _)%elem_of_take. by apply list_elem_of_lookup_2 in Hi.
Qed.

(** ** Setting flags *)

Section flags.
Context (self : MaildirFolder).

Lemma os_path_join_dir (flags' : gset ascii) (fn : str) :
  head fn ≠ Some os_path_sep →
  os_path_join (flag_directory flags') fn =
    flag_directory flags' ++ os_path_sep :: fn.
Proof.
  intros Hfn. rewrite os_path_join_relative by done.
  unfold flag_directory. by case_decide.
Qed.

Lemma sorted_flags_elem (flags' : gset ascii) (c : ascii) :
  c ∈ sorted_flags flags' ↔ c ∈ flags'.
Proof.
  unfold sorted_flags. rewrite merge_sort_Permutation. apply elem_of_elements.
Qed.

Lemma infosep_not_sep : folder_ok self → infosep self ≠ os_path_sep.
Proof. intros [[-> | ->] _]; done. Qed.

Lemma target_name_head (it : item) (flags' : gset ascii) :
  folder_ok self → head (target_name self it flags') ≠ Some os_path_sep.
Proof.
  intros Hok. unfold target_name.
  pose proof (os_path_split_tail_no_sep (filename it)) as Htail.
  set (tail := (os_path_split (filename it)).2) in *.
  case_decide; [|by apply head_not_sep].
  assert (Hpre : ∀ k, head (take k tail ++ infosep self :: lit "2," ++ sorted_flags flags')
                      ≠ Some os_path_sep).
  { intros k. destruct (take k tail) as [|c t] eqn:Ht; simpl.
    - intros [=]. by apply infosep_not_sep.
    - intros [= ->]. apply Htail. apply (elem_of_take_1 _ k). rewrite Ht. by left. }
  destruct (re_search _ tail); [apply Hpre|].
  rewrite <- (take_ge tail (length tail)) at 1 by lia. apply Hpre.
Qed.

Lemma target_name_no_sep (it : item) (flags' : gset ascii) :
  folder_ok self → os_path_sep ∉ flags' →
  os_path_sep ∉ target_name self it flags'.
Proof.
  intros Hok Hfl. unfold target_name.
  pose proof (os_path_split_tail_no_sep (filename it)) as Htail.
  set (tail := (os_path_split (filename it)).2) in *.
  case_decide; [|done].
  rewrite elem_of_app, elem_of_cons. intros [Hin|[Hin|Hin]].
  - destruct (re_search _ tail); [|done].
    by apply elem_of_take_1 in Hin.
  - by apply infosep_not_sep.
  - simpl in Hin. do 2 (apply elem_of_cons in Hin as [Hin|Hin]; [done|]).
    by apply sorted_flags_elem in Hin.
Qed.

Lemma target_path_eq (it : item) (flags' : gset ascii) :
  folder_ok self →
  target_path self it flags' =
    flag_directory flags' ++ os_path_sep :: target_name self it flags'.
Proof. intros Hok. by apply os_path_join_dir, target_name_head. Qed.

(** [savemessageflags] by cases: no call when the path stays, else one
    [os.rename], whose failure is the failure of the method. *)
Lemma savemessageflags_eq (uid : Z) (flags' : gset ascii) (σ : State) (it : item) :
  messagelist σ !! uid = Some it →
  savemessageflags self uid flags' σ =
    if decide (target_path self it flags' ≠ filename it) then
      match fs_read (disk σ) (abspath self (filename it)) with
      | Some c =>
          (Return tt,
           set_messagelist (<[uid := Item flags' (target_path self it flags')]>)
             (set_disk (λ d, (abspath self (target_path self it flags'), c) ::
                             fs_remove (abspath self (target_path self it flags'))
                               (fs_remove (abspath self (filename it)) d))
                (log_syscall (SysRename (abspath self (filename it))
                                        (abspath self (target_path self it flags'))) σ)))
      | None =>
          (Raise OfflineImapError_FOLDER,
           log_syscall (SysRename (abspath self (filename it))
                                  (abspath self (target_path self it flags'))) σ)
      end
    else (Return tt, σ).
Proof.
  intros Hit. unfold savemessageflags, target_path, target_name, abspath.
  unfold mbind at 1, M_bind at 1, gets at 1. rewrite Hit.
  destruct (os_path_split (filename it)) as [dir_prefix tail] eqn:Hsplit.
  cbn [snd]. fold (flag_directory flags').
  case_decide; [|done].
  unfold mbind, M_bind, try_except, os_rename, modify, raise. simpl.
  by destruct (fs_read (disk σ) _).
Qed.
End flags.

Lemma inbox_ok : folder_ok inbox.
Proof. split_and!; [by left|done..]. Qed.

(** The folder [__init__] builds is as [folder_ok] says, the digest being
    32 hex digits. *)
Lemma MaildirFolder_init_ok (md5_hexdigest : str → str)
    (root name visiblename : str) (wincompatible utime_from_header : bool)
    (maxsize : option Z) (use_mail_timestamp : bool) :
  forallb is_hex (md5_hexdigest visiblename) = true →
  length (md5_hexdigest visiblename) = 32%nat →
  folder_ok (MaildirFolder_init md5_hexdigest root name visiblename
               wincompatible utime_from_header maxsize use_mail_timestamp).
Proof.
  intros Hhex Hlen. split_and!; [|done..].
  simpl. destruct wincompatible; [by right|by left].
Qed.

(** C2.  When [savemessageflags(uid, flags)] returns, the cached path of
    [uid] is a name under [cur] if ['S'] is in [flags] and under [new]
    otherwise, the message's file is on disk at that path and at its old
    path no longer (given that it was at the cached path before the call). *)
Theorem savemessageflags_directory (self : MaildirFolder) (uid : Z)
    (flags' : gset ascii) (σ σ' : State) (it : item) (c : str) :
  folder_ok self →
  messagelist σ !! uid = Some it →
  fs_read (disk σ) (abspath self (filename it)) = Some c →
  savemessageflags self uid flags' σ = (Return tt, σ') →
  ∃ fn,
    (os_path_sep ∉ flags' → os_path_sep ∉ fn) ∧
    filename <$> messagelist σ' !! uid =
      Some (flag_directory flags' ++ os_path_sep :: fn) ∧
    fs_read (disk σ') (abspath self (flag_directory flags' ++ os_path_sep :: fn)) =
      Some c ∧
    (abspath self (filename it) ≠
       abspath self (flag_directory flags' ++ os_path_sep :: fn) →
     fs_read (disk σ') (abspath self (filename it)) = None).
Proof.
  intros Hok Hit Hfile Hrun. exists (target_name self it flags').
  rewrite <- (target_path_eq self it flags' Hok).
  split; [by apply target_name_no_sep|].
  rewrite (savemessageflags_eq self uid flags' σ it Hit), Hfile in Hrun.
  case_decide as Hpath.
  - injection Hrun as <-. simpl. rewrite lookup_insert_eq. simpl.
    rewrite decide_True by done. split_and!; [done..|].
    intros Hne. rewrite decide_False by done.
    rewrite fs_read_remove_ne by done. apply fs_read_remove_eq.
  - injection Hrun as <-. rewrite Hit, Hpath. simpl. by split_and!.
Qed.

Lemma savemessageflags_directory_witness :
  ∃ σ', savemessageflags inbox 5 ∅ (sample_state sample_cache sample_disk) =
          (Return tt, σ') ∧
        filename <$> messagelist σ' !! 5 =
          Some (lit "new/1000_0.123.host,U=5,FMD5=7e33429f656f1e6e9d79b29c3f82c57e:2,") ∧
        fs_read (disk σ')
          (lit "/home/u/Maildir/INBOX/new/1000_0.123.host,U=5,FMD5=7e33429f656f1e6e9d79b29c3f82c57e:2,") =
          Some (lit "second").
Proof.
  exists (savemessageflags inbox 5 ∅ (sample_state sample_cache sample_disk)).2.
  destruct (savemessageflags_directory inbox 5 ∅
              (sample_state sample_cache sample_disk)
              (savemessageflags inbox 5 ∅ (sample_state sample_cache sample_disk)).2
              (Item {[ "S" ]}
                 (lit "cur/1000_0.123.host,U=5,FMD5=7e33429f656f1e6e9d79b29c3f82c57e:2,S"))
              (lit "second") inbox_ok)
    as (fn & _ & Hcache & Hdisk & _);
    [by vm_compute|by vm_compute|by vm_compute|].
  split_and!; by vm_compute.
Defined.

(** C4.  A call of [savemessageflags] with the cached flags changes
    nothing and calls nothing when the cached path is already the file's
    name under the directory of the flags; otherwise its one file-system
    call is the rename of the file to that directory, under the same name.
    A call that returns leaves a state in which the same call changes
    nothing and calls nothing. *)
Theorem savemessageflags_idempotent (self : MaildirFolder) (uid : Z)
    (flags' : gset ascii) (σ : State) (it : item) :
  folder_ok self → os_path_sep ∉ flags' →
  messagelist σ !! uid = Some it →
  (flags' = flags it →
   filename it = flag_directory flags' ++ os_path_sep :: (os_path_split (filename it)).2 →
   savemessageflags self uid flags' σ = (Return tt, σ)) ∧
  (flags' = flags it →
   filename it ≠ flag_directory flags' ++ os_path_sep :: (os_path_split (filename it)).2 →
   syscalls (savemessageflags self uid flags' σ).2 =
     syscalls σ ++
     [SysRename (abspath self (filename it))
        (abspath self (flag_directory flags' ++ os_path_sep ::
                         (os_path_split (filename it)).2))]) ∧
  (∀ σ1, savemessageflags self uid flags' σ = (Return tt, σ1) →
         savemessageflags self uid flags' σ1 = (Return tt, σ1)).
Proof.
  intros Hok Hsep Hit.
  assert (Hsame : flags' = flags it →
            target_path self it flags' =
              flag_directory flags' ++ os_path_sep :: (os_path_split (filename it)).2).
  { intros Hfl. rewrite target_path_eq by done. unfold target_name.
    by rewrite decide_False by (by intros ?). }
  split_and!.
  - intros Hfl Hpath. rewrite (savemessageflags_eq self uid flags' σ it Hit).
    rewrite decide_False; [done|]. intros Hne. apply Hne. by rewrite Hsame.
  - intros Hfl Hpath. rewrite (savemessageflags_eq self uid flags' σ it Hit).
    rewrite decide_True by (by rewrite Hsame). rewrite Hsame by done.
    by destruct (fs_read _ _).
  - intros σ1 Hrun.
    rewrite (savemessageflags_eq self uid flags' σ it Hit) in Hrun.
    case_decide as Hpath.
    + destruct (fs_read _ _) as [c|]; [|done]. injection Hrun as <-.
      set (it1 := Item flags' (target_path self it flags')).
      rewrite (savemessageflags_eq self uid flags' _ it1)
        by (simpl; by rewrite lookup_insert_eq).
      rewrite decide_False; [done|]. intros Hne. apply Hne.
      rewrite (target_path_eq self it1) by done. unfold target_name at 1.
      rewrite decide_False by (by intros ?). unfold it1. cbn [filename].
      rewrite (target_path_eq self it) by done.
      by rewrite os_path_split_tail by by apply target_name_no_sep.
    + injection Hrun as <-.
      rewrite (savemessageflags_eq self uid flags' σ it Hit).
      rewrite decide_False; [done|]. intros Hne. by apply Hne.
Qed.

Lemma savemessageflags_idempotent_witness :
  savemessageflags inbox 5 {[ "S" ]} (sample_state sample_cache sample_disk) =
    (Return tt, sample_state sample_cache sample_disk) ∧
  syscalls (savemessageflags inbox 9 ∅ (sample_state staged_cache staged_disk)).2 =
    [SysRename
       (lit "/home/u/Maildir/INBOX/tmp/1000_0.123.host,U=9,FMD5=7e33429f656f1e6e9d79b29c3f82c57e:2,")
       (lit "/home/u/Maildir/INBOX/new/1000_0.123.host,U=9,FMD5=7e33429f656f1e6e9d79b29c3f82c57e:2,")] ∧
  savemessageflags inbox 9 ∅
    (savemessageflags inbox 9 ∅ (sample_state staged_cache staged_disk)).2 =
    (Return tt, (savemessageflags inbox 9 ∅ (sample_state staged_cache staged_disk)).2).
Proof.
  destruct (savemessageflags_idempotent inbox 5 {[ "S" ]}
              (sample_state sample_cache sample_disk)
              (Item {[ "S" ]}
                 (lit "cur/1000_0.123.host,U=5,FMD5=7e33429f656f1e6e9d79b29c3f82c57e:2,S"))
              inbox_ok)
    as (Hnone & _ & _); [by vm_compute|by vm_compute|].
  destruct (savemessageflags_idempotent inbox 9 ∅
              (sample_state staged_cache staged_disk)
              (Item ∅ (lit "tmp/1000_0.123.host,U=9,FMD5=7e33429f656f1e6e9d79b29c3f82c57e:2,"))
              inbox_ok)
    as (_ & Hone & Htwice); [by vm_compute|by vm_compute|].
  split_and!.
  - apply Hnone; by vm_compute.
  - rewrite Hone; by vm_compute.
  - apply Htwice. by vm_compute.
Defined.

(** With the cached flags and a file that [savemessage] has staged under
    [tmp], [savemessageflags] renames the file: equal flags do not rule
    out a file-system call. *)
Lemma savemessageflags_same_flags_renames :
  ¬ (flags <$> messagelist (sample_state staged_cache staged_disk) !! 9 = Some ∅ →
     syscalls (savemessageflags inbox 9 ∅ (sample_state staged_cache staged_disk)).2 =
       syscalls (sample_state staged_cache staged_disk)).
Proof. intros H. specialize (H ltac:(by vm_compute)). by vm_compute in H. Qed.

(** ** Deleting a message *)

Local Arguments os_path_join : simpl never.
Local Arguments _scanfolder : simpl never.

Lemma abspath_scan_file (self : MaildirFolder) (d : list (str * str))
    (f : str * str) :
  f ∈ scan_files self d →
  ∃ c, (abspath self (os_path_join f.1 f.2), c) ∈ d.
Proof.
  intros Hf. pose proof (scan_files_path self d f Hf) as (-> & Hd & _).
  apply elem_of_scan_files in Hf as [_ (_ & _ & c & Hin)%elem_of_os_listdir].
  exists c. unfold abspath.
  replace (os_path_join (getfullname self) (f.1 ++ os_path_sep :: f.2))
    with (os_path_join (getfullname self) f.1 ++ os_path_sep :: f.2); [done|].
  rewrite !os_path_join_relative by (by destruct Hd as [-> | ->]).
  destruct (last (getfullname self)) as [c0|]; [|done].
  case_decide; by rewrite <- app_assoc.
Qed.

(** What a scan without cutoffs finds is on the disk. *)
Lemma scanfolder_entry_on_disk (self : MaildirFolder) (d : list (str * str))
    (uid : Z) (it : item) :
  _scanfolder self d None None !! uid = Some it →
  is_Some (fs_read d (abspath self (filename it))).
Proof.
  intros H. change (primary_result self d None None !! uid = Some it) in H.
  apply primary_entry in H as (_ & f & Hf & _ & [-> _] & _).
  destruct (abspath_scan_file self d f Hf) as [c Hc]. simpl.
  by apply fs_read_elem in Hc.
Qed.

(** [deletemessage] by cases on what its calls of [os.unlink] do. *)
Lemma deletemessage_with_eq (unlink : str → M unit) (self : MaildirFolder)
    (uid : Z) (σ : State) (it : item) :
  messagelist σ !! uid = Some it →
  deletemessage_with unlink self uid σ =
    match unlink (abspath self (filename it)) σ with
    | (Return _, σ1) => (Return tt, set_messagelist (delete uid) σ1)
    | (Raise e, σ1) =>
        if is_OSError e then
          match _scanfolder self (disk σ1) None None !! uid with
          | Some it' =>
              match unlink (abspath self (filename it')) σ1 with
              | (Return _, σ2) => (Return tt, set_messagelist (delete uid) σ2)
              | (Raise e', σ2) => (Raise e', σ2)
              end
          | None => (Return tt, set_messagelist (delete uid) σ1)
          end
        else (Raise e, σ1)
    end.
Proof.
  intros Hit. unfold deletemessage_with, abspath.
  unfold mbind at 1, M_bind at 1, gets at 1. rewrite Hit.
  unfold mbind at 1, M_bind at 1, try_except, modify.
  destruct (unlink (os_path_join (getfullname self) (filename it)) σ)
    as [[[]|e] σ1]; [done|].
  destruct (is_OSError e); [|done].
  unfold mbind, M_bind, gets.
  destruct (_scanfolder self (disk σ1) None None !! uid) as [it'|]; [|done].
  by destruct (unlink (os_path_join (getfullname self) (filename it')) σ1)
    as [[[]|e'] σ2].
Qed.

(** With the file renamed behind the folder's back and removed by another
    process between the rescan and the retry, the retried unlink raises:
    the exception leaves [deletemessage] and the message list still has
    the UID, though no file of the message is left. *)
Lemma deletemessage_raced_keeps_entry :
  let r := deletemessage_with os_unlink_raced inbox 5
             (sample_state sample_cache moved_disk) in
  ¬ (messagelist r.2 !! 5 = None) ∧
  r.1 = Raise OSError_ENOENT ∧ disk r.2 = [] ∧
  syscalls r.2 =
    [SysUnlink
       (lit "/home/u/Maildir/INBOX/cur/1000_0.123.host,U=5,FMD5=7e33429f656f1e6e9d79b29c3f82c57e:2,S");
     SysUnlink
       (lit "/home/u/Maildir/INBOX/new/1000_0.123.host,U=5,FMD5=7e33429f656f1e6e9d79b29c3f82c57e:2,")].
Proof. vm_compute. by split_and!. Qed.

(** C7.  [deletemessage(uid)] on a cached [uid], whatever makes
    [os.unlink] fail: the entry of [uid] leaves the message list exactly
    when the call returns, and stays when it raises.  When the unlink of
    the cached path returns, so does the call.  When it raises an
    [OSError], the mailbox is scanned once: if the scan has no [uid] the
    call returns; if it has, the unlink is tried once more, at the path
    found, and the call returns when that unlink does and raises what it
    raises.  Any other exception of the first unlink leaves the call. *)
Theorem deletemessage_rescans (unlink : str → M unit) (self : MaildirFolder)
    (uid : Z) (σ : State) (it : item) :
  (∀ p σ0, messagelist (unlink p σ0).2 = messagelist σ0) →
  messagelist σ !! uid = Some it →
  (∀ σ', deletemessage_with unlink self uid σ = (Return tt, σ') →
         messagelist σ' = delete uid (messagelist σ)) ∧
  (∀ e σ', deletemessage_with unlink self uid σ = (Raise e, σ') →
           messagelist σ' = messagelist σ) ∧
  match unlink (abspath self (filename it)) σ with
  | (Return _, σ1) =>
      deletemessage_with unlink self uid σ =
        (Return tt, set_messagelist (delete uid) σ1)
  | (Raise e, σ1) =>
      if is_OSError e then
        match _scanfolder self (disk σ1) None None !! uid with
        | Some it' =>
            match unlink (abspath self (filename it')) σ1 with
            | (Return _, σ2) =>
                deletemessage_with unlink self uid σ =
                  (Return tt, set_messagelist (delete uid) σ2)
            | (Raise e', σ2) =>
                deletemessage_with unlink self uid σ = (Raise e', σ2)
            end
        | None =>
            deletemessage_with unlink self uid σ =
              (Return tt, set_messagelist (delete uid) σ1)
        end
      else deletemessage_with unlink self uid σ = (Raise e, σ1)
  end.
Proof.
  intros Hkeeps Hit.
  rewrite (deletemessage_with_eq unlink self uid σ it Hit).
  pose proof (Hkeeps (abspath self (filename it)) σ) as Hml1.
  destruct (unlink (abspath self (filename it)) σ) as [[[]|e] σ1];
    cbn [snd] in Hml1.
  { split_and!; [|done..]. intros σ' [= <-]. simpl. by rewrite Hml1. }
  destruct (is_OSError e);
    [|split_and!; [done| |done]; by intros ? ? [= <- <-]].
  destruct (_scanfolder self (disk σ1) None None !! uid) as [it'|].
  - pose proof (Hkeeps (abspath self (filename it')) σ1) as Hml2.
    destruct (unlink (abspath self (filename it')) σ1) as [[[]|e'] σ2];
      cbn [snd] in Hml2.
    + split_and!; [|done..]. intros σ' [= <-]. simpl. by rewrite Hml2, Hml1.
    + split_and!; [done| |done]. intros ? ? [= <- <-]. by rewrite Hml2.
  - split_and!; [|done..]. intros σ' [= <-]. simpl. by rewrite Hml1.
Qed.

Lemma deletemessage_rescans_witness :
  ∃ σ', deletemessage inbox 5 (sample_state sample_cache moved_disk) = (Return tt, σ') ∧
        messagelist σ' = ∅ ∧ disk σ' = [] ∧
        syscalls σ' =
          [SysUnlink
             (lit "/home/u/Maildir/INBOX/cur/1000_0.123.host,U=5,FMD5=7e33429f656f1e6e9d79b29c3f82c57e:2,S");
           SysUnlink
             (lit "/home/u/Maildir/INBOX/new/1000_0.123.host,U=5,FMD5=7e33429f656f1e6e9d79b29c3f82c57e:2,")].
Proof.
  destruct (deletemessage_rescans os_unlink inbox 5
              (sample_state sample_cache moved_disk)
              (Item {[ "S" ]}
                 (lit "cur/1000_0.123.host,U=5,FMD5=7e33429f656f1e6e9d79b29c3f82c57e:2,S")))
    as (_ & _ & Hrun);
    [intros p σ0; unfold os_unlink; by destruct (fs_read _ _)|by vm_compute|].
  vm_compute in Hrun. eexists. split; [exact Hrun|]. by vm_compute.
Defined.

(** ** The round trip of the flags *)

Lemma string_of_uint_digits (u : Decimal.uint) (c : ascii) :
  c ∈ lit (NilEmpty.string_of_uint u) → is_digit c = true.
Proof.
  unfold lit. induction u; simpl; try (by intros ?%elem_of_nil);
    intros [->|Hin]%elem_of_cons; by auto.
Qed.

Lemma fmt_d_chars (z : Z) (c : ascii) :
  c ∈ fmt_d z → is_digit c = true ∨ c = "-".
Proof.
  unfold fmt_d, NilZero.string_of_int, NilZero.string_of_uint.
  destruct (Z.to_int z) as [u|u].
  - destruct u; try (intros H; left; revert H; apply string_of_uint_digits).
    unfold lit. simpl. intros ->%list_elem_of_singleton. by left.
  - unfold lit. simpl. intros [->|Hin]%elem_of_cons; [by right|left].
    destruct u; try (revert Hin; apply string_of_uint_digits).
    simpl in Hin. by apply list_elem_of_singleton in Hin as ->.
Qed.

Lemma is_flag_letter_word (c : ascii) :
  is_flag_letter c = true → is_word c = true ∧ c ≠ os_path_sep.
Proof. destruct c as [[] [] [] [] [] [] [] []]; by vm_compute. Qed.

Lemma is_hex_not_infosep (c : ascii) : is_hex c = true → c ≠ ":" ∧ c ≠ "!".
Proof. destruct c as [[] [] [] [] [] [] [] []]; by vm_compute. Qed.

Lemma is_digit_not_infosep (c : ascii) :
  is_digit c = true ∨ c = "-" → c ≠ ":" ∧ c ≠ "!".
Proof. intros [H| ->]; [|done]. revert H. destruct c as [[] [] [] [] [] [] [] []]; by vm_compute. Qed.

Lemma replace_char_id (a b : ascii) (s : str) : a ∉ s → replace_char a b s = s.
Proof.
  intros Ha. unfold replace_char. induction s as [|c s IH]; [done|].
  simpl. rewrite decide_False by (intros ->; apply Ha; by left).
  f_equal. apply IH. intros Hin. apply Ha. by right.
Qed.

Lemma replace_char_app (a b : ascii) (s t : str) :
  replace_char a b (s ++ t) = replace_char a b s ++ replace_char a b t.
Proof. apply fmap_app. Qed.

Lemma replace_char_avoids (a b x : ascii) (s : str) :
  x ≠ b → x ∉ s → x ∉ replace_char a b s.
Proof.
  intros Hb Hs. unfold replace_char. rewrite list_elem_of_fmap.
  intros (c & Hx & Hin). case_decide; congruence.
Qed.

Lemma list_to_set_sorted_flags (flags' : gset ascii) :
  list_to_set (sorted_flags flags') = flags'.
Proof.
  apply set_eq. intros c. by rewrite elem_of_list_to_set, sorted_flags_elem.
Qed.

(** The flags decoded from a name whose only separator starts a flags
    marker at its end. *)
Lemma parsed_flags_suffix (self : MaildirFolder) (pre g : str) :
  infosep self ∉ pre → forallb is_word g = true →
  parsed_flags self (pre ++ infosep self :: lit "2," ++ g) = list_to_set g.
Proof.
  intros Hpre Hg. unfold parsed_flags, _parse_filename. cbn [snd].
  rewrite re_search_skip.
  - rewrite (re_search_here _ _ g); [done|].
    pose proof (re_match_at_complete (re_flagmatch self) g [] Hg) as H.
    rewrite app_nil_r in H. apply H; [simpl; lia|done].
  - intros k Hk. apply (re_match_at_no_head _ (infosep self) (lit "2,")); [done|].
    apply (head_drop_app (λ c, c ≠ infosep self)); [|done].
    apply Forall_forall. by intros c Hc ->.
Qed.

(** C6.  When the host name has no separator character in it, the flags
    decoded from the name that [new_message_filename] makes for a set of
    flag letters are that set. *)
Theorem new_message_filename_flags_roundtrip (self : MaildirFolder)
    (proc : Process) (uid : Z) (flags' : gset ascii) (date : option Z)
    (σ : State) :
  folder_ok self →
  infosep self ∉ gethostname proc →
  forallb is_flag_letter (elements flags') = true →
  ∃ fn σ',
    new_message_filename self proc uid (Some flags') date σ = (Return fn, σ') ∧
    parsed_flags self fn = flags'.
Proof.
  intros (Hsep & Hhex & _ & Hsubst) Hhost Hflags.
  unfold new_message_filename. unfold mbind, M_bind. rewrite gettimeseq_step.
  cbn [fst snd]. unfold mret, M_ret. eexists _, _. split; [done|].
  set (t := call_stamp (date, clock σ)). set (n := next_seq (timehash σ) t).
  assert (Hletters : ∀ c, c ∈ sorted_flags flags' →
            is_word c = true ∧ c ≠ os_path_sep).
  { intros c Hc%sorted_flags_elem%elem_of_elements%list_elem_of_In.
    apply is_flag_letter_word. by apply (proj1 (forallb_forall _ _) Hflags). }
  assert (Hmd5 : ∀ c, c ∈ _foldermd5 self → c ≠ ":" ∧ c ≠ "!").
  { intros c Hc%list_elem_of_In. apply is_hex_not_infosep.
    by apply (proj1 (forallb_forall _ _) Hhex). }
  assert (Hnum : ∀ z c, c ∈ fmt_d z → c ≠ ":" ∧ c ≠ "!").
  { intros z c Hc. by apply is_digit_not_infosep, (fmt_d_chars z). }
  set (pre := fmt_d t ++ lit "_" ++ fmt_d n ++ lit "." ++
              fmt_d (getpid proc) ++ lit "." ++ gethostname proc ++
              lit ",U=" ++ fmt_d uid ++ lit ",FMD5=" ++ _foldermd5 self).
  replace (fmt_d t ++ _) with (pre ++ infosep self :: lit "2," ++ sorted_flags flags')
    by (unfold pre; by rewrite <- !app_assoc).
  rewrite replace_char_app, Hsubst.
  rewrite (replace_char_id _ _ (infosep self :: _)).
  - rewrite parsed_flags_suffix.
    + apply list_to_set_sorted_flags.
    + apply replace_char_avoids; [by destruct Hsep as [-> | ->]|].
      unfold pre. rewrite !elem_of_app.
      intros [H|[H|[H|[H|[H|[H|[H|[H|[H|[H|H]]]]]]]]]];
        try (by apply Hnum in H as [? ?]; destruct Hsep as [E|E]; rewrite E in *);
        try (by apply Hmd5 in H as [? ?]; destruct Hsep as [E|E]; rewrite E in *);
        try done;
        destruct Hsep as [E|E]; rewrite E in H; clear -H;
        repeat (apply elem_of_cons in H as [H|H]; [done|]);
        by apply elem_of_nil in H.
    + apply forallb_forall. intros c Hc%list_elem_of_In. by apply Hletters.
  - rewrite elem_of_cons. intros [H|H].
    + by destruct Hsep as [E|E]; rewrite E in H.
    + simpl in H. do 2 (apply elem_of_cons in H as [H|H]; [done|]).
      by apply Hletters in H as [_ ?].
Qed.

Lemma new_message_filename_flags_roundtrip_witness :
  ∃ fn σ',
    new_message_filename inbox sample_process 5 (Some {[ "S"; "T"; "a" ]}) None
      (sample_state ∅ []) = (Return fn, σ') ∧
    fn = lit "1000_0.123.host,U=5,FMD5=7e33429f656f1e6e9d79b29c3f82c57e:2,STa" ∧
    parsed_flags inbox fn = {[ "S"; "T"; "a" ]}.
Proof.
  destruct (new_message_filename_flags_roundtrip inbox sample_process 5
              {[ "S"; "T"; "a" ]} None (sample_state ∅ []) inbox_ok)
    as (fn & σ' & Hrun & Hflags);
    [apply (bool_decide_unpack _); by vm_compute|by vm_compute|].
  exists fn, σ'. split; [exact Hrun|]. split; [|exact Hflags].
  vm_compute in Hrun. by injection Hrun as <- _.
Defined.

(** On a host whose name is [h:2,T], the name made for the flag set [{S}]
    decodes to the flag set [{T}]: the first flags marker is the one in the
    host name. *)
Lemma new_message_filename_flags_in_hostname :
  ¬ (∃ fn σ',
       new_message_filename inbox odd_process 5 (Some {[ "S" ]}) None
         (sample_state ∅ []) = (Return fn, σ') ∧
       parsed_flags inbox fn = {[ "S" ]}).
Proof.
  intros (fn & σ' & Hrun & Hflags).
  vm_compute in Hrun. injection Hrun as <- _.
  apply (f_equal elements) in Hflags. by vm_compute in Hflags.
Qed.

(* ===================================================================== *)
(** * Further properties *)
(* ===================================================================== *)

(** ** Decimal numbers *)

Lemma int_of_digits_acc (d : Decimal.uint) (acc : positive) :
  foldl (λ a c, 10 * a + digit_val c) (Z.pos acc)
        (lit (NilEmpty.string_of_uint d)) =
    Z.pos (Pos.of_uint_acc d acc).
Proof.
  revert acc. unfold lit.
  induction d as [|d IH|d IH|d IH|d IH|d IH|d IH|d IH|d IH|d IH|d IH];
    intros acc; simpl; [done|..]; rewrite <- IH; f_equal.
  all: unfold digit_val; vm_compute (Z.of_N (ord _)); lia.
Qed.

Lemma int_of_digits_uint (d : Decimal.uint) :
  int_of_digits (lit (NilEmpty.string_of_uint d)) = Z.of_N (Pos.of_uint d).
Proof.
  unfold int_of_digits, lit.
  induction d as [|d IH|d IH|d IH|d IH|d IH|d IH|d IH|d IH|d IH|d IH];
    simpl; [done|exact IH|..]; apply (int_of_digits_acc d).
Qed.

Lemma fmt_d_nonneg (z : Z) :
  0 ≤ z →
  int_of_digits (fmt_d z) = z ∧ forallb is_digit (fmt_d z) = true ∧ fmt_d z ≠ [].
Proof.
  intros Hz. unfold fmt_d.
  assert (Hpos : ∃ d, Z.to_int z = Decimal.Pos d ∧ d ≠ Decimal.Nil) .
  { destruct z as [|p|p]; [by eexists|..|lia].
    eexists. split; [done|]. apply DecimalPos.Unsigned.to_uint_nonnil. }
  destruct Hpos as (d & Hd & Hnil).
  pose proof (DecimalZ.of_to z) as Hof. rewrite Hd in *. simpl in Hof.
  unfold NilZero.string_of_int, NilZero.string_of_uint.
  assert (Hs : lit match d with
                   | Decimal.Nil => "0"
                   | _ => NilEmpty.string_of_uint d
                   end = lit (NilEmpty.string_of_uint d)) by by destruct d.
  rewrite Hs. split_and!.
  - rewrite int_of_digits_uint. exact Hof.
  - apply forallb_forall. intros c Hc%list_elem_of_In.
    by apply string_of_uint_digits in Hc.
  - by destruct d.
Qed.

Lemma fmt_d_inj (a b : Z) : fmt_d a = fmt_d b → a = b.
Proof.
  unfold fmt_d, lit. intros H.
  apply (f_equal string_of_list_ascii) in H.
  rewrite !string_of_list_ascii_of_string in H.
  apply (f_equal NilZero.int_of_string) in H.
  assert (Hnil : ∀ z, Z.to_int z ≠ Decimal.Pos Decimal.Nil ∧
                      Z.to_int z ≠ Decimal.Neg Decimal.Nil).
  { intros [|p|p]; simpl; split; try done; intros [= Hp];
      by apply DecimalPos.Unsigned.to_uint_nonnil in Hp. }
  rewrite !NilZero.isi in H by apply Hnil.
  injection H as H. by apply DecimalZ.to_int_inj.
Qed.

Lemma fmt_d_no_char (z : Z) (c : ascii) :
  is_digit c = false → c ≠ "-" → c ∉ fmt_d z.
Proof. intros Hd Hm [Hc| ->]%fmt_d_chars; congruence. Qed.

(** Two texts cut at a character that neither has before the cut are cut
    at the same place. *)
Lemma app_cons_inj (c : ascii) (s s' r r' : str) :
  c ∉ s → c ∉ s' → s ++ c :: r = s' ++ c :: r' → s = s' ∧ r = r'.
Proof.
  revert s'. induction s as [|a s IH]; intros [|a' s'] Hs Hs' H; simpl in *.
  - by injection H as ->.
  - injection H as <- _. contradict Hs'. by left.
  - injection H as -> _. contradict Hs. by left.
  - injection H as <- H. destruct (IH s') as [-> ->]; [| |done|done].
    + intros Hin. apply Hs. by right.
    + intros Hin. apply Hs'. by right.
Qed.

Lemma replace_char_removes (a b : ascii) (s : str) : a ≠ b → a ∉ replace_char a b s.
Proof.
  intros Hab. unfold replace_char. rewrite list_elem_of_fmap.
  intros (c & Hc & _). case_decide; congruence.
Qed.

Lemma replace_char_cons (a b c : ascii) (s : str) :
  c ≠ a → replace_char a b (c :: s) = c :: replace_char a b s.
Proof. intros Hc. unfold replace_char. simpl. by rewrite decide_False. Qed.

Lemma fmt_d_replace (b : ascii) (z : Z) : replace_char os_path_sep b (fmt_d z) = fmt_d z.
Proof. apply replace_char_id. by apply fmt_d_no_char. Qed.

(** ** The names [new_message_filename] makes *)

Lemma new_message_filename_eq (self : MaildirFolder) (proc : Process) (uid : Z)
    (flags' : option (gset ascii)) (date : option Z) (σ : State) :
  new_message_filename self proc uid flags' date σ =
    (Return (message_filename self proc (call_stamp (date, clock σ))
               (next_seq (timehash σ) (call_stamp (date, clock σ))) uid
               (default ∅ flags')),
     set_timehash (<[call_stamp (date, clock σ) :=
                       next_seq (timehash σ) (call_stamp (date, clock σ))]>) σ).
Proof.
  unfold new_message_filename, message_filename, mbind, M_bind.
  rewrite gettimeseq_step. by destruct flags'.
Qed.

Section names.
Context (self : MaildirFolder) (proc : Process).
Context (Hok : folder_ok self).

Lemma foldermd5_replace (b : ascii) :
  replace_char os_path_sep b (_foldermd5 self) = _foldermd5 self.
Proof.
  apply replace_char_id. destruct Hok as (_ & Hhex & _).
  intros Hin%list_elem_of_In. by apply (proj1 (forallb_forall _ _) Hhex) in Hin.
Qed.

(** A made name is its prefix, the UID marker, the fingerprint marker and
    the flags marker. *)
Lemma message_filename_parts (timeval timeseq uid : Z) (flags' : gset ascii) :
  message_filename self proc timeval timeseq uid flags' =
    message_prefix self proc timeval timeseq ++
    lit ",U=" ++ fmt_d uid ++ lit ",FMD5=" ++ _foldermd5 self ++
    flag_marker self (replace_char os_path_sep (sep_subst self) (sorted_flags flags')).
Proof.
  unfold message_filename, message_prefix, flag_marker.
  pose proof (infosep_not_sep self Hok) as Hi.
  rewrite !replace_char_app, !fmt_d_replace, foldermd5_replace.
  rewrite (replace_char_cons _ _ (infosep self)) by done.
  rewrite replace_char_app.
  by rewrite <- !app_assoc.
Qed.

Lemma message_prefix_no_char (timeval timeseq : Z) (c : ascii) :
  is_digit c = false → c ∉ lit "-_." → c ∉ gethostname proc →
  c ∉ message_prefix self proc timeval timeseq.
Proof.
  intros Hd Hc Hhost. unfold message_prefix.
  destruct Hok as (_ & _ & _ & ->).
  assert (Hm : c ≠ "-") by (intros ->; apply Hc; by left).
  apply replace_char_avoids; [done|].
  rewrite !elem_of_app.
  intros [H|[H|[H|[H|[H|[H|H]]]]]];
    try (by apply fmt_d_no_char in H); try done;
    apply Hc; apply list_elem_of_singleton in H as ->;
    [right; by left|right; right; by left|right; right; by left].
Qed.

Lemma message_filename_uid (timeval timeseq uid : Z) (flags' : gset ascii) :
  0 ≤ uid → "," ∉ gethostname proc →
  parsed_uid self (message_filename self proc timeval timeseq uid flags') = Some uid.
Proof.
  intros Huid Hhost. rewrite message_filename_parts.
  destruct (fmt_d_nonneg uid Huid) as (Hint & Hdig & Hne).
  apply parsed_uid_Some. split.
  - apply contains_spec.
    exists (message_prefix self proc timeval timeseq ++ lit ",U=" ++ fmt_d uid), (flag_marker self (replace_char os_path_sep (sep_subst self) (sorted_flags flags'))).
    by rewrite <- !app_assoc.
  - exists (length (message_prefix self proc timeval timeseq), fmt_d uid).
    split; [|done].
    rewrite re_search_skip.
    + rewrite (re_search_here _ _ (fmt_d uid)); [simpl; do 2 f_equal; lia|].
      apply (re_match_at_complete re_uidmatch (fmt_d uid)); [done| |done].
      simpl. destruct (fmt_d uid); [done|simpl; lia].
    + intros k Hk. apply (re_match_at_no_head _ "," (lit "U=")); [done|].
      apply (head_drop_app (λ c, c ≠ ",")); [|done].
      apply Forall_forall. intros c Hc ->. revert Hc.
      apply message_prefix_no_char; [done| |done].
      apply (bool_decide_unpack _). by vm_compute.
Qed.

Lemma message_filename_prefix (timeval timeseq uid : Z) (flags' : gset ascii) :
  "," ∉ gethostname proc → infosep self ∉ gethostname proc →
  parsed_prefix self (message_filename self proc timeval timeseq uid flags') =
    Some (message_prefix self proc timeval timeseq).
Proof.
  intros Hcomma Hsep. rewrite message_filename_parts.
  unfold parsed_prefix, _parse_filename. cbn [fst snd].
  apply (re_match_at_complete (re_prefixmatch self)
           (message_prefix self proc timeval timeseq)); [|simpl; lia|].
  - apply forallb_forall. intros c Hc%list_elem_of_In. simpl.
    apply negb_true_iff, orb_false_iff. split; apply bool_decide_eq_false_2; intros ->;
      revert Hc; apply message_prefix_no_char; try done.
    + by destruct Hok as ([-> | ->] & _).
    + destruct Hok as ([-> | ->] & _); apply (bool_decide_unpack _); by vm_compute.
    + apply (bool_decide_unpack _). by vm_compute.
  - destruct Hok as ([E|E] & _); simpl; by rewrite E.
Qed.

Lemma message_filename_no_sep (timeval timeseq uid : Z) (flags' : gset ascii) :
  os_path_sep ∉ message_filename self proc timeval timeseq uid flags'.
Proof.
  unfold message_filename. destruct Hok as (_ & _ & _ & ->).
  by apply replace_char_removes.
Qed.
End names.

(** X1.  For a UID that is not negative and a host name without a comma
    or separator character, the name [new_message_filename] makes decodes
    to that UID and to the prefix formatted from the token, the process id
    and the host name; the name has no path separator. *)
Theorem new_message_filename_decodes (self : MaildirFolder) (proc : Process)
    (uid : Z) (flags' : option (gset ascii)) (date : option Z) (σ : State) :
  folder_ok self → 0 ≤ uid →
  "," ∉ gethostname proc → infosep self ∉ gethostname proc →
  ∃ fn σ',
    new_message_filename self proc uid flags' date σ = (Return fn, σ') ∧
    parsed_uid self fn = Some uid ∧
    parsed_prefix self fn =
      Some (message_prefix self proc (call_stamp (date, clock σ))
              (next_seq (timehash σ) (call_stamp (date, clock σ)))) ∧
    os_path_sep ∉ fn.
Proof.
  intros Hok Huid Hcomma Hsep. rewrite new_message_filename_eq.
  eexists _, _. split; [done|]. split_and!.
  - by apply message_filename_uid.
  - by apply message_filename_prefix.
  - by apply message_filename_no_sep.
Qed.

Lemma new_message_filename_decodes_witness :
  ∃ fn σ',
    new_message_filename inbox sample_process 42 (Some {[ "S" ]}) (Some 77)
      (sample_state ∅ []) = (Return fn, σ') ∧
    parsed_uid inbox fn = Some 42 ∧
    parsed_prefix inbox fn = Some (lit "77_0.123.host").
Proof.
  destruct (new_message_filename_decodes inbox sample_process 42
              (Some {[ "S" ]}) (Some 77) (sample_state ∅ []) inbox_ok)
    as (fn & σ' & Hrun & Huid & Hpre & _);
    [lia|apply (bool_decide_unpack _); by vm_compute
        |apply (bool_decide_unpack _); by vm_compute|].
  exists fn, σ'. split_and!; [exact Hrun|exact Huid|].
  rewrite Hpre. by vm_compute.
Defined.

Lemma message_filename_token_inj (self : MaildirFolder) (proc : Process)
    (t n uid t' n' uid' : Z) (fl fl' : gset ascii) :
  message_filename self proc t n uid fl = message_filename self proc t' n' uid' fl' →
  t = t' ∧ n = n'.
Proof.
  unfold message_filename. rewrite !replace_char_app, !fmt_d_replace.
  change (replace_char os_path_sep (sep_subst self) (lit "_")) with ["_"].
  change (replace_char os_path_sep (sep_subst self) (lit ".")) with ["."].
  simpl. intros H.
  apply app_cons_inj in H as [Ht H]; [|by apply fmt_d_no_char..].
  apply app_cons_inj in H as [Hn _]; [|by apply fmt_d_no_char..].
  split; by apply fmt_d_inj.
Qed.

Lemma new_message_filename_calls_run (self : MaildirFolder) (proc : Process)
    (calls : list (Z * option (gset ascii) * (option Z * Z))) (σ : State) :
  ∃ σ', new_message_filename_calls self proc calls σ =
          (Return (zip_with (name_of_call self proc)
                     (token_results (timehash σ) (snd <$> calls)) calls), σ').
Proof.
  revert σ. induction calls as [|[[uid fl] [date now]] calls IH]; intros σ; simpl.
  - by eexists.
  - unfold mbind, M_bind, modify at 1. rewrite new_message_filename_eq. simpl.
    match goal with |- context [new_message_filename_calls _ _ calls ?s] =>
      destruct (IH s) as [σ' ->] end.
    simpl. by eexists.
Qed.

(** X2.  In a fresh process, whatever the arguments and the times of the
    calls, [new_message_filename] never makes the same name twice. *)
Theorem new_message_filename_never_repeats (self : MaildirFolder)
    (proc : Process)
    (calls : list (Z * option (gset ascii) * (option Z * Z))) (σ : State) :
  timehash σ = ∅ →
  ∃ fns σ',
    new_message_filename_calls self proc calls σ = (Return fns, σ') ∧
    length fns = length calls ∧ NoDup fns.
Proof.
  intros Hth. destruct (new_message_filename_calls_run self proc calls σ) as [σ' ->].
  rewrite Hth. eexists _, _. split; [done|]. split.
  - rewrite length_zip_with, token_results_length, length_fmap. lia.
  - apply NoDup_alt. intros i j fn Hi Hj.
    apply lookup_zip_with_Some in Hi as (tok & c & -> & Htok & _).
    apply lookup_zip_with_Some in Hj as (tok' & c' & Heq & Htok' & _).
    unfold name_of_call in Heq.
    apply message_filename_token_inj in Heq as [H1 H2].
    assert (tok = tok') as <- by (destruct tok, tok'; simpl in *; congruence).
    eapply NoDup_lookup; [apply (token_results_NoDup (snd <$> calls))|done..].
Qed.

Lemma new_message_filename_never_repeats_witness :
  ∃ fns σ',
    new_message_filename_calls inbox sample_process
      [(5, None, (None, 1000)); (5, None, (None, 1000)); (5, None, (Some 1000, 1001))]
      (sample_state ∅ []) = (Return fns, σ') ∧
    fns = [lit "1000_0.123.host,U=5,FMD5=7e33429f656f1e6e9d79b29c3f82c57e:2,";
           lit "1000_1.123.host,U=5,FMD5=7e33429f656f1e6e9d79b29c3f82c57e:2,";
           lit "1000_2.123.host,U=5,FMD5=7e33429f656f1e6e9d79b29c3f82c57e:2,"].
Proof.
  destruct (new_message_filename_never_repeats inbox sample_process
              [(5, None, (None, 1000)); (5, None, (None, 1000)); (5, None, (Some 1000, 1001))]
              (sample_state ∅ []) eq_refl)
    as (fns & σ' & Hrun & _).
  exists fns, σ'. split; [exact Hrun|].
  vm_compute in Hrun. by injection Hrun as <- _.
Defined.

(** ** Paths below the folder *)

Lemma abspath_relative (self : MaildirFolder) (p : str) :
  head p ≠ Some os_path_sep → abspath self p = folder_prefix self ++ p.
Proof.
  intros Hp. unfold abspath, folder_prefix.
  rewrite os_path_join_relative by done.
  destruct (last (getfullname self)) as [c|]; [|done].
  case_decide; [done|]. by rewrite <- app_assoc.
Qed.

Lemma abspath_relative_inj (self : MaildirFolder) (p q : str) :
  head p ≠ Some os_path_sep → head q ≠ Some os_path_sep →
  abspath self p = abspath self q → p = q.
Proof.
  intros Hp Hq. rewrite !abspath_relative by done. apply app_inv_head.
Qed.

Lemma staging_path_head (fn : str) : head (staging_path fn) ≠ Some os_path_sep.
Proof. done. Qed.

Lemma final_path_head (flags' : gset ascii) (fn : str) :
  head (final_path flags' fn) ≠ Some os_path_sep.
Proof. unfold final_path, flag_directory. by case_decide. Qed.

Lemma staging_not_final (flags' : gset ascii) (fn fn' : str) :
  staging_path fn ≠ final_path flags' fn'.
Proof. unfold staging_path, final_path, flag_directory. by case_decide. Qed.

Lemma fs_read_app_absent (d : list (str * str)) (p q c : str) :
  fs_read d p = None →
  fs_read (d ++ [(p, c)]) q = if decide (p = q) then Some c else fs_read d q.
Proof.
  intros Hp. induction d as [|[r c'] d IH]; simpl in *.
  - done.
  - destruct (decide (r = p)) as [->|Hr]; [done|].
    destruct (decide (r = q)) as [->|Hq].
    + by rewrite decide_False by done.
    + by apply IH.
Qed.

Lemma fs_remove_absent (d : list (str * str)) (p : str) :
  fs_read d p = None → fs_remove p d = d.
Proof.
  unfold fs_remove. induction d as [|[r c] d IH]; [done|]. simpl.
  destruct (decide (r = p)) as [->|Hr]; [done|]. intros H.
  rewrite filter_cons, decide_True by done. by rewrite IH.
Qed.

Lemma fs_remove_cons_eq (d : list (str * str)) (p c : str) :
  fs_remove p ((p, c) :: d) = fs_remove p d.
Proof.
  unfold fs_remove. rewrite filter_cons. simpl.
  by rewrite decide_False by (by intros ?).
Qed.

Lemma fs_remove_single (p c : str) : fs_remove p [(p, c)] = [].
Proof.
  unfold fs_remove. rewrite filter_cons. simpl.
  by rewrite decide_False by (by intros ?).
Qed.

Lemma fs_remove_app (d d' : list (str * str)) (p : str) :
  fs_remove p (d ++ d') = fs_remove p d ++ fs_remove p d'.
Proof. apply filter_app. Qed.

(** ** Storing a new message *)

Section storing.
Context (self : MaildirFolder) (proc : Process).
Context (Hok : folder_ok self).

(** [savemessage] for a UID that is not cached: one exclusive create
    under [tmp], then one rename to the directory of the flags. *)
Lemma savemessage_fresh (uid : Z) (msg : Message) (flags' : gset ascii)
    (rtime : Z) (σ : State) (fn : str) :
  0 ≤ uid → messagelist σ !! uid = None →
  fn = message_filename self proc
         (call_stamp (message_timestamp self msg, clock σ))
         (next_seq (timehash σ) (call_stamp (message_timestamp self msg, clock σ)))
         uid flags' →
  fs_read (disk σ) (abspath self (staging_path fn)) = None →
  ∃ σ',
    savemessage self proc uid msg flags' rtime σ = (Return uid, σ') ∧
    messagelist σ' = <[uid := Item flags' (final_path flags' fn)]> (messagelist σ) ∧
    disk σ' = (abspath self (final_path flags' fn), as_bytes msg) ::
              fs_remove (abspath self (final_path flags' fn)) (disk σ) ∧
    syscalls σ' = syscalls σ ++
                  [SysCreate (abspath self (staging_path fn));
                   SysRename (abspath self (staging_path fn))
                             (abspath self (final_path flags' fn))] ∧
    clock σ' = clock σ ∧ ui σ' = ui σ.
Proof.
  intros Huid Hnew Hfn Hfree.
  pose proof (message_filename_no_sep self proc Hok
                (call_stamp (message_timestamp self msg, clock σ))
                (next_seq (timehash σ) (call_stamp (message_timestamp self msg, clock σ)))
                uid flags') as Hsep.
  rewrite <- Hfn in Hsep.
  assert (Htmp : os_path_join (lit "tmp") fn = staging_path fn).
  { rewrite os_path_join_relative by by apply head_not_sep. done. }
  unfold savemessage. rewrite decide_False by lia.
  unfold mbind at 1, M_bind at 1, gets at 1.
  rewrite decide_False by (rewrite Hnew; by intros [? ?]).
  fold (message_timestamp self msg).
  unfold mbind at 1, M_bind at 1. rewrite new_message_filename_eq.
  cbn [default]. change (id flags') with flags'. rewrite <- Hfn.
  unfold save_to_tmp_file. rewrite Htmp.
  unfold mbind at 1, M_bind at 1. unfold mbind at 1, M_bind at 1.
  unfold save_to_tmp_loop, try_except, os_create_excl. fold (abspath self (staging_path fn)).
  cbn [disk log_syscall set_timehash]. rewrite Hfree.
  unfold mret at 1, M_ret at 1.
  unfold mbind at 1, M_bind at 1, modify at 1.
  unfold mbind at 1, M_bind at 1.
  set (it := with_filename (staging_path fn)
               (with_flags flags' (msglist_item_initializer uid))).
  erewrite (savemessageflags_eq self uid flags' _ it)
    by (cbn [messagelist set_messagelist set_disk]; by rewrite lookup_insert_eq).
  assert (Htarget : target_path self it flags' = final_path flags' fn).
  { rewrite target_path_eq by done. unfold target_name, final_path.
    rewrite decide_False by (by intros ?). cbn [filename it with_filename].
    unfold staging_path. by rewrite os_path_split_tail. }
  rewrite Htarget. cbn [filename it with_filename].
  rewrite decide_True by (by intros ?%symmetry%staging_not_final).
  cbn [disk set_messagelist set_disk].
  rewrite fs_read_app_absent, decide_True by done.
  unfold mret, M_ret. eexists. split; [done|].
  cbn [messagelist disk syscalls clock ui set_messagelist set_disk log_syscall
       set_timehash].
  split_and!; [by rewrite insert_insert_eq| |by rewrite <- app_assoc|done|done].
  f_equal. rewrite fs_remove_app, fs_remove_single, app_nil_r.
  by rewrite (fs_remove_absent (disk σ) (abspath self (staging_path fn))).
Qed.
End storing.

Section stored.
Context (self : MaildirFolder) (proc : Process).
Context (Hok : folder_ok self).

Lemma target_path_settled (flags' : gset ascii) (dir fn : str) :
  os_path_sep ∉ fn →
  target_path self (Item flags' (dir ++ os_path_sep :: fn)) flags' =
    final_path flags' fn.
Proof.
  intros Hfn. rewrite target_path_eq by done. unfold target_name, final_path.
  rewrite decide_False by (by intros ?). cbn [filename].
  by rewrite os_path_split_tail.
Qed.

(** X3.  [savemessage] with a UID that is not negative and not cached,
    when the staging name is free: the call returns the UID; the message
    list gets the UID with the given flags and the path of the new name
    under [cur] or [new], its other keys being as before; the file at that
    path holds the bytes of the message, nothing is left at the staging
    path, and every other path of the disk reads as before. *)
Theorem savemessage_new_uid_stores (uid : Z) (msg : Message)
    (flags' : gset ascii) (rtime : Z) (σ : State) (fn : str) :
  0 ≤ uid → messagelist σ !! uid = None →
  fn = message_filename self proc
         (call_stamp (message_timestamp self msg, clock σ))
         (next_seq (timehash σ) (call_stamp (message_timestamp self msg, clock σ)))
         uid flags' →
  fs_read (disk σ) (abspath self (staging_path fn)) = None →
  ∃ σ',
    savemessage self proc uid msg flags' rtime σ = (Return uid, σ') ∧
    messagelist σ' !! uid = Some (Item flags' (final_path flags' fn)) ∧
    (∀ u, u ≠ uid → messagelist σ' !! u = messagelist σ !! u) ∧
    fs_read (disk σ') (abspath self (final_path flags' fn)) = Some (as_bytes msg) ∧
    fs_read (disk σ') (abspath self (staging_path fn)) = None ∧
    (∀ p, p ≠ abspath self (final_path flags' fn) →
          fs_read (disk σ') p = fs_read (disk σ) p).
Proof.
  intros Huid Hnew Hfn Hfree.
  destruct (savemessage_fresh self proc Hok uid msg flags' rtime σ fn
              Huid Hnew Hfn Hfree) as (σ' & Hrun & Hml & Hdisk & _).
  exists σ'. rewrite Hml, Hdisk. split; [done|].
  assert (Hframe : ∀ p, p ≠ abspath self (final_path flags' fn) →
            fs_read ((abspath self (final_path flags' fn), as_bytes msg) ::
                     fs_remove (abspath self (final_path flags' fn)) (disk σ)) p =
              fs_read (disk σ) p).
  { intros p Hp. simpl. rewrite decide_False by done.
    by apply fs_read_remove_ne. }
  split_and!.
  - by rewrite lookup_insert_eq.
  - intros u Hu. by rewrite lookup_insert_ne.
  - simpl. by rewrite decide_True.
  - rewrite Hframe; [done|].
    intros H%abspath_relative_inj;
      [by apply staging_not_final in H|apply staging_path_head|apply final_path_head].
  - done.
Qed.

(** X4.  When a file is already at the staging path, [savemessage] raises
    the [OSError] of the exclusive create after that one attempt: the
    handler of [save_to_tmp_file] never retries.  The disk and the message
    list are as before. *)
Theorem savemessage_staging_collision (uid : Z) (msg : Message)
    (flags' : gset ascii) (rtime : Z) (σ : State) (fn c : str) :
  0 ≤ uid → messagelist σ !! uid = None →
  fn = message_filename self proc
         (call_stamp (message_timestamp self msg, clock σ))
         (next_seq (timehash σ) (call_stamp (message_timestamp self msg, clock σ)))
         uid flags' →
  fs_read (disk σ) (abspath self (staging_path fn)) = Some c →
  ∃ σ',
    savemessage self proc uid msg flags' rtime σ = (Raise OSError_EEXIST, σ') ∧
    messagelist σ' = messagelist σ ∧ disk σ' = disk σ ∧
    syscalls σ' = syscalls σ ++ [SysCreate (abspath self (staging_path fn))].
Proof.
  intros Huid Hnew Hfn Hbusy.
  pose proof (message_filename_no_sep self proc Hok
                (call_stamp (message_timestamp self msg, clock σ))
                (next_seq (timehash σ) (call_stamp (message_timestamp self msg, clock σ)))
                uid flags') as Hsep.
  rewrite <- Hfn in Hsep.
  assert (Htmp : os_path_join (lit "tmp") fn = staging_path fn).
  { rewrite os_path_join_relative by by apply head_not_sep. done. }
  unfold savemessage. rewrite decide_False by lia.
  unfold mbind at 1, M_bind at 1, gets at 1.
  rewrite decide_False by (rewrite Hnew; by intros [? ?]).
  fold (message_timestamp self msg).
  unfold mbind at 1, M_bind at 1. rewrite new_message_filename_eq.
  cbn [default]. change (id flags') with flags'. rewrite <- Hfn.
  unfold save_to_tmp_file. rewrite Htmp.
  unfold mbind at 1, M_bind at 1. unfold mbind at 1, M_bind at 1.
  unfold save_to_tmp_loop, try_except, os_create_excl.
  fold (abspath self (staging_path fn)).
  cbn [disk log_syscall set_timehash]. rewrite Hbusy.
  cbn [negb OSError_hasattr_EEXIST]. unfold raise. by eexists.
Qed.

End stored.

Lemma savemessage_new_uid_stores_witness :
  ∃ σ',
    savemessage inbox sample_process 9 (Build_Message (lit "body") None None)
      {[ "S" ]} 0 (sample_state sample_cache sample_disk) = (Return 9, σ') ∧
    fs_read (disk σ')
      (lit "/home/u/Maildir/INBOX/cur/1000_0.123.host,U=9,FMD5=7e33429f656f1e6e9d79b29c3f82c57e:2,S") =
      Some (lit "body").
Proof.
  destruct (savemessage_new_uid_stores inbox sample_process inbox_ok 9
              (Build_Message (lit "body") None None) {[ "S" ]} 0
              (sample_state sample_cache sample_disk)
              (lit "1000_0.123.host,U=9,FMD5=7e33429f656f1e6e9d79b29c3f82c57e:2,S"))
    as (σ' & Hrun & _ & _ & Hfile & _);
    [lia|by vm_compute|by vm_compute|by vm_compute|].
  exists σ'. split; [exact Hrun|exact Hfile].
Defined.

Lemma savemessage_staging_collision_witness :
  ∃ σ',
    savemessage inbox sample_process 9 (Build_Message (lit "body") None None)
      ∅ 0 (sample_state ∅ staged_disk) = (Raise OSError_EEXIST, σ') ∧
    disk σ' = staged_disk.
Proof.
  destruct (savemessage_staging_collision inbox sample_process inbox_ok 9
              (Build_Message (lit "body") None None) ∅ 0
              (sample_state ∅ staged_disk)
              (lit "1000_0.123.host,U=9,FMD5=7e33429f656f1e6e9d79b29c3f82c57e:2,")
              (lit "body"))
    as (σ' & Hrun & _ & Hdisk & _);
    [lia|by vm_compute|by vm_compute|by vm_compute|].
  exists σ'. by split.
Defined.

Section stored_again.
Context (self : MaildirFolder) (proc : Process).
Context (Hok : folder_ok self).

Lemma savemessage_cached (uid : Z) (msg : Message) (flags' : gset ascii)
    (rtime : Z) (σ : State) (it : item) :
  0 ≤ uid → messagelist σ !! uid = Some it →
  savemessage self proc uid msg flags' rtime σ =
    (savemessageflags self uid flags';; mret uid) σ.
Proof.
  intros Huid Hit. unfold savemessage. rewrite decide_False by lia.
  unfold mbind at 1, M_bind at 1, gets at 1.
  by rewrite decide_True by eauto.
Qed.

Lemma deletemessage_present (uid : Z) (σ : State) (it : item) (c : str) :
  messagelist σ !! uid = Some it →
  fs_read (disk σ) (abspath self (filename it)) = Some c →
  deletemessage self uid σ =
    (Return tt,
     set_messagelist (delete uid)
       (set_disk (fs_remove (abspath self (filename it)))
          (log_syscall (SysUnlink (abspath self (filename it))) σ))).
Proof.
  intros Hit Hfile. unfold deletemessage.
  rewrite (deletemessage_with_eq os_unlink self uid σ it Hit).
  unfold os_unlink at 1. cbn [disk log_syscall]. by rewrite Hfile.
Qed.

(** X5.  After [savemessage] has stored a new UID, a second [savemessage]
    with that UID and the same flags returns the UID and changes nothing,
    whatever message it is given: no file is written or renamed. *)
Theorem savemessage_again_changes_nothing (uid : Z) (msg msg' : Message)
    (flags' : gset ascii) (rtime rtime' : Z) (σ : State) (fn : str) :
  0 ≤ uid → messagelist σ !! uid = None →
  fn = message_filename self proc
         (call_stamp (message_timestamp self msg, clock σ))
         (next_seq (timehash σ) (call_stamp (message_timestamp self msg, clock σ)))
         uid flags' →
  fs_read (disk σ) (abspath self (staging_path fn)) = None →
  ∃ σ',
    savemessage self proc uid msg flags' rtime σ = (Return uid, σ') ∧
    savemessage self proc uid msg' flags' rtime' σ' = (Return uid, σ').
Proof.
  intros Huid Hnew Hfn Hfree.
  destruct (savemessage_fresh self proc Hok uid msg flags' rtime σ fn
              Huid Hnew Hfn Hfree) as (σ' & Hrun & Hml & _).
  exists σ'. split; [done|].
  assert (Hit : messagelist σ' !! uid = Some (Item flags' (final_path flags' fn)))
    by (by rewrite Hml, lookup_insert_eq).
  rewrite (savemessage_cached uid msg' flags' rtime' σ' _ Huid Hit).
  unfold mbind, M_bind.
  rewrite (savemessageflags_eq self uid flags' σ' _ Hit).
  assert (Ht : target_path self (Item flags' (final_path flags' fn)) flags' =
               final_path flags' fn).
  { apply (target_path_settled self Hok flags' (flag_directory flags') fn).
    rewrite Hfn. by apply message_filename_no_sep. }
  rewrite Ht. cbn [filename]. by rewrite decide_False by (intros H; by apply H).
Qed.

(** X6.  [deletemessage] undoes [savemessage]: after a new UID is stored
    at a path that was free and then deleted, the disk and the message list
    are what they were before the two calls. *)
Theorem deletemessage_undoes_savemessage (uid : Z) (msg : Message)
    (flags' : gset ascii) (rtime : Z) (σ : State) (fn : str) :
  0 ≤ uid → messagelist σ !! uid = None →
  fn = message_filename self proc
         (call_stamp (message_timestamp self msg, clock σ))
         (next_seq (timehash σ) (call_stamp (message_timestamp self msg, clock σ)))
         uid flags' →
  fs_read (disk σ) (abspath self (staging_path fn)) = None →
  fs_read (disk σ) (abspath self (final_path flags' fn)) = None →
  ∃ σ1 σ2,
    savemessage self proc uid msg flags' rtime σ = (Return uid, σ1) ∧
    deletemessage self uid σ1 = (Return tt, σ2) ∧
    messagelist σ2 = messagelist σ ∧ disk σ2 = disk σ.
Proof.
  intros Huid Hnew Hfn Hfree Hfree'.
  destruct (savemessage_fresh self proc Hok uid msg flags' rtime σ fn
              Huid Hnew Hfn Hfree) as (σ1 & Hrun & Hml & Hdisk & _).
  exists σ1. eexists. split; [done|].
  assert (Hit : messagelist σ1 !! uid = Some (Item flags' (final_path flags' fn)))
    by (by rewrite Hml, lookup_insert_eq).
  rewrite (deletemessage_present uid σ1 _ (as_bytes msg) Hit)
    by (rewrite Hdisk; simpl; by rewrite decide_True).
  split; [done|]. cbn [messagelist disk set_messagelist set_disk log_syscall filename].
  rewrite Hml, Hdisk. split.
  - rewrite delete_insert_eq. by apply delete_id.
  - rewrite fs_remove_cons_eq.
    by rewrite !(fs_remove_absent (disk σ) _ Hfree').
Qed.
End stored_again.

Lemma savemessage_again_changes_nothing_witness :
  ∃ σ',
    savemessage inbox sample_process 9 (Build_Message (lit "body") None None)
      {[ "S" ]} 0 (sample_state sample_cache sample_disk) = (Return 9, σ') ∧
    savemessage inbox sample_process 9 (Build_Message (lit "other") None None)
      {[ "S" ]} 1 σ' = (Return 9, σ').
Proof.
  apply (savemessage_again_changes_nothing inbox sample_process inbox_ok 9
           (Build_Message (lit "body") None None)
           (Build_Message (lit "other") None None) {[ "S" ]} 0 1
           (sample_state sample_cache sample_disk)
           (lit "1000_0.123.host,U=9,FMD5=7e33429f656f1e6e9d79b29c3f82c57e:2,S"));
    [lia|by vm_compute..].
Defined.

Lemma deletemessage_undoes_savemessage_witness :
  ∃ σ1 σ2,
    savemessage inbox sample_process 9 (Build_Message (lit "body") None None)
      {[ "S" ]} 0 (sample_state sample_cache sample_disk) = (Return 9, σ1) ∧
    deletemessage inbox 9 σ1 = (Return tt, σ2) ∧
    messagelist σ2 = sample_cache ∧ disk σ2 = sample_disk.
Proof.
  apply (deletemessage_undoes_savemessage inbox sample_process inbox_ok 9
           (Build_Message (lit "body") None None) {[ "S" ]} 0
           (sample_state sample_cache sample_disk)
           (lit "1000_0.123.host,U=9,FMD5=7e33429f656f1e6e9d79b29c3f82c57e:2,S"));
    [lia|by vm_compute..].
Defined.

(** ** Scanning what was stored *)

Section rescan.
Context (self : MaildirFolder) (proc : Process).
Context (Hok : folder_ok self).

Lemma infosep_chars :
  is_digit (infosep self) = false ∧ (infosep self ∉ lit "-_.") ∧
  (infosep self ∉ lit ",U=") ∧ (infosep self ∉ lit ",FMD5=") ∧
  (infosep self ∉ _foldermd5 self).
Proof.
  destruct Hok as (Hsep & Hhex & _).
  assert (Hmd5 : infosep self ∉ _foldermd5 self).
  { intros Hin%list_elem_of_In.
    apply (proj1 (forallb_forall _ _) Hhex), is_hex_not_infosep in Hin.
    destruct Hin, Hsep; congruence. }
  split_and!; [..|done];
    destruct Hsep as [-> | ->]; try done; apply (bool_decide_unpack _); by vm_compute.
Qed.

Lemma message_filename_flags (timeval timeseq uid : Z) (flags' : gset ascii) :
  infosep self ∉ gethostname proc →
  forallb is_flag_letter (elements flags') = true →
  parsed_flags self (message_filename self proc timeval timeseq uid flags') = flags'.
Proof.
  intros Hhost Hflags. rewrite (message_filename_parts self proc Hok).
  destruct infosep_chars as (Hd & Hp & Hu & Hf & Hm).
  assert (Hletters : ∀ c, c ∈ sorted_flags flags' →
            is_word c = true ∧ c ≠ os_path_sep).
  { intros c Hc%sorted_flags_elem%elem_of_elements%list_elem_of_In.
    apply is_flag_letter_word. by apply (proj1 (forallb_forall _ _) Hflags). }
  rewrite (replace_char_id _ _ (sorted_flags flags'))
    by (intros Hin; by apply Hletters in Hin as [_ ?]).
  unfold flag_marker.
  set (pre := message_prefix self proc timeval timeseq ++ lit ",U=" ++
              fmt_d uid ++ lit ",FMD5=" ++ _foldermd5 self).
  replace (message_prefix self proc timeval timeseq ++ _)
    with (pre ++ infosep self :: lit "2," ++ sorted_flags flags')
    by (unfold pre; by rewrite <- !app_assoc).
  rewrite parsed_flags_suffix.
  - apply list_to_set_sorted_flags.
  - unfold pre. rewrite !elem_of_app. intros [H|[H|[H|[H|H]]]]; try done.
    + revert H. by apply message_prefix_no_char.
    + by apply fmt_d_no_char in H; [|done|intros E; apply Hp; rewrite E; by left].
  - apply forallb_forall. intros c Hc%list_elem_of_In. by apply Hletters.
Qed.

Lemma message_filename_visible (timeval timeseq uid : Z) (flags' : gset ascii) :
  hidden (message_filename self proc timeval timeseq uid flags') = false ∧
  message_filename self proc timeval timeseq uid flags' ≠ [].
Proof.
  unfold message_filename. rewrite replace_char_app, fmt_d_replace.
  assert (H : ∃ c s, fmt_d timeval = c :: s ∧ c ≠ ".").
  { destruct (fmt_d timeval) as [|c s] eqn:E.
    - exfalso. destruct (Z_lt_le_dec timeval 0) as [Hneg|Hpos].
      + assert (fmt_d timeval = "-" :: fmt_d (- timeval)) as E'; [|congruence].
        destruct timeval; try lia. done.
      + by apply fmt_d_nonneg in Hpos as (_ & _ & ?).
    - exists c, s. split; [done|]. intros ->.
      assert (Hin : "." ∈ fmt_d timeval) by (rewrite E; by left).
      by apply fmt_d_chars in Hin as [?|?]. }
  destruct H as (c & s & -> & Hc). split; [|done].
  unfold hidden. simpl. rewrite decide_False by done.
  apply bool_decide_eq_false_2. by intros [? ?].
Qed.

Lemma scan_files_after_store (d : list (str * str)) (p c : str) (f : str * str) :
  f ∈ scan_files self ((p, c) :: fs_remove p d) →
  abspath self (os_path_join f.1 f.2) = p ∨ f ∈ scan_files self d.
Proof.
  intros Hf. pose proof (scan_files_path self _ f Hf) as (Hjoin & Hdir & Hne & Hsep).
  destruct (abspath_scan_file self _ f Hf) as [c' Hin].
  apply elem_of_cons in Hin as [[= Hp _]|Hin]; [by left|right].
  apply list_elem_of_filter in Hin as [_ Hin].
  apply elem_of_scan_files. split; [done|].
  apply elem_of_os_listdir. split_and!; [done..|]. exists c'.
  rewrite Hjoin in Hin. unfold abspath in Hin.
  replace (os_path_join (getfullname self) f.1 ++ os_path_sep :: f.2)
    with (os_path_join (getfullname self) (f.1 ++ os_path_sep :: f.2)); [done|].
  rewrite !os_path_join_relative by (by destruct Hdir as [-> | ->]).
  destruct (last (getfullname self)) as [c0|]; [|done].
  case_decide; by rewrite <- app_assoc.
Qed.

(** X7.  What [savemessage] stores, a scan finds: when the host name has
    no comma or separator character, the flags are flag letters, the
    message is within the size limit and no listed file decodes to the UID
    already, the entry a scan without cutoffs has for the UID on the disk
    left by [savemessage] is the entry of the message list. *)
Theorem scanfolder_finds_stored_message (uid : Z) (msg : Message)
    (flags' : gset ascii) (rtime : Z) (σ : State) (fn : str) :
  0 ≤ uid → messagelist σ !! uid = None →
  fn = message_filename self proc
         (call_stamp (message_timestamp self msg, clock σ))
         (next_seq (timehash σ) (call_stamp (message_timestamp self msg, clock σ)))
         uid flags' →
  fs_read (disk σ) (abspath self (staging_path fn)) = None →
  "," ∉ gethostname proc → infosep self ∉ gethostname proc →
  forallb is_flag_letter (elements flags') = true →
  match getmaxsize self with
  | Some maxsize => maxsize = 0 ∨ Z.of_nat (length (as_bytes msg)) ≤ maxsize
  | None => True
  end →
  (∀ f, f ∈ scan_files self (disk σ) → parsed_uid self f.2 ≠ Some uid) →
  ∃ σ',
    savemessage self proc uid msg flags' rtime σ = (Return uid, σ') ∧
    messagelist σ' !! uid = Some (Item flags' (final_path flags' fn)) ∧
    _scanfolder self (disk σ') None None !! uid =
      Some (Item flags' (final_path flags' fn)).
Proof.
  intros Huid Hnew Hfn Hfree Hcomma Hsep Hflags Hsize Hother.
  destruct (savemessage_fresh self proc Hok uid msg flags' rtime σ fn
              Huid Hnew Hfn Hfree) as (σ' & Hrun & Hml & Hdisk & _).
  exists σ'. split; [done|]. split; [by rewrite Hml, lookup_insert_eq|].
  rewrite Hdisk.
  set (N := abspath self (final_path flags' fn)).
  set (d' := (N, as_bytes msg) :: fs_remove N (disk σ)).
  set (f0 := (flag_directory flags', fn)).
  assert (Hnosep : os_path_sep ∉ fn)
    by (rewrite Hfn; by apply message_filename_no_sep).
  assert (Hvis : hidden fn = false ∧ fn ≠ [])
    by (rewrite Hfn; apply message_filename_visible).
  assert (Hjoin : os_path_join f0.1 f0.2 = final_path flags' fn).
  { unfold f0. simpl. by apply os_path_join_dir, head_not_sep. }
  assert (Hdir : flag_directory flags' = lit "new" ∨ flag_directory flags' = lit "cur")
    by (unfold flag_directory; case_decide; eauto).
  assert (Hf0 : f0 ∈ scan_files self d').
  { apply elem_of_scan_files. split; [done|].
    apply elem_of_os_listdir. split_and!; [by destruct Hvis|done|].
    exists (as_bytes msg). unfold d'. apply elem_of_cons. left.
    f_equal. unfold N, f0. cbn [fst snd].
    rewrite abspath_relative by apply final_path_head.
    fold (abspath self (flag_directory flags')).
    rewrite abspath_relative by (by destruct Hdir as [-> | ->]).
    unfold final_path. by rewrite <- app_assoc. }
  assert (Hcons : considered self d' f0 = true).
  { unfold considered. change (f0.2) with fn. rewrite (proj1 Hvis).
    cbn [negb andb]. unfold oversize. rewrite Hjoin. fold (abspath self (final_path flags' fn)).
    fold N. destruct (getmaxsize self) as [m|]; [|done].
    unfold os_path_getsize, d'. simpl. rewrite decide_True by done. simpl.
    destruct Hsize as [-> | Hle]; [done|].
    rewrite (bool_decide_eq_false_2 (_ > _)) by lia. by rewrite andb_false_r. }
  assert (Huid0 : parsed_uid self f0.2 = Some uid)
    by (unfold f0; simpl; rewrite Hfn; by apply message_filename_uid).
  pose proof (considered_file_kept self d' None None f0 Hf0 Hcons) as Hkept.
  rewrite Huid0 in Hkept. simpl in Hkept. destruct (Hkept eq_refl) as [it Hit].
  change (primary_result self d' None None !! uid = Some (Item flags' (final_path flags' fn))).
  rewrite Hit. f_equal.
  apply primary_entry in Hit as (_ & f & Hf & _ & [-> Hkey] & _).
  assert (f = f0) as ->.
  { destruct (scan_files_after_store (disk σ) N (as_bytes msg) f Hf) as [Hp|Hold].
    - apply (scan_files_path_inj self d' f f0 Hf Hf0).
      rewrite Hjoin. apply (abspath_relative_inj self); [|apply final_path_head|done].
      pose proof (scan_files_path self d' f Hf) as (-> & [E|E] & _); by rewrite E.
    - destruct Hkey as [Hkey|[_ ?]]; [|lia]. by apply Hother in Hold. }
  rewrite Hjoin. f_equal. unfold f0. simpl. rewrite Hfn.
  by apply message_filename_flags.
Qed.
End rescan.

Lemma scanfolder_finds_stored_message_witness :
  ∃ σ',
    savemessage inbox sample_process 9 (Build_Message (lit "body") None None)
      {[ "S" ]} 0 (sample_state sample_cache sample_disk) = (Return 9, σ') ∧
    _scanfolder inbox (disk σ') None None !! 9 = messagelist σ' !! 9.
Proof.
  destruct (scanfolder_finds_stored_message inbox sample_process inbox_ok 9
              (Build_Message (lit "body") None None) {[ "S" ]} 0
              (sample_state sample_cache sample_disk)
              (lit "1000_0.123.host,U=9,FMD5=7e33429f656f1e6e9d79b29c3f82c57e:2,S"))
    as (σ' & Hrun & Hml & Hscan);
    [lia|by vm_compute|by vm_compute|by vm_compute
    |apply (bool_decide_unpack _); by vm_compute
    |apply (bool_decide_unpack _); by vm_compute
    |by vm_compute|done| |].
  - intros f Hf.
    assert (Hall : Forall (λ f, parsed_uid inbox f.2 ≠ Some 9)
                     (scan_files inbox (disk (sample_state sample_cache sample_disk))))
      by (apply (bool_decide_unpack _); by vm_compute).
    by apply (proj1 (Forall_forall _ _) Hall).
  - exists σ'. split; [exact Hrun|]. by rewrite Hml, Hscan.
Defined.

(** ** Names and flags in agreement *)

Lemma strip_prefix_app_tail (l p t : str) (i : ascii) :
  i ∉ l →
  strip_prefix l (p ++ i :: t) = (λ rest, rest ++ i :: t) <$> strip_prefix l p.
Proof.
  revert p. induction l as [|a l IH]; intros p Hi; [done|].
  destruct p as [|b p]; simpl.
  - rewrite decide_False; [done|]. intros ->. apply Hi. by left.
  - case_decide; [|done]. apply IH. intros Hin. apply Hi. by right.
Qed.

Lemma run_app_stop (cls : ascii → bool) (s t : str) (i : ascii) :
  cls i = false → run cls (s ++ i :: t) = run cls s.
Proof.
  intros Hi. induction s as [|c s IH]; simpl; [by rewrite Hi|].
  destruct (cls c); [by rewrite IH|done].
Qed.

Lemma re_match_at_app_tail (r : regex) (p t : str) (i : ascii) :
  i ∉ re_literal r → re_class r i = false →
  re_match_at r (p ++ i :: t) = re_match_at r p.
Proof.
  intros Hi Hc. unfold re_match_at. rewrite strip_prefix_app_tail by done.
  destruct (strip_prefix (re_literal r) p) as [rest|]; [|done]. simpl.
  by rewrite run_app_stop.
Qed.

Lemma re_search_no_char (r : regex) (s : str) (x : ascii) :
  x ∈ re_literal r → x ∉ s → re_search r s = None.
Proof.
  intros Hx Hs. destruct (re_search r s) as [m|] eqn:Hm; [|done].
  apply re_search_sound in Hm as (pre & post & -> & _).
  contradict Hs. rewrite !elem_of_app. right. by left.
Qed.

(** A pattern whose literal has a character that the end of the subject
    lacks finds in the subject what it finds before that end. *)
Lemma re_search_app_tail (r : regex) (pre t : str) (i x : ascii) :
  x ∈ re_literal r → x ∉ i :: t → i ∉ re_literal r → re_class r i = false →
  re_search r (pre ++ i :: t) = re_search r pre.
Proof.
  intros Hx Ht Hi Hc. induction pre as [|c pre IH].
  - simpl app. rewrite (re_search_no_char r (i :: t) x) by done.
    by rewrite (re_search_no_char r [] x) by (done || apply not_elem_of_nil).
  - change ((c :: pre) ++ i :: t) with (c :: (pre ++ i :: t)).
    cbn [re_search].
    change (c :: pre ++ i :: t) with ((c :: pre) ++ i :: t).
    rewrite re_match_at_app_tail by done. by rewrite IH.
Qed.

Lemma contains_app_tail (needle pre t : str) (i x : ascii) :
  x ∈ needle → x ∉ i :: t → i ∉ needle →
  contains needle (pre ++ i :: t) = contains needle pre.
Proof.
  intros Hx Ht Hi.
  assert (Hnone : ∀ s, x ∉ s → contains needle s = false).
  { intros s Hs. destruct (contains needle s) eqn:E; [|done].
    apply contains_spec in E as (a & b & ->). contradict Hs.
    rewrite !elem_of_app. right. by left. }
  induction pre as [|c pre IH].
  - simpl app. rewrite (Hnone (i :: t)) by done.
    by rewrite (Hnone []) by apply not_elem_of_nil.
  - change ((c :: pre) ++ i :: t) with (c :: (pre ++ i :: t)).
    cbn [contains].
    change (c :: pre ++ i :: t) with ((c :: pre) ++ i :: t).
    rewrite strip_prefix_app_tail by done. rewrite IH.
    by destruct (strip_prefix needle (c :: pre)).
Qed.

Section agreement.
Context (self : MaildirFolder).
Context (Hok : folder_ok self).

Lemma marker_no_equals (g : str) :
  forallb is_word g = true → "=" ∉ flag_marker self g.
Proof.
  intros Hg. unfold flag_marker. rewrite elem_of_cons. intros [H|H].
  - by destruct Hok as ([E|E] & _); rewrite E in H.
  - simpl in H. do 2 (apply elem_of_cons in H as [H|H]; [done|]).
    apply list_elem_of_In in H. by apply (proj1 (forallb_forall _ _) Hg) in H.
Qed.

(** The UID decoded from a name does not depend on its flags marker. *)
Lemma parsed_uid_marker (pre g : str) :
  forallb is_word g = true →
  parsed_uid self (pre ++ flag_marker self g) = parsed_uid self pre.
Proof.
  intros Hg. pose proof (marker_no_equals g Hg) as Heq.
  destruct (infosep_chars self Hok) as (Hd & _ & Hu & Hf & Hm).
  unfold parsed_uid, _parse_filename, flag_marker in *. cbn [fst snd].
  rewrite (contains_app_tail _ pre _ (infosep self) "=");
    [|apply elem_of_app; left; apply (bool_decide_unpack _); by vm_compute
     |done
     |rewrite elem_of_app; by intros [?|?]].
  rewrite (re_search_app_tail re_uidmatch pre _ (infosep self) "=");
    [done|apply (bool_decide_unpack _); by vm_compute|done|done|done].
Qed.

Lemma parsed_flags_name (pre g name : str) :
  name_with_flags self pre g name → parsed_flags self name = list_to_set g.
Proof.
  intros (Hpre & Hg & [-> | [-> ->]]).
  - by apply parsed_flags_suffix.
  - unfold parsed_flags, _parse_filename. cbn [snd].
    rewrite <- (app_nil_r pre), re_search_skip.
    + by rewrite (re_search_no_char _ [] (infosep self))
        by (by left || apply not_elem_of_nil).
    + intros k Hk. apply (re_match_at_no_head _ (infosep self) (lit "2,")); [done|].
      apply (head_drop_app (λ c, c ≠ infosep self)); [|done].
      apply Forall_forall. by intros c Hc ->.
Qed.

Lemma parsed_uid_name (pre g name : str) :
  name_with_flags self pre g name → parsed_uid self name = parsed_uid self pre.
Proof.
  intros (Hpre & Hg & [-> | [-> ->]]); [by apply parsed_uid_marker|done].
Qed.

(** The name [savemessageflags] computes from a name in agreement. *)
Lemma target_name_agreement (it : item) (flags' : gset ascii) (pre g : str) :
  name_with_flags self pre g (os_path_split (filename it)).2 →
  flags' ≠ flags it →
  target_name self it flags' = pre ++ flag_marker self (sorted_flags flags').
Proof.
  intros (Hpre & Hg & Hname) Hfl. unfold target_name.
  rewrite decide_True by done.
  set (name := (os_path_split (filename it)).2) in *.
  assert (Hskip : ∀ s, re_search (re_flagmatch self) (pre ++ s) =
            prod_map (λ i, length pre + i)%nat id <$> re_search (re_flagmatch self) s).
  { intros s. apply re_search_skip. intros k Hk.
    apply (re_match_at_no_head _ (infosep self) (lit "2,")); [done|].
    apply (head_drop_app (λ c, c ≠ infosep self)); [|done].
    apply Forall_forall. by intros c Hc ->. }
  destruct Hname as [-> | [-> ->]].
  - rewrite Hskip. rewrite (re_search_here _ _ g).
    + cbn [fmap option_fmap option_map prod_map fst snd group0 re_literal re_flagmatch].
      change (group0 (re_flagmatch self) ((length pre + 0)%nat, id g))
        with (flag_marker self g).
      replace (length (pre ++ flag_marker self g) - length (flag_marker self g))%nat
        with (length pre) by (rewrite length_app; lia).
      by rewrite take_app_length.
    + pose proof (re_match_at_complete (re_flagmatch self) g [] Hg) as H.
      rewrite app_nil_r in H. apply H; [simpl; lia|done].
  - rewrite <- (app_nil_r pre) at 1. rewrite Hskip.
    by rewrite (re_search_no_char _ [] (infosep self))
      by (by left || apply not_elem_of_nil).
Qed.
End agreement.

(** X8.  [savemessageflags] keeps the cached flags and the flags in the
    file name in agreement and keeps the identity of the message: when the
    cached name is an identity part followed by a flags marker (or nothing)
    that spells the cached flags, then after a call that returns with a set
    of flag letters the cached flags are the new ones, the cached name is
    the same identity part with a marker that decodes to the new flags, and
    the UID decoded from the name is the one decoded before. *)
Theorem savemessageflags_keeps_agreement (self : MaildirFolder) (uid : Z)
    (flags' : gset ascii) (σ σ' : State) (it : item) (pre g : str) :
  folder_ok self →
  messagelist σ !! uid = Some it →
  name_with_flags self pre g (os_path_split (filename it)).2 →
  flags it = list_to_set g →
  forallb is_flag_letter (elements flags') = true →
  savemessageflags self uid flags' σ = (Return tt, σ') →
  ∃ g' name',
    messagelist σ' !! uid = Some (Item flags' (final_path flags' name')) ∧
    name_with_flags self pre g' name' ∧
    list_to_set g' = flags' ∧
    parsed_flags self name' = flags' ∧
    parsed_uid self name' = parsed_uid self (os_path_split (filename it)).2.
Proof.
  intros Hok Hit Hname Hcached Hflags Hrun.
  assert (Hletters : ∀ c, c ∈ sorted_flags flags' →
            is_word c = true ∧ c ≠ os_path_sep).
  { intros c Hc%sorted_flags_elem%elem_of_elements%list_elem_of_In.
    apply is_flag_letter_word. by apply (proj1 (forallb_forall _ _) Hflags). }
  assert (Hnosep : os_path_sep ∉ flags').
  { intros Hin%sorted_flags_elem. by apply Hletters in Hin as [_ ?]. }
  assert (Hsorted : forallb is_word (sorted_flags flags') = true).
  { apply forallb_forall. intros c Hc%list_elem_of_In. by apply Hletters. }
  pose proof Hname as (Hpre & Hg & Hshape).
  assert (Hnew : name_with_flags self pre (sorted_flags flags')
                   (pre ++ flag_marker self (sorted_flags flags')))
    by (split_and!; [done..|by left]).
  assert (Hpath : target_path self it flags' =
                  final_path flags' (target_name self it flags'))
    by by apply target_path_eq.
  assert (Hresult : ∀ g' name',
            target_name self it flags' = name' →
            name_with_flags self pre g' name' → list_to_set g' = flags' →
            messagelist σ' !! uid = Some (Item flags' (final_path flags' name')) →
            ∃ g' name',
              messagelist σ' !! uid = Some (Item flags' (final_path flags' name')) ∧
              name_with_flags self pre g' name' ∧ list_to_set g' = flags' ∧
              parsed_flags self name' = flags' ∧
              parsed_uid self name' = parsed_uid self (os_path_split (filename it)).2).
  { intros g' name' Ht Hn Hs Hml. exists g', name'. split_and!; [done..| |].
    - by rewrite (parsed_flags_name self pre g' name').
    - rewrite (parsed_uid_name self Hok pre g' name') by done.
      by rewrite (parsed_uid_name self Hok pre g _ Hname). }
  rewrite (savemessageflags_eq self uid flags' σ it Hit) in Hrun.
  destruct (decide (flags' = flags it)) as [Hsame|Hdiff].
  - assert (Ht : target_name self it flags' = (os_path_split (filename it)).2)
      by (unfold target_name; by rewrite decide_False by (by intros ?)).
    apply (Hresult g _ Ht Hname); [congruence|].
    case_decide as Hmove.
    + destruct (fs_read _ _); [|done]. injection Hrun as <-.
      cbn [messagelist set_messagelist set_disk log_syscall].
      rewrite lookup_insert_eq, Hpath, Ht. done.
    + injection Hrun as <-. rewrite Hit. f_equal.
      destruct it as [fl fn]. cbn [flags filename] in *. f_equal; [done|].
      by rewrite <- Ht, <- Hpath, Hmove.
  - pose proof (target_name_agreement self it flags' pre g Hname Hdiff) as Ht.
    apply (Hresult (sorted_flags flags') _ Ht Hnew);
      [apply list_to_set_sorted_flags|].
    case_decide as Hmove.
    + destruct (fs_read _ _); [|done]. injection Hrun as <-.
      cbn [messagelist set_messagelist set_disk log_syscall].
      by rewrite lookup_insert_eq, Hpath, Ht.
    + exfalso. apply Hdiff. rewrite Hcached.
      rewrite <- (list_to_set_sorted_flags flags'). f_equal.
      assert (Htail : (os_path_split (filename it)).2 =
                      pre ++ flag_marker self (sorted_flags flags')).
      { rewrite <- Hmove, Hpath, Ht. unfold final_path.
        apply os_path_split_tail. rewrite <- Ht.
        by apply target_name_no_sep. }
      destruct Hshape as [Hs | [_ Hs]]; rewrite Hs in Htail.
      * apply app_inv_head in Htail. unfold flag_marker in Htail.
        by simplify_list_eq.
      * apply (f_equal length) in Htail. rewrite length_app in Htail.
        simpl in Htail. lia.
Qed.

Lemma savemessageflags_keeps_agreement_witness :
  ∃ σ' name',
    savemessageflags inbox 5 {[ "R"; "S" ]} (sample_state sample_cache sample_disk) =
      (Return tt, σ') ∧
    messagelist σ' !! 5 = Some (Item {[ "R"; "S" ]} (final_path {[ "R"; "S" ]} name')) ∧
    parsed_flags inbox name' = {[ "R"; "S" ]} ∧
    parsed_uid inbox name' = Some 5.
Proof.
  destruct (savemessageflags_keeps_agreement inbox 5 {[ "R"; "S" ]}
              (sample_state sample_cache sample_disk)
              (savemessageflags inbox 5 {[ "R"; "S" ]}
                 (sample_state sample_cache sample_disk)).2
              (Item {[ "S" ]}
                 (lit "cur/1000_0.123.host,U=5,FMD5=7e33429f656f1e6e9d79b29c3f82c57e:2,S"))
              (lit "1000_0.123.host,U=5,FMD5=7e33429f656f1e6e9d79b29c3f82c57e")
              (lit "S") inbox_ok)
    as (g' & name' & Hml & _ & _ & Hfl & Hu);
    [by vm_compute
    |split_and!; [apply (bool_decide_unpack _); by vm_compute|done|by left]
    |by vm_compute|by vm_compute|by vm_compute|].
  eexists _, name'. split; [by vm_compute|]. split_and!; [exact Hml|exact Hfl|].
  rewrite Hu. by vm_compute.
Defined.

(** ** Changing a UID *)

Lemma os_path_split_dir (dir fn : str) :
  dir = lit "new" ∨ dir = lit "cur" → os_path_sep ∉ fn →
  os_path_split (dir ++ os_path_sep :: fn) = (dir, fn).
Proof.
  intros Hdir Hfn.
  pose proof (os_path_split_tail dir fn Hfn) as Htail.
  unfold os_path_split in *. cbn [snd] in Htail. cbv zeta. rewrite Htail.
  replace (length (dir ++ os_path_sep :: fn) - length fn)%nat
    with (length (dir ++ [os_path_sep]))
    by (rewrite !length_app; simpl; lia).
  replace (dir ++ os_path_sep :: fn) with ((dir ++ [os_path_sep]) ++ fn)
    by (by rewrite <- app_assoc).
  rewrite take_app_length. by destruct Hdir as [-> | ->].
Qed.

Section renumbering.
Context (self : MaildirFolder) (proc : Process).
Context (Hok : folder_ok self).

(** [change_message_uid] by cases, for an entry under [new] or [cur]. *)
Lemma change_message_uid_eq (uid new_uid : Z) (σ : State) (it : item)
    (dir name fn : str) :
  messagelist σ !! uid = Some it → uid ≠ new_uid →
  filename it = dir ++ os_path_sep :: name →
  dir = lit "new" ∨ dir = lit "cur" → os_path_sep ∉ name →
  fn = message_filename self proc (clock σ) (next_seq (timehash σ) (clock σ))
         new_uid (flags it) →
  change_message_uid self proc uid new_uid σ =
    let σ1 := log_syscall (SysRename (abspath self (filename it))
                             (abspath self (dir ++ os_path_sep :: fn)))
                (set_timehash (<[clock σ := next_seq (timehash σ) (clock σ)]>) σ) in
    match fs_read (disk σ) (abspath self (filename it)) with
    | Some c =>
        (Return tt,
         set_messagelist
           (λ ml, delete uid (<[new_uid := Item (flags it) (dir ++ os_path_sep :: fn)]> ml))
           (set_disk (λ d, (abspath self (dir ++ os_path_sep :: fn), c) ::
                           fs_remove (abspath self (dir ++ os_path_sep :: fn))
                             (fs_remove (abspath self (filename it)) d)) σ1))
    | None => (Raise OSError_ENOENT, σ1)
    end.
Proof.
  intros Hit Hne Hfile Hdir Hname Hfn.
  unfold change_message_uid.
  unfold mbind at 1, M_bind at 1, gets at 1. rewrite Hit.
  rewrite decide_False by done.
  destruct (os_path_split (filename it)) as [dir' name'] eqn:Hsplit.
  rewrite Hfile, (os_path_split_dir dir name Hdir Hname) in Hsplit.
  injection Hsplit as <- <-.
  unfold mbind at 1, M_bind at 1, getmessageflags.
  unfold mbind at 1, M_bind at 1, gets at 1. rewrite Hit.
  unfold mret at 1, M_ret at 1.
  unfold mbind at 1, M_bind at 1. rewrite new_message_filename_eq.
  change (call_stamp (None, clock σ)) with (clock σ).
  change (default ∅ (Some (flags it))) with (flags it). rewrite <- Hfn.
  assert (Hjoin : os_path_join dir fn = dir ++ os_path_sep :: fn).
  { rewrite os_path_join_relative
      by (rewrite Hfn; apply head_not_sep; by apply message_filename_no_sep).
    by destruct Hdir as [-> | ->]. }
  rewrite Hjoin. unfold mbind, M_bind, os_rename, modify, with_filename, abspath.
  cbn [disk log_syscall set_timehash].
  by destruct (fs_read (disk σ) _).
Qed.

(** X9.  [change_message_uid] moves an entry to its new key: for a cached
    message under [new] or [cur] whose file is on the disk and a different
    new UID, the call returns; the old key is gone and the new key has the
    same flags and a new name in the same directory, the other keys being
    as before; the new name decodes to the new UID and to the flags; the
    file's content is at the new path and no longer at the old one, and
    every other path reads as before. *)
Theorem change_message_uid_rekeys (uid new_uid : Z) (σ : State) (it : item)
    (dir name fn c : str) :
  messagelist σ !! uid = Some it → uid ≠ new_uid →
  filename it = dir ++ os_path_sep :: name →
  dir = lit "new" ∨ dir = lit "cur" → os_path_sep ∉ name →
  fn = message_filename self proc (clock σ) (next_seq (timehash σ) (clock σ))
         new_uid (flags it) →
  fs_read (disk σ) (abspath self (filename it)) = Some c →
  0 ≤ new_uid → "," ∉ gethostname proc → infosep self ∉ gethostname proc →
  forallb is_flag_letter (elements (flags it)) = true →
  ∃ σ',
    change_message_uid self proc uid new_uid σ = (Return tt, σ') ∧
    messagelist σ' !! uid = None ∧
    messagelist σ' !! new_uid = Some (Item (flags it) (dir ++ os_path_sep :: fn)) ∧
    (∀ u, u ≠ uid → u ≠ new_uid → messagelist σ' !! u = messagelist σ !! u) ∧
    parsed_uid self fn = Some new_uid ∧ parsed_flags self fn = flags it ∧
    fs_read (disk σ') (abspath self (dir ++ os_path_sep :: fn)) = Some c ∧
    (name ≠ fn → fs_read (disk σ') (abspath self (filename it)) = None) ∧
    (∀ p, p ≠ abspath self (filename it) →
          p ≠ abspath self (dir ++ os_path_sep :: fn) →
          fs_read (disk σ') p = fs_read (disk σ) p).
Proof.
  intros Hit Hne Hfile Hdir Hname Hfn Hread Huid Hcomma Hsep Hflags.
  eexists. split.
  { rewrite (change_message_uid_eq uid new_uid σ it dir name fn) by done.
    cbv zeta. by rewrite Hread. }
  cbn [messagelist disk set_messagelist set_disk log_syscall set_timehash].
  split_and!.
  - apply lookup_delete_eq.
  - by rewrite lookup_delete_ne, lookup_insert_eq.
  - intros u Hu Hu'. by rewrite lookup_delete_ne, lookup_insert_ne.
  - rewrite Hfn. by apply message_filename_uid.
  - rewrite Hfn. by apply message_filename_flags.
  - simpl. by rewrite decide_True.
  - intros Hdiff. simpl. rewrite decide_False.
    + rewrite fs_read_remove_ne, fs_read_remove_eq; [done|].
      intros E. apply Hdiff. rewrite Hfile in E.
      apply abspath_relative_inj in E;
        [by simplify_list_eq|by destruct Hdir as [-> | ->]..].
    + intros E. apply Hdiff. rewrite Hfile in E.
      apply abspath_relative_inj in E;
        [by simplify_list_eq|by destruct Hdir as [-> | ->]..].
  - intros p Hp Hp'. simpl. rewrite decide_False by done.
    by rewrite !fs_read_remove_ne.
Qed.

End renumbering.

Lemma change_message_uid_rekeys_witness :
  ∃ σ',
    change_message_uid inbox sample_process 5 8
      (sample_state sample_cache sample_disk) = (Return tt, σ') ∧
    messagelist σ' !! 5 = None ∧
    messagelist σ' !! 8 =
      Some (Item {[ "S" ]}
              (lit "cur/1000_0.123.host,U=8,FMD5=7e33429f656f1e6e9d79b29c3f82c57e:2,S")).
Proof.
  destruct (change_message_uid_rekeys inbox sample_process inbox_ok 5 8
              (sample_state sample_cache sample_disk)
              (Item {[ "S" ]}
                 (lit "cur/1000_0.123.host,U=5,FMD5=7e33429f656f1e6e9d79b29c3f82c57e:2,S"))
              (lit "cur")
              (lit "1000_0.123.host,U=5,FMD5=7e33429f656f1e6e9d79b29c3f82c57e:2,S")
              (lit "1000_0.123.host,U=8,FMD5=7e33429f656f1e6e9d79b29c3f82c57e:2,S")
              (lit "second"))
    as (σ' & Hrun & Hold & Hnew & _);
    [by vm_compute|lia|by vm_compute|by right
    |apply (bool_decide_unpack _); by vm_compute
    |by vm_compute|by vm_compute|lia
    |apply (bool_decide_unpack _); by vm_compute
    |apply (bool_decide_unpack _); by vm_compute
    |by vm_compute|].
  exists σ'. split_and!; [exact Hrun|exact Hold|exact Hnew].
Defined.

(** X10.  [change_message_uid] changes nothing when it does not rename:
    with the new UID equal to a cached old one it returns with the state as
    it was; with a UID that is not cached it raises an [OfflineImapError]
    with the state as it was; when the cached file is not on the disk the
    [OSError] of the rename leaves the call, as nothing catches it; and
    every call that raises leaves the message list and the disk as they
    were. *)
Theorem change_message_uid_failure (self : MaildirFolder) (proc : Process)
    (uid new_uid : Z) (σ : State) :
  (uid = new_uid → is_Some (messagelist σ !! uid) →
   change_message_uid self proc uid new_uid σ = (Return tt, σ)) ∧
  (messagelist σ !! uid = None →
   change_message_uid self proc uid new_uid σ = (Raise OfflineImapError_MESSAGE, σ)) ∧
  (∀ it, messagelist σ !! uid = Some it → uid ≠ new_uid →
     fs_read (disk σ) (abspath self (filename it)) = None →
     ∃ e σ', change_message_uid self proc uid new_uid σ = (Raise e, σ') ∧
             is_OSError e = true) ∧
  (∀ e σ', change_message_uid self proc uid new_uid σ = (Raise e, σ') →
     messagelist σ' = messagelist σ ∧ disk σ' = disk σ).
Proof.
  assert (Hrename : ∀ it, messagelist σ !! uid = Some it → uid ≠ new_uid →
            match fs_read (disk σ) (abspath self (filename it)) with
            | Some c =>
                ∃ σ2, change_message_uid self proc uid new_uid σ = (Return tt, σ2)
            | None =>
                ∃ σ1, change_message_uid self proc uid new_uid σ =
                        (Raise OSError_ENOENT, σ1) ∧
                      messagelist σ1 = messagelist σ ∧ disk σ1 = disk σ
            end).
  { intros it Hit Hne.
    assert (∃ σ1 k, messagelist σ1 = messagelist σ ∧ disk σ1 = disk σ ∧
              change_message_uid self proc uid new_uid σ =
                match fs_read (disk σ) (abspath self (filename it)) with
                | Some c => (Return tt, k c)
                | None => (Raise OSError_ENOENT, σ1)
                end) as (σ1 & k & Hml & Hdisk & ->);
      [|destruct (fs_read (disk σ) _); eauto].
    unfold change_message_uid.
    unfold mbind at 1, M_bind at 1, gets at 1. rewrite Hit.
    rewrite decide_False by done.
    destruct (os_path_split (filename it)) as [dir name].
    unfold mbind at 1, M_bind at 1, getmessageflags.
    unfold mbind at 1, M_bind at 1, gets at 1. rewrite Hit.
    unfold mret at 1, M_ret at 1.
    unfold mbind at 1, M_bind at 1. rewrite new_message_filename_eq.
    unfold mbind, M_bind, os_rename, modify.
    cbn [disk log_syscall set_timehash].
    fold (abspath self (filename it)).
    eexists _, (λ c, _). split_and!; [| |by destruct (fs_read (disk σ) _)]; done. }
  split_and!.
  - intros Heq [it Hit]. unfold change_message_uid.
    unfold mbind at 1, M_bind at 1, gets at 1. rewrite Hit.
    by rewrite decide_True.
  - intros Hit. unfold change_message_uid.
    unfold mbind at 1, M_bind at 1, gets at 1. by rewrite Hit.
  - intros it Hit Hne Hread.
    specialize (Hrename it Hit Hne). rewrite Hread in Hrename.
    destruct Hrename as (σ1 & -> & _). by exists OSError_ENOENT, σ1.
  - intros e σ'. destruct (messagelist σ !! uid) as [it|] eqn:Hit.
    + destruct (decide (uid = new_uid)) as [Heq|Hne].
      * unfold change_message_uid.
        unfold mbind at 1, M_bind at 1, gets at 1. rewrite Hit.
        by rewrite decide_True.
      * specialize (Hrename it eq_refl Hne).
        destruct (fs_read (disk σ) _).
        -- by destruct Hrename as (σ2 & ->).
        -- destruct Hrename as (σ1 & -> & Hml & Hdisk). by intros [= <- <-].
    + unfold change_message_uid.
      unfold mbind at 1, M_bind at 1, gets at 1. rewrite Hit.
      by intros [= <- <-].
Qed.

Lemma change_message_uid_failure_witness :
  ∃ σ',
    change_message_uid inbox sample_process 5 8 (sample_state sample_cache []) =
      (Raise OSError_ENOENT, σ') ∧
    messagelist σ' = sample_cache ∧ disk σ' = [].
Proof.
  eexists. split; [by vm_compute|].
  destruct (proj2 (proj2 (proj2 (change_message_uid_failure inbox sample_process 5 8
                                   (sample_state sample_cache []))))
              OSError_ENOENT _ eq_refl)
    as (Hml & Hdisk).
  split; [exact Hml|exact Hdisk].
Defined.

(** ** What a scan returns *)

(** A decoded file whose UID no other decoded file has is the entry of its
    UID in a scan without cutoffs. *)
Lemma scanfolder_unique_uid (self : MaildirFolder) (d : list (str * str))
    (f : str * str) (u : Z) :
  f ∈ scan_files self d → considered self d f = true →
  parsed_uid self f.2 = Some u →
  (∀ f', f' ∈ scan_files self d → considered self d f' = true →
         parsed_uid self f'.2 = Some u → f' = f) →
  _scanfolder self d None None !! u =
    Some (Item (parsed_flags self f.2) (os_path_join f.1 f.2)).
Proof.
  intros Hf Hcons Hu Honly.
  pose proof (considered_file_kept self d None None f Hf Hcons) as Hkept.
  rewrite Hu in Hkept. simpl in Hkept. destruct (Hkept eq_refl) as [it Hit].
  change (primary_result self d None None !! u =
          Some (Item (parsed_flags self f.2) (os_path_join f.1 f.2))).
  rewrite Hit. f_equal.
  apply primary_entry in Hit as (_ & f' & Hf' & Hcons' & [-> Hkey] & _).
  destruct Hkey as [Hkey|[_ Hneg]].
  - by rewrite (Honly f' Hf' Hcons' Hkey).
  - apply parsed_uid_nonneg in Hu. lia.
Qed.

(** X11.  Every entry of [_scanfolder], with any cutoffs, comes from a
    name that is listed under [new] or [cur], is not hidden and passed the
    size test: the entry's path is that directory and that name, its flags
    are the ones decoded from the name; its key is the UID decoded from
    the name, which then carries this folder's fingerprint, or a negative
    number when no UID is decoded; and the key is not below the UID
    floor. *)
Theorem scanfolder_entries_sound (self : MaildirFolder) (d : list (str * str))
    (min_date min_uid : option Z) (u : Z) (it : item) :
  _scanfolder self d min_date min_uid !! u = Some it →
  ∃ f, f ∈ scan_files self d ∧
       (f.1 = lit "new" ∨ f.1 = lit "cur") ∧
       hidden f.2 = false ∧ oversize self d f = false ∧
       it = Item (parsed_flags self f.2) (f.1 ++ os_path_sep :: f.2) ∧
       ((parsed_uid self f.2 = Some u ∧
         contains (lit ",FMD5=" ++ _foldermd5 self) f.2 = true) ∨
        (parsed_uid self f.2 = None ∧ u < 0)) ∧
       below_floor min_uid u = false.
Proof.
  intros Hres.
  assert (∃ f, f ∈ scan_files self d ∧ considered self d f = true ∧
               entry_of self f u it ∧ below_floor min_uid u = false)
    as (f & Hf & Hcons & [-> Hkey] & Hfloor).
  { rewrite result_lookup in Hres.
    assert (Hprim : primary_result self d min_date min_uid !! u = Some it →
              ∃ f, f ∈ scan_files self d ∧ considered self d f = true ∧
                   entry_of self f u it ∧ below_floor min_uid u = false).
    { intros (? & f & ? & ? & ? & _)%primary_entry. by exists f. }
    destruct min_date as [md|]; [|by apply Hprim].
    destruct (min_positive_uid _ _ _ _); [|by apply Hprim].
    case_decide; [|by apply Hprim].
    destruct (side_set _ _ _ _ !! u) as [it'|] eqn:Hside; [|by apply Hprim].
    injection Hres as ->.
    apply side_entry in Hside as (? & f & ? & ? & ? & _). by exists f. }
  pose proof (scan_files_path self d f Hf) as (Hjoin & Hdir & _).
  apply andb_true_iff in Hcons as [Hhid%negb_true_iff Hbig%negb_true_iff].
  exists f. split_and!; [done..|by rewrite Hjoin| |done].
  destruct Hkey as [Hkey|Hkey]; [left|by right]. split; [done|].
  by apply parsed_uid_Some in Hkey as [? _].
Qed.

Lemma scanfolder_entries_sound_witness :
  ∃ f, f ∈ scan_files inbox sample_disk ∧ hidden f.2 = false ∧
       parsed_uid inbox f.2 = Some 7.
Proof.
  destruct (scanfolder_entries_sound inbox sample_disk (Some 950) (Some 5) 7
              (Item ∅ (lit "new/900_0.123.host,U=7,FMD5=7e33429f656f1e6e9d79b29c3f82c57e:2,")))
    as (f & Hf & _ & Hhid & _ & _ & [[Hu _]|[_ Hneg]] & _);
    [by vm_compute| |lia].
  exists f. split_and!; [exact Hf|exact Hhid|exact Hu].
Defined.

(** X12.  A scan without cutoffs loses no file: a file listed under [new]
    or [cur] that is not hidden and is within the size limit has its own
    entry under a negative key when no UID is decoded from its name, and
    is the entry of its UID when no other such file decodes to that UID. *)
Theorem scanfolder_represents_files (self : MaildirFolder)
    (d : list (str * str)) (f : str * str) :
  f ∈ scan_files self d → considered self d f = true →
  match parsed_uid self f.2 with
  | Some u =>
      (∀ f', f' ∈ scan_files self d → considered self d f' = true →
             parsed_uid self f'.2 = Some u → f' = f) →
      _scanfolder self d None None !! u =
        Some (Item (parsed_flags self f.2) (f.1 ++ os_path_sep :: f.2))
  | None =>
      ∃ u, u < 0 ∧
        _scanfolder self d None None !! u =
          Some (Item (parsed_flags self f.2) (f.1 ++ os_path_sep :: f.2))
  end.
Proof.
  intros Hf Hcons.
  pose proof (scan_files_path self d f Hf) as (Hjoin & _).
  destruct (parsed_uid self f.2) as [u|] eqn:Hu.
  - intros Honly. rewrite <- Hjoin. by apply scanfolder_unique_uid.
  - pose proof (considered_file_kept self d None None f Hf Hcons) as Hkept.
    rewrite Hu in Hkept. destruct Hkept as (u & Hneg & Hit).
    exists u. split; [done|]. by rewrite <- Hjoin.
Qed.

Lemma scanfolder_represents_files_witness :
  ∃ u, u < 0 ∧
    _scanfolder inbox sample_disk None None !! u = Some (Item ∅ (lit "cur/note")).
Proof.
  apply (scanfolder_represents_files inbox sample_disk (lit "cur", lit "note"));
    [apply (bool_decide_unpack _); by vm_compute|by vm_compute].
Defined.

(** ** The negative keys of a scan *)

Section numbering.
Context (self : MaildirFolder) (d : list (str * str)).
Context (min_date min_uid : option Z).

Local Abbreviation ninv := (numbering_inv self d min_date).
Local Abbreviation nstep := (scan_file self d min_date min_uid).

Lemma unowned_snoc (files : list (str * str)) (f : str * str) :
  unowned self d (files ++ [f]) =
    if decide (considered self d f = true ∧ parsed_uid self f.2 = None)
    then unowned self d files ++ [f] else unowned self d files.
Proof.
  unfold unowned. rewrite filter_app, filter_cons, filter_nil.
  case_decide; [done|by rewrite app_nil_r].
Qed.

Lemma numbering_inv_step (files : list (str * str)) (s : scan) (f : str * str) :
  ninv files s → ninv (files ++ [f]) (nstep s f).
Proof.
  intros (Hctr & Hfree & Hkeys). rewrite scan_file_eq. unfold numbering_inv.
  rewrite unowned_snoc.
  destruct (considered self d f) eqn:Hcons;
    [|rewrite decide_False by (by intros [? _]); by split_and!].
  assert (Hneg : nouidcounter s < 0) by lia.
  destruct (parsed_uid self f.2) as [u|] eqn:Hu.
  - rewrite decide_False by (by intros [_ ?]).
    apply parsed_uid_nonneg in Hu. cbv zeta. cbn [fst snd].
    destruct (below_floor min_uid u); [by split_and!|].
    destruct (too_old min_date f.2) eqn:Hold; cbn [nouidcounter retval date_excludees];
      (split_and!; [done| |]).
    1,3: intros v Hv; destruct (Hfree v Hv); by rewrite lookup_insert_ne by lia.
    all: intros i g Hi; specialize (Hkeys i g Hi); cbv zeta in Hkeys;
      destruct (too_old min_date g.2);
      by rewrite lookup_insert_ne by lia.
  - rewrite decide_True by done. cbv zeta. cbn [fst snd].
    rewrite below_floor_negative by lia.
    assert (Hfresh : ∀ i g, unowned self d files !! i = Some g →
              nouidcounter s ≠ - Z.of_nat i - 1).
    { intros i g Hi%lookup_lt_Some. lia. }
    destruct (Hfree (nouidcounter s)) as [Hr Hd]; [lia|].
    destruct (too_old min_date f.2) eqn:Hold; cbn [nouidcounter retval date_excludees];
      (split_and!; [rewrite length_app; simpl; lia| |]).
    1,3: intros v Hv; destruct (Hfree v) as [? ?]; [lia|];
         by rewrite lookup_insert_ne by lia.
    all: intros i g Hi;
      (apply lookup_app_Some in Hi as [Hi|[Hlen Hi]];
       [specialize (Hkeys i g Hi); cbv zeta in Hkeys;
        pose proof (Hfresh i g Hi);
        destruct (too_old min_date g.2);
        by rewrite lookup_insert_ne by done
       |apply list_lookup_singleton_Some in Hi as [Hi ->];
        replace (- Z.of_nat i - 1) with (nouidcounter s) by lia;
        cbv zeta; by rewrite Hold, lookup_insert_eq]).
Qed.

Lemma numbering_inv_foldl (files0 files : list (str * str)) (s : scan) :
  ninv files0 s → ninv (files0 ++ files) (foldl nstep s files).
Proof.
  revert files0 s. induction files as [|f files IH]; intros files0 s Hs.
  - by rewrite app_nil_r.
  - simpl. replace (files0 ++ f :: files) with ((files0 ++ [f]) ++ files)
      by (by rewrite <- app_assoc).
    by apply IH, numbering_inv_step.
Qed.

Lemma scan_loop_numbering :
  ninv (scan_files self d) (scan_loop self d min_date min_uid).
Proof.
  apply (numbering_inv_foldl [] (scan_files self d)).
  split_and!; [done| |intros i f Hi; by cbv in Hi].
  by intros u _.
Qed.

End numbering.

(** X13.  The negative keys of a scan are handed out in the order of the
    listing and do not depend on the cutoffs: the file number [i] (from 0)
    among the decoded files without a UID of this folder has the key
    [-(i+1)]; its entry is in the result unless the date cutoff excludes
    it, in which case the result has nothing under that key; and the
    result has no key below the last one handed out. *)
Theorem scanfolder_negative_keys (self : MaildirFolder) (d : list (str * str))
    (min_date min_uid : option Z) :
  (∀ i f, unowned self d (scan_files self d) !! i = Some f →
     _scanfolder self d min_date min_uid !! (- Z.of_nat i - 1) =
       if too_old min_date f.2 then None
       else Some (Item (parsed_flags self f.2) (f.1 ++ os_path_sep :: f.2))) ∧
  (∀ u, u < - Z.of_nat (length (unowned self d (scan_files self d))) →
        _scanfolder self d min_date min_uid !! u = None).
Proof.
  destruct (scan_loop_numbering self d min_date min_uid) as (Hctr & Hfree & Hkeys).
  split.
  - intros i f Hi. rewrite result_negative by lia.
    assert (Hf : f ∈ scan_files self d).
    { apply list_elem_of_lookup_2 in Hi. unfold unowned in Hi.
      by apply list_elem_of_filter in Hi as [_ ?]. }
    pose proof (scan_files_path self d f Hf) as (Hjoin & _).
    specialize (Hkeys i f Hi). cbv zeta in Hkeys. rewrite Hjoin in Hkeys.
    unfold primary_result. by destruct (too_old min_date f.2); destruct Hkeys.
  - intros u Hu. rewrite result_negative by lia.
    unfold primary_result. by destruct (Hfree u); [lia|].
Qed.

Lemma scanfolder_negative_keys_witness :
  _scanfolder inbox sample_disk None (Some 6) !! (-1) =
    Some (Item ∅ (lit "cur/note")) ∧
  _scanfolder inbox sample_disk None (Some 6) !! (-2) = None.
Proof.
  destruct (scanfolder_negative_keys inbox sample_disk None (Some 6)) as [Hkeys Hnone].
  split.
  - by apply (Hkeys 0%nat (lit "cur", lit "note")).
  - apply Hnone. by vm_compute.
Defined.

(** ** Scanning after a rename *)

Lemma abspath_listed (self : MaildirFolder) (dir fn : str) :
  dir = lit "new" ∨ dir = lit "cur" →
  os_path_join (getfullname self) dir ++ os_path_sep :: fn =
    abspath self (dir ++ os_path_sep :: fn).
Proof.
  intros Hdir. unfold abspath.
  rewrite !os_path_join_relative by (by destruct Hdir as [-> | ->]).
  destruct (last (getfullname self)) as [c0|]; [|done].
  case_decide; by rewrite <- app_assoc.
Qed.

(** The listed files are the files of the disk directly under [new] and
    [cur]. *)
Lemma scan_files_on_disk (self : MaildirFolder) (d : list (str * str))
    (f : str * str) :
  f ∈ scan_files self d ↔
  (f.1 = lit "new" ∨ f.1 = lit "cur") ∧ f.2 ≠ [] ∧ (os_path_sep ∉ f.2) ∧
  ∃ c, (abspath self (f.1 ++ os_path_sep :: f.2), c) ∈ d.
Proof.
  rewrite elem_of_scan_files, elem_of_os_listdir. split.
  - intros (Hdir & Hne & Hsep & c & Hc). split_and!; [done..|].
    exists c. by rewrite <- abspath_listed.
  - intros (Hdir & Hne & Hsep & c & Hc). split_and!; [done..|].
    exists c. by rewrite abspath_listed.
Qed.

Lemma fs_read_Some_elem (d : list (str * str)) (p c : str) :
  fs_read d p = Some c → (p, c) ∈ d.
Proof.
  induction d as [|[q c'] d IH]; [done|]. simpl.
  case_decide as Hq; [intros [= ->]; subst q; by left|].
  intros H. right. by apply IH.
Qed.

Lemma scan_files_remove (self : MaildirFolder) (d : list (str * str))
    (q : str) (f : str * str) :
  f ∈ scan_files self (fs_remove q d) →
  f ∈ scan_files self d ∧ abspath self (f.1 ++ os_path_sep :: f.2) ≠ q.
Proof.
  rewrite !scan_files_on_disk. intros (Hdir & Hne & Hsep & c & Hc).
  apply list_elem_of_filter in Hc as [Hq Hc]. split; [|done].
  split_and!; [done..|]. by exists c.
Qed.

Lemma hidden_app (pre s : str) : pre ≠ [] → hidden (pre ++ s) = hidden pre.
Proof.
  intros Hpre. destruct pre as [|a pre]; [done|].
  unfold hidden. simpl. by case_decide.
Qed.

(** A file on the disk under [new] or [cur] that the scanner decodes to a
    UID no other listed file decodes to is the entry of that UID. *)
Lemma scanfolder_file_on_disk (self : MaildirFolder) (d : list (str * str))
    (dir fn c : str) (u : Z) :
  dir = lit "new" ∨ dir = lit "cur" → fn ≠ [] → os_path_sep ∉ fn →
  hidden fn = false →
  fs_read d (abspath self (dir ++ os_path_sep :: fn)) = Some c →
  match getmaxsize self with
  | Some maxsize => maxsize = 0 ∨ Z.of_nat (length c) ≤ maxsize
  | None => True
  end →
  parsed_uid self fn = Some u →
  (∀ f, f ∈ scan_files self d → parsed_uid self f.2 = Some u →
        abspath self (f.1 ++ os_path_sep :: f.2) =
        abspath self (dir ++ os_path_sep :: fn)) →
  _scanfolder self d None None !! u =
    Some (Item (parsed_flags self fn) (dir ++ os_path_sep :: fn)).
Proof.
  intros Hdir Hne Hsep Hvis Hread Hsize Hu Honly.
  set (f0 := (dir, fn)).
  assert (Hf0 : f0 ∈ scan_files self d).
  { apply scan_files_on_disk. split_and!; [done..|].
    exists c. by apply fs_read_Some_elem. }
  pose proof (scan_files_path self d f0 Hf0) as (Hjoin & _).
  assert (Hcons : considered self d f0 = true).
  { unfold considered. change (f0.2) with fn. rewrite Hvis.
    cbn [negb andb]. unfold oversize. rewrite Hjoin.
    fold (abspath self (f0.1 ++ os_path_sep :: f0.2)).
    destruct (getmaxsize self) as [m|]; [|done].
    unfold os_path_getsize, f0. cbn [fst snd]. rewrite Hread. simpl.
    destruct Hsize as [-> | Hle]; [done|].
    rewrite (bool_decide_eq_false_2 (_ > _)) by lia. by rewrite andb_false_r. }
  rewrite (scanfolder_unique_uid self d f0 u Hf0 Hcons Hu); [by rewrite Hjoin|].
  intros f Hf _ Hfu.
  apply (scan_files_path_inj self d f f0 Hf Hf0).
  pose proof (scan_files_path self d f Hf) as (Hjoin' & Hdir' & _).
  rewrite Hjoin, Hjoin'. apply (abspath_relative_inj self);
    [by destruct Hdir' as [-> | ->]|by destruct Hdir as [-> | ->]|].
  by apply Honly.
Qed.

(** The same after the file was renamed from another path. *)
Lemma scanfolder_renamed_file (self : MaildirFolder) (d : list (str * str))
    (dir fn c q : str) (u : Z) :
  dir = lit "new" ∨ dir = lit "cur" → fn ≠ [] → os_path_sep ∉ fn →
  hidden fn = false →
  match getmaxsize self with
  | Some maxsize => maxsize = 0 ∨ Z.of_nat (length c) ≤ maxsize
  | None => True
  end →
  parsed_uid self fn = Some u →
  (∀ f, f ∈ scan_files self d → parsed_uid self f.2 = Some u →
        abspath self (f.1 ++ os_path_sep :: f.2) = q) →
  _scanfolder self
    ((abspath self (dir ++ os_path_sep :: fn), c) ::
     fs_remove (abspath self (dir ++ os_path_sep :: fn)) (fs_remove q d))
    None None !! u =
    Some (Item (parsed_flags self fn) (dir ++ os_path_sep :: fn)).
Proof.
  intros Hdir Hne Hsep Hvis Hsize Hu Honly.
  apply (scanfolder_file_on_disk self _ dir fn c u); try done.
  - simpl. by rewrite decide_True.
  - intros f Hf Hfu.
    pose proof (scan_files_path self _ f Hf) as (Hjoin & _).
    destruct (scan_files_after_store self _ _ _ f Hf) as [Hp|Hold];
      [by rewrite <- Hjoin|].
    apply scan_files_remove in Hold as [Hold Hq].
    by apply Honly in Hold.
Qed.

Section renumbered_scan.
Context (self : MaildirFolder) (proc : Process).
Context (Hok : folder_ok self).

(** X14.  After [change_message_uid] a scan agrees with the message list:
    when no listed file decodes to the new UID before the call, a scan
    without cutoffs of the disk the call leaves has under the new UID the
    entry of the message list; and when the old UID is not negative and
    only the renamed file decoded to it, the scan no longer has the old
    UID. *)
Theorem change_message_uid_then_scan (uid new_uid : Z) (σ : State) (it : item)
    (dir name fn c : str) :
  messagelist σ !! uid = Some it → uid ≠ new_uid →
  filename it = dir ++ os_path_sep :: name →
  dir = lit "new" ∨ dir = lit "cur" → os_path_sep ∉ name →
  fn = message_filename self proc (clock σ) (next_seq (timehash σ) (clock σ))
         new_uid (flags it) →
  fs_read (disk σ) (abspath self (filename it)) = Some c →
  0 ≤ new_uid → "," ∉ gethostname proc → infosep self ∉ gethostname proc →
  forallb is_flag_letter (elements (flags it)) = true →
  match getmaxsize self with
  | Some maxsize => maxsize = 0 ∨ Z.of_nat (length c) ≤ maxsize
  | None => True
  end →
  (∀ f, f ∈ scan_files self (disk σ) → parsed_uid self f.2 ≠ Some new_uid) →
  ∃ σ',
    change_message_uid self proc uid new_uid σ = (Return tt, σ') ∧
    messagelist σ' !! new_uid = Some (Item (flags it) (dir ++ os_path_sep :: fn)) ∧
    _scanfolder self (disk σ') None None !! new_uid = messagelist σ' !! new_uid ∧
    (0 ≤ uid →
     (∀ f, f ∈ scan_files self (disk σ) → parsed_uid self f.2 = Some uid →
           abspath self (f.1 ++ os_path_sep :: f.2) = abspath self (filename it)) →
     _scanfolder self (disk σ') None None !! uid = None).
Proof.
  intros Hit Hne Hfile Hdir Hname Hfn Hread Huid Hcomma Hsep Hflags Hsize Hother.
  eexists. split.
  { rewrite (change_message_uid_eq self proc Hok uid new_uid σ it dir name fn)
      by done.
    cbv zeta. by rewrite Hread. }
  cbn [messagelist disk set_messagelist set_disk log_syscall set_timehash].
  assert (Hml : delete uid (<[new_uid := Item (flags it) (dir ++ os_path_sep :: fn)]>
                              (messagelist σ)) !! new_uid =
                Some (Item (flags it) (dir ++ os_path_sep :: fn)))
    by by rewrite lookup_delete_ne, lookup_insert_eq.
  assert (Hdecodes : parsed_uid self fn = Some new_uid)
    by (rewrite Hfn; by apply message_filename_uid).
  assert (Hnosep : os_path_sep ∉ fn)
    by (rewrite Hfn; by apply message_filename_no_sep).
  split_and!; [done| |].
  - rewrite Hml.
    assert (Hpf : parsed_flags self fn = flags it)
      by (rewrite Hfn; by apply message_filename_flags).
    rewrite <- Hpf.
    apply scanfolder_renamed_file; try done.
    + rewrite Hfn. apply message_filename_visible.
    + rewrite Hfn. apply message_filename_visible.
    + intros f Hf Hfu. by apply Hother in Hf.
  - intros Hpos Honly.
    destruct (_scanfolder _ _ None None !! uid) as [it'|] eqn:Hscan; [|done].
    exfalso.
    apply (primary_entry self _ None None) in Hscan
      as (_ & f & Hf & _ & [_ Hkey] & _).
    destruct Hkey as [Hkey|[_ ?]]; [|lia].
    pose proof (scan_files_path self _ f Hf) as (Hjoin & Hdir' & _).
    destruct (scan_files_after_store self _ _ _ f Hf) as [Hp|Hold].
    + rewrite Hjoin in Hp. apply abspath_relative_inj in Hp;
        [|by destruct Hdir' as [-> | ->]|by destruct Hdir as [-> | ->]].
      assert (f.2 = fn) as Hf2
        by (destruct Hdir' as [E|E], Hdir as [-> | ->]; rewrite E in Hp;
            by simplify_list_eq).
      rewrite Hf2 in Hkey. congruence.
    + apply scan_files_remove in Hold as [Hold Hq].
      by apply Honly in Hold.
Qed.

End renumbered_scan.

Lemma change_message_uid_then_scan_witness :
  ∃ σ',
    change_message_uid inbox sample_process 5 8
      (sample_state sample_cache sample_disk) = (Return tt, σ') ∧
    _scanfolder inbox (disk σ') None None !! 8 = messagelist σ' !! 8 ∧
    _scanfolder inbox (disk σ') None None !! 5 = None.
Proof.
  destruct (change_message_uid_then_scan inbox sample_process inbox_ok 5 8
              (sample_state sample_cache sample_disk)
              (Item {[ "S" ]}
                 (lit "cur/1000_0.123.host,U=5,FMD5=7e33429f656f1e6e9d79b29c3f82c57e:2,S"))
              (lit "cur")
              (lit "1000_0.123.host,U=5,FMD5=7e33429f656f1e6e9d79b29c3f82c57e:2,S")
              (lit "1000_0.123.host,U=8,FMD5=7e33429f656f1e6e9d79b29c3f82c57e:2,S")
              (lit "second"))
    as (σ' & Hrun & _ & Hscan & Hgone);
    [by vm_compute|lia|by vm_compute|by right
    |apply (bool_decide_unpack _); by vm_compute
    |by vm_compute|by vm_compute|lia
    |apply (bool_decide_unpack _); by vm_compute
    |apply (bool_decide_unpack _); by vm_compute
    |by vm_compute|done| |].
  - intros f Hf.
    assert (Hall : Forall (λ f, parsed_uid inbox f.2 ≠ Some 8)
                     (scan_files inbox (disk (sample_state sample_cache sample_disk))))
      by (apply (bool_decide_unpack _); by vm_compute).
    by apply (proj1 (Forall_forall _ _) Hall).
  - exists σ'. split_and!; [exact Hrun|exact Hscan|].
    apply Hgone; [lia|]. intros f Hf.
    assert (Hall : Forall (λ f, parsed_uid inbox f.2 = Some 5 →
                     abspath inbox (f.1 ++ os_path_sep :: f.2) =
                     abspath inbox (lit "cur/1000_0.123.host,U=5,FMD5=7e33429f656f1e6e9d79b29c3f82c57e:2,S"))
                     (scan_files inbox (disk (sample_state sample_cache sample_disk))))
      by (apply (bool_decide_unpack _); by vm_compute).
    by apply (proj1 (Forall_forall _ _) Hall).
Defined.

Section flags_scan.
Context (self : MaildirFolder).
Context (Hok : folder_ok self).

Lemma flag_letters_sorted (flags' : gset ascii) :
  forallb is_flag_letter (elements flags') = true →
  forallb is_word (sorted_flags flags') = true ∧ (os_path_sep ∉ flags').
Proof.
  intros Hflags.
  assert (Hletters : ∀ c, c ∈ sorted_flags flags' →
            is_word c = true ∧ c ≠ os_path_sep).
  { intros c Hc%sorted_flags_elem%elem_of_elements%list_elem_of_In.
    apply is_flag_letter_word. by apply (proj1 (forallb_forall _ _) Hflags). }
  split.
  - apply forallb_forall. intros c Hc%list_elem_of_In. by apply Hletters.
  - intros Hin%sorted_flags_elem. by apply Hletters in Hin as [_ ?].
Qed.

(** The name [savemessageflags] computes from a name in agreement with the
    cached flags is in agreement with the new flags, and the path changes
    when the flags do. *)
Lemma target_name_cases (it : item) (flags' : gset ascii) (pre g : str) :
  name_with_flags self pre g (os_path_split (filename it)).2 →
  flags it = list_to_set g →
  forallb is_flag_letter (elements flags') = true →
  (∃ g', name_with_flags self pre g' (target_name self it flags') ∧
         list_to_set g' = flags') ∧
  (target_path self it flags' = filename it → flags' = flags it).
Proof.
  intros Hname Hcached Hflags.
  destruct (flag_letters_sorted flags' Hflags) as [Hsorted Hnosep].
  pose proof Hname as (Hpre & Hg & Hshape).
  destruct (decide (flags' = flags it)) as [Hsame|Hdiff].
  - split; [|done]. exists g. split; [|congruence].
    unfold target_name. by rewrite decide_False by (by intros ?).
  - pose proof (target_name_agreement self it flags' pre g Hname Hdiff) as Ht.
    split.
    + exists (sorted_flags flags'). rewrite Ht.
      split; [|apply list_to_set_sorted_flags].
      split_and!; [done..|by left].
    + intros Hmove. exfalso. apply Hdiff. rewrite Hcached.
      rewrite <- (list_to_set_sorted_flags flags'). f_equal.
      assert (Htail : (os_path_split (filename it)).2 =
                      pre ++ flag_marker self (sorted_flags flags')).
      { rewrite <- Hmove, (target_path_eq self it flags' Hok), Ht.
        apply os_path_split_tail. rewrite <- Ht.
        by apply target_name_no_sep. }
      destruct Hshape as [Hs | [_ Hs]]; rewrite Hs in Htail.
      * apply app_inv_head in Htail. unfold flag_marker in Htail.
        by simplify_list_eq.
      * apply (f_equal length) in Htail. rewrite length_app in Htail.
        simpl in Htail. lia.
Qed.

(** X15.  After [savemessageflags] a scan agrees with the message list:
    for a cached message whose file is on the disk under a name that is in
    agreement with the cached flags and decodes to the UID, as the only
    listed file that does, the call with a set of flag letters returns,
    the cached flags are the new ones, and a scan without cutoffs of the
    disk the call leaves has under the UID the entry of the message list. *)
Theorem savemessageflags_then_scan (uid : Z) (flags' : gset ascii) (σ : State)
    (it : item) (pre g c : str) :
  messagelist σ !! uid = Some it →
  name_with_flags self pre g (os_path_split (filename it)).2 →
  flags it = list_to_set g →
  parsed_uid self pre = Some uid → hidden pre = false →
  forallb is_flag_letter (elements flags') = true →
  fs_read (disk σ) (abspath self (filename it)) = Some c →
  match getmaxsize self with
  | Some maxsize => maxsize = 0 ∨ Z.of_nat (length c) ≤ maxsize
  | None => True
  end →
  (∀ f, f ∈ scan_files self (disk σ) → parsed_uid self f.2 = Some uid →
        abspath self (f.1 ++ os_path_sep :: f.2) = abspath self (filename it)) →
  ∃ σ',
    savemessageflags self uid flags' σ = (Return tt, σ') ∧
    flags <$> messagelist σ' !! uid = Some flags' ∧
    _scanfolder self (disk σ') None None !! uid = messagelist σ' !! uid.
Proof.
  intros Hit Hname Hcached Huid Hvis Hflags Hread Hsize Honly.
  destruct (flag_letters_sorted flags' Hflags) as [_ Hnosep].
  destruct (target_name_cases it flags' pre g Hname Hcached Hflags)
    as [(g' & Hname' & Hg') Hmoved].
  set (tn := target_name self it flags') in *.
  assert (Hpath : target_path self it flags' = flag_directory flags' ++ os_path_sep :: tn)
    by by apply target_path_eq.
  assert (Hdir : flag_directory flags' = lit "new" ∨ flag_directory flags' = lit "cur")
    by (unfold flag_directory; case_decide; eauto).
  assert (Hpre : pre ≠ []).
  { intros ->. apply parsed_uid_needs_fingerprint in Huid as [(p & q & E) _].
    by destruct p. }
  assert (Htn : tn ≠ [] ∧ hidden tn = false).
  { destruct Hname' as (_ & _ & [-> | [_ ->]]); [|done].
    rewrite hidden_app by done. split; [|done]. by destruct pre. }
  assert (Hsep : os_path_sep ∉ tn) by by apply target_name_no_sep.
  assert (Hpu : parsed_uid self tn = Some uid)
    by by rewrite (parsed_uid_name self Hok pre g' tn).
  assert (Hpf : parsed_flags self tn = flags')
    by by rewrite (parsed_flags_name self pre g' tn).
  rewrite (savemessageflags_eq self uid flags' σ it Hit).
  case_decide as Hmove.
  - rewrite Hread. eexists. split; [done|].
    cbn [messagelist disk set_messagelist set_disk log_syscall].
    rewrite lookup_insert_eq. split; [done|].
    rewrite Hpath.
    replace (Item flags' (flag_directory flags' ++ os_path_sep :: tn))
      with (Item (parsed_flags self tn) (flag_directory flags' ++ os_path_sep :: tn))
      by (by rewrite Hpf).
    by apply scanfolder_renamed_file; try apply Htn.
  - exists σ. split; [done|]. rewrite Hit.
    pose proof (Hmoved Hmove) as Hsame. split; [simpl; by f_equal|].
    assert (Hentry : it = Item (parsed_flags self tn)
                            (flag_directory flags' ++ os_path_sep :: tn)).
    { rewrite Hpf, <- Hpath, Hmove, Hsame. by destruct it. }
    replace (Some it)
      with (Some (Item (parsed_flags self tn)
                    (flag_directory flags' ++ os_path_sep :: tn)))
      by (by rewrite <- Hentry).
    apply (scanfolder_file_on_disk self _ _ tn c uid); try done; try apply Htn.
    + by rewrite <- Hpath, Hmove.
    + intros f Hf Hfu. rewrite <- Hpath, Hmove. by apply Honly.
Qed.

End flags_scan.

Lemma savemessageflags_then_scan_witness :
  ∃ σ',
    savemessageflags inbox 5 ∅ (sample_state sample_cache sample_disk) =
      (Return tt, σ') ∧
    _scanfolder inbox (disk σ') None None !! 5 = messagelist σ' !! 5.
Proof.
  destruct (savemessageflags_then_scan inbox inbox_ok 5 ∅
              (sample_state sample_cache sample_disk)
              (Item {[ "S" ]}
                 (lit "cur/1000_0.123.host,U=5,FMD5=7e33429f656f1e6e9d79b29c3f82c57e:2,S"))
              (lit "1000_0.123.host,U=5,FMD5=7e33429f656f1e6e9d79b29c3f82c57e")
              (lit "S") (lit "second"))
    as (σ' & Hrun & _ & Hscan);
    [by vm_compute
    |split_and!; [apply (bool_decide_unpack _); by vm_compute|done|by left]
    |by vm_compute|by vm_compute|by vm_compute|by vm_compute|by vm_compute|done| |].
  - intros f Hf.
    assert (Hall : Forall (λ f, parsed_uid inbox f.2 = Some 5 →
                     abspath inbox (f.1 ++ os_path_sep :: f.2) =
                     abspath inbox (lit "cur/1000_0.123.host,U=5,FMD5=7e33429f656f1e6e9d79b29c3f82c57e:2,S"))
                     (scan_files inbox (disk (sample_state sample_cache sample_disk))))
      by (apply (bool_decide_unpack _); by vm_compute).
    by apply (proj1 (Forall_forall _ _) Hall).
  - exists σ'. split; [exact Hrun|exact Hscan].
Defined.

(** ** What [savemessageflags] leaves alone *)

(** X16.  [savemessageflags] touches one message only: whatever the
    outcome, the other keys of the message list are as before, and every
    path other than the cached one and the one computed for the new flags
    reads as before; a call that raises leaves the message list and the
    disk as they were.  With a UID that is not cached the [assert] fails;
    when a rename is due and the cached file is not on the disk, the call
    raises an [OfflineImapError]. *)
Theorem savemessageflags_frame (self : MaildirFolder) (uid : Z)
    (flags' : gset ascii) (σ : State) :
  (∀ u, u ≠ uid →
     messagelist (savemessageflags self uid flags' σ).2 !! u = messagelist σ !! u) ∧
  (∀ it p, messagelist σ !! uid = Some it →
     p ≠ abspath self (filename it) →
     p ≠ abspath self (target_path self it flags') →
     fs_read (disk (savemessageflags self uid flags' σ).2) p = fs_read (disk σ) p) ∧
  (∀ e σ', savemessageflags self uid flags' σ = (Raise e, σ') →
     messagelist σ' = messagelist σ ∧ disk σ' = disk σ) ∧
  (messagelist σ !! uid = None →
   savemessageflags self uid flags' σ = (Raise AssertionError, σ)) ∧
  (∀ it, messagelist σ !! uid = Some it →
     target_path self it flags' ≠ filename it →
     fs_read (disk σ) (abspath self (filename it)) = None →
     (savemessageflags self uid flags' σ).1 = Raise OfflineImapError_FOLDER).
Proof.
  destruct (messagelist σ !! uid) as [it|] eqn:Hit.
  - rewrite (savemessageflags_eq self uid flags' σ it Hit).
    case_decide as Hmove;
      [destruct (fs_read (disk σ) (abspath self (filename it))) as [c|] eqn:Hread|];
      cbn [snd messagelist disk set_messagelist set_disk log_syscall].
    + split_and!; [| |done|done|].
      * intros u Hu. by rewrite lookup_insert_ne.
      * intros it' p [= <-] Hp Hp'. simpl. rewrite decide_False by done.
        by rewrite !fs_read_remove_ne.
      * intros it' [= <-] _ Hgone. congruence.
    + split_and!; [done|done| |done|done]. by intros e σ' [= <- <-].
    + split_and!; [done..|]. by intros it' [= <-] ?.
  - assert (Hrun : savemessageflags self uid flags' σ = (Raise AssertionError, σ)).
    { unfold savemessageflags. unfold mbind, M_bind, gets. by rewrite Hit. }
    rewrite Hrun. split_and!; [done|done| |done|done]. by intros e σ' [= <- <-].
Qed.

Lemma savemessageflags_frame_witness :
  ∃ σ',
    savemessageflags inbox 5 ∅ (sample_state sample_cache []) =
      (Raise OfflineImapError_FOLDER, σ') ∧
    messagelist σ' = sample_cache ∧ disk σ' = [].
Proof.
  assert (Hrun : savemessageflags inbox 5 ∅ (sample_state sample_cache []) =
                 (Raise OfflineImapError_FOLDER,
                  (savemessageflags inbox 5 ∅ (sample_state sample_cache [])).2))
    by by vm_compute.
  eexists. split; [exact Hrun|].
  destruct (proj1 (proj2 (proj2 (savemessageflags_frame inbox 5 ∅
                                   (sample_state sample_cache [])))) _ _ Hrun)
    as (Hml & Hdisk).
  split; [exact Hml|exact Hdisk].
Defined.

(** ** Scanning after a deletion *)

(** The disk [deletemessage] leaves. *)
Lemma deletemessage_disk (self : MaildirFolder) (uid : Z) (σ : State)
    (it : item) :
  messagelist σ !! uid = Some it →
  ∃ σ',
    deletemessage self uid σ = (Return tt, σ') ∧
    messagelist σ' = delete uid (messagelist σ) ∧
    disk σ' =
      match fs_read (disk σ) (abspath self (filename it)) with
      | Some _ => fs_remove (abspath self (filename it)) (disk σ)
      | None =>
          match _scanfolder self (disk σ) None None !! uid with
          | Some it' => fs_remove (abspath self (filename it')) (disk σ)
          | None => disk σ
          end
      end.
Proof.
  intros Hit. unfold deletemessage.
  rewrite (deletemessage_with_eq os_unlink self uid σ it Hit).
  unfold os_unlink at 1. cbn [disk log_syscall].
  destruct (fs_read (disk σ) _) as [c|] eqn:Hfile.
  - eexists. by split.
  - cbn [is_OSError disk log_syscall].
    destruct (_scanfolder self (disk σ) None None !! uid) as [it'|] eqn:Hscan.
    + pose proof (scanfolder_entry_on_disk self (disk σ) uid it' Hscan) as [c Hc].
      unfold os_unlink. cbn [disk log_syscall]. rewrite Hc.
      eexists. by split.
    + eexists. by split.
Qed.

(** X17.  What [deletemessage] deletes, a scan no longer finds: for a
    cached UID that is not negative, when at most one listed file decodes
    to the UID and the file at the cached path, if there is one, is that
    file, the call returns and a scan without cutoffs of the disk it leaves
    has no entry for the UID.  This holds also when the file was renamed
    since the message list was built. *)
Theorem deletemessage_then_scan (self : MaildirFolder) (uid : Z) (σ : State)
    (it : item) :
  messagelist σ !! uid = Some it → 0 ≤ uid →
  (∀ f f', f ∈ scan_files self (disk σ) → f' ∈ scan_files self (disk σ) →
           parsed_uid self f.2 = Some uid → parsed_uid self f'.2 = Some uid →
           f = f') →
  (is_Some (fs_read (disk σ) (abspath self (filename it))) →
   ∃ f, f ∈ scan_files self (disk σ) ∧ parsed_uid self f.2 = Some uid ∧
        abspath self (f.1 ++ os_path_sep :: f.2) = abspath self (filename it)) →
  ∃ σ',
    deletemessage self uid σ = (Return tt, σ') ∧
    messagelist σ' !! uid = None ∧
    _scanfolder self (disk σ') None None !! uid = None.
Proof.
  intros Hit Hpos Hone Hcached.
  destruct (deletemessage_disk self uid σ it Hit) as (σ' & Hrun & Hml & Hdisk).
  exists σ'. split; [done|]. split; [by rewrite Hml, lookup_delete_eq|].
  assert (Hgone : ∀ f1, f1 ∈ scan_files self (disk σ) →
            parsed_uid self f1.2 = Some uid →
            _scanfolder self
              (fs_remove (abspath self (f1.1 ++ os_path_sep :: f1.2)) (disk σ))
              None None !! uid = None).
  { intros f1 Hf1 Hu1.
    destruct (_scanfolder self (fs_remove _ _) None None !! uid) as [it2|]
      eqn:Hscan; [exfalso|done].
    apply (primary_entry self _ None None) in Hscan
      as (_ & f2 & Hf2 & _ & [_ Hkey] & _).
    destruct Hkey as [Hkey|[_ ?]]; [|lia].
    apply scan_files_remove in Hf2 as [Hf2 Hq].
    by rewrite (Hone f2 f1 Hf2 Hf1 Hkey Hu1) in Hq. }
  rewrite Hdisk.
  destruct (fs_read (disk σ) (abspath self (filename it))) as [c|] eqn:Hfile.
  - destruct (Hcached (mk_is_Some _ _ eq_refl)) as (f1 & Hf1 & Hu1 & Heq).
    rewrite <- Heq. by apply Hgone.
  - destruct (_scanfolder self (disk σ) None None !! uid) as [it'|] eqn:Hscan;
      [|done].
    apply (primary_entry self _ None None) in Hscan
      as (_ & f1 & Hf1 & _ & [-> Hkey] & _).
    destruct Hkey as [Hkey|[_ ?]]; [|lia].
    pose proof (scan_files_path self _ f1 Hf1) as (Hjoin & _).
    cbn [filename]. rewrite Hjoin. by apply Hgone.
Qed.

Lemma deletemessage_then_scan_witness :
  ∃ σ',
    deletemessage inbox 5 (sample_state sample_cache moved_disk) = (Return tt, σ') ∧
    _scanfolder inbox (disk σ') None None !! 5 = None.
Proof.
  destruct (deletemessage_then_scan inbox 5 (sample_state sample_cache moved_disk)
              (Item {[ "S" ]}
                 (lit "cur/1000_0.123.host,U=5,FMD5=7e33429f656f1e6e9d79b29c3f82c57e:2,S")))
    as (σ' & Hrun & _ & Hscan); [by vm_compute|lia| | |].
  - intros f f' Hf Hf' _ _.
    assert (Hall : Forall (λ f, f = (lit "new",
                     lit "1000_0.123.host,U=5,FMD5=7e33429f656f1e6e9d79b29c3f82c57e:2,"))
                     (scan_files inbox (disk (sample_state sample_cache moved_disk))))
      by (apply (bool_decide_unpack _); by vm_compute).
    rewrite (proj1 (Forall_forall _ _) Hall f Hf).
    by rewrite (proj1 (Forall_forall _ _) Hall f' Hf').
  - intros [c Hc]. by vm_compute in Hc.
  - exists σ'. split; [exact Hrun|exact Hscan].
Defined.

(** ** New names and the date test *)

Lemma fmt_d_neg (z : Z) : z < 0 → fmt_d z = "-" :: fmt_d (- z).
Proof. intros Hz. destruct z; try lia. done. Qed.

(** X18.  The date test reads the time of a new name without its sign: a
    name that [new_message_filename] makes for the time [t] passes
    [_iswithintime] for a cutoff exactly when the cutoff is at most the
    absolute value of [t]; for a time that is not negative that is when
    the time is not before the cutoff. *)
Theorem new_message_filename_within_time (self : MaildirFolder) (proc : Process)
    (uid : Z) (flags' : option (gset ascii)) (date : option Z) (σ : State)
    (cutoff : Z) :
  ∃ fn σ',
    new_message_filename self proc uid flags' date σ = (Return fn, σ') ∧
    _iswithintime fn cutoff =
      bool_decide (cutoff ≤ Z.abs (call_stamp (date, clock σ))).
Proof.
  rewrite new_message_filename_eq. eexists _, _. split; [done|].
  set (t := call_stamp (date, clock σ)).
  unfold message_filename. rewrite replace_char_app, fmt_d_replace.
  change (lit "_" ++ ?s) with ("_" :: s).
  rewrite replace_char_cons by done.
  destruct (Z_lt_le_dec t 0) as [Hneg|Hpos].
  - rewrite (fmt_d_neg t Hneg).
    destruct (fmt_d_nonneg (- t)) as (Hval & Hdig & Hne); [lia|].
    etrans;
      [apply (iswithintime_first_run [ "-" ] (fmt_d (- t)) ("_" :: _) cutoff);
       [by repeat constructor|done..]|].
    rewrite Hval. apply bool_decide_ext. lia.
  - destruct (fmt_d_nonneg t Hpos) as (Hval & Hdig & Hne).
    etrans;
      [apply (iswithintime_first_run [] (fmt_d t) ("_" :: _) cutoff); done|].
    rewrite Hval. apply bool_decide_ext. lia.
Qed.

(** ** The UID floor *)

Section uid_floor.
Context (self : MaildirFolder) (d : list (str * str)) (min_uid : option Z).

Lemma scan_floor_step (s s0 : scan) (f : str * str) :
  nouidcounter s = nouidcounter s0 →
  (∀ u, retval s !! u =
        if below_floor min_uid u then None else retval s0 !! u) →
  nouidcounter (scan_file self d None min_uid s f) =
    nouidcounter (scan_file self d None None s0 f) ∧
  ∀ u, retval (scan_file self d None min_uid s f) !! u =
       if below_floor min_uid u then None
       else retval (scan_file self d None None s0 f) !! u.
Proof.
  intros Hctr Hret. rewrite !scan_file_eq.
  destruct (considered self d f); [|done].
  rewrite Hctr. cbv zeta.
  set (uc := match parsed_uid self f.2 with
             | Some u => (u, nouidcounter s0)
             | None => (nouidcounter s0, nouidcounter s0 - 1)
             end).
  cbn [below_floor too_old].
  destruct (below_floor min_uid uc.1) eqn:Hfloor; cbn [nouidcounter retval];
    (split; [done|]); intros u;
    destruct (decide (u = uc.1)) as [->|Hne].
  - by rewrite Hret, Hfloor.
  - by rewrite Hret, lookup_insert_ne.
  - by rewrite Hfloor, !lookup_insert_eq.
  - rewrite !lookup_insert_ne by done. by rewrite Hret.
Qed.

Lemma scan_floor_foldl (files : list (str * str)) (s s0 : scan) :
  nouidcounter s = nouidcounter s0 →
  (∀ u, retval s !! u =
        if below_floor min_uid u then None else retval s0 !! u) →
  ∀ u, retval (foldl (scan_file self d None min_uid) s files) !! u =
       if below_floor min_uid u then None
       else retval (foldl (scan_file self d None None) s0 files) !! u.
Proof.
  revert s s0. induction files as [|f files IH]; intros s s0 Hctr Hret; [done|].
  simpl. destruct (scan_floor_step s s0 f Hctr Hret) as [Hctr' Hret'].
  by apply IH.
Qed.

End uid_floor.

(** X19.  Without a date cutoff the UID floor only filters: a scan with
    [min_uid] has nothing under the positive UIDs below [min_uid] and has
    under every other key, the negative ones and zero included, the entry
    of the scan without cutoffs. *)
Theorem scanfolder_uid_floor (self : MaildirFolder) (d : list (str * str))
    (min_uid u : Z) :
  _scanfolder self d None (Some min_uid) !! u =
    if decide (0 < u < min_uid) then None
    else _scanfolder self d None None !! u.
Proof.
  unfold _scanfolder, scan_loop.
  rewrite (scan_floor_foldl self d (Some min_uid) (scan_files self d)
             (Scan ∅ ∅ (-1)) (Scan ∅ ∅ (-1)) eq_refl).
  - unfold below_floor. case_decide.
    + by rewrite !bool_decide_eq_true_2 by lia.
    + destruct (decide (u > 0)).
      * rewrite (bool_decide_eq_false_2 (u < min_uid)) by lia.
        by rewrite andb_false_r.
      * by rewrite (bool_decide_eq_false_2 (u > 0)) by lia.
  - intros v. cbn [retval]. rewrite lookup_empty. by destruct (below_floor _ _).
Qed.
